(** * EhRecommender: the recommendation engine, its analyzers and the
      favorites crawler, embedded in Rocq.

    Numeric conventions.  Python floats are idealised: every quantity the
    code obtains from its inputs by [+ - * /], [min], [max] and integer
    powers is an exact rational ([Q]); the scores that go through
    [np.exp] or [np.std] are real numbers ([R]).  Instants
    ([datetime]) are integers counting microseconds, which is the
    resolution of [datetime]; [timedelta(days=d)] is [d * day].  An
    operation that reads the clock takes the reading as its argument
    [now], and one reading serves the whole operation.  Python
    dictionaries are finite maps ([gmap]); the SQLite tables of
    [models/database.py] are finite maps on their primary key, the
    append-only history table is a list. *)

From Stdlib Require Import QArith Qminmax Qpower Qround Qreals Reals Psatz ZArith Lia.
From Stdlib Require Import Ascii String.
From stdpp Require Import gmap strings list fin_maps sorting.

Set Default Proof Using "Type".

(** ** Collaborators outside the repository *)

(** [json.loads], restricted to the documents a tag column can hold:
    [None] stands for any exception, which every caller swallows. *)
Class Json := { json_loads : string -> option (list string) }.

(** [datetime.fromisoformat]: [None] stands for [ValueError]. *)
Class IsoFormat := { fromisoformat : string -> option Z }.

(** scikit-learn's [TfidfVectorizer] and [cosine_similarity].
    [fit_transform_mean v docs] is [v.fit_transform(docs)] followed by
    the column mean: it yields the vectorizer object as the call leaves
    it and the mean vector, or [None] when the call raises (for instance
    when [max_df] keeps fewer documents than [min_df]).
    [transform_cosine v u doc] is the cosine between [u] and
    [v.transform([doc])], or [None] when that raises (a vectorizer that
    was never fitted). *)
Class Sklearn := {
  Vectorizer : Type;
  Vector : Type;
  TfidfVectorizer : Vectorizer;
  fit_transform_mean : Vectorizer -> list string -> Vectorizer * option Vector;
  transform_cosine : Vectorizer -> Vector -> string -> option R
}.

(** ** Python built-ins *)

Definition Qltb (x y : Q) : bool := if Qlt_le_dec x y then true else false.

(** [sorted(xs, key=..., reverse=True)] and [list.sort(key=...,
    reverse=True)]: a stable sort in descending order; [gtb x y] says
    that the key of [x] is greater than the key of [y]. *)
Section Sorted.
Context {A : Type} (gtb : A -> A -> bool).

Fixpoint insert_desc (x : A) (s : list A) : list A :=
  match s with
  | [] => [x]
  | y :: s' => if gtb y x then y :: insert_desc x s' else x :: s
  end.

Definition sorted_desc (l : list A) : list A := foldr insert_desc [] l.
End Sorted.

Definition dict_values (d : gmap string Q) : list Q := (map_to_list d).*2.

(** [max(d.values()) if d else dflt] *)
Definition max_value_or (dflt : Q) (d : gmap string Q) : Q :=
  match dict_values d with
  | [] => dflt
  | v :: vs => foldl Qmax v vs
  end.

(** [{k: v / m for k, v in d.items()}] *)
Definition scale_by (m : Q) (d : gmap string Q) : gmap string Q :=
  (fun v => v / m)%Q <$> d.

(** [sum(xs)] *)
Definition sum_Q (xs : list Q) : Q := foldl Qplus 0%Q xs.

(** [collections.Counter]: [c[x] += 1]. *)
Definition counter_incr (c : gmap string nat) (x : string) : gmap string nat :=
  <[x := S (default 0%nat (c !! x))]> c.

(** [count / total] on integers, as Python's true division. *)
Definition ratio (count total : nat) : Q :=
  (inject_Z (Z.of_nat count) / inject_Z (Z.of_nat total))%Q.

(** [int(x)]: truncation toward zero. *)
Definition Qtrunc (x : Q) : Z :=
  if Qlt_le_dec x 0 then Qceiling x else Qfloor x.

(** [round(x, 3)] on an idealised float: the nearest multiple of
    [1/1000], ties to the even one. *)
Definition round_half_even (x : R) : Z :=
  let n := Int_part x in
  let f := frac_part x in
  if Rlt_dec f (1 / 2) then n
  else if Rlt_dec (1 / 2) f then (n + 1)%Z
  else if Z.even n then n else (n + 1)%Z.

Definition round3 (x : R) : R := (IZR (round_half_even (x * 1000)) / 1000)%R.

(** ** Galleries *)

Inductive TagsField :=
  | TagsList (l : list string)
  | TagsStr (raw : string).

Inductive PostedField :=
  | PostedDatetime (t : Z)
  | PostedStr (raw : string).

Record Gallery := {
  gid : Z;
  token : string;
  title : string;
  category : string;
  uploader : option string;
  posted : option PostedField;
  filecount : Z;
  rating : Q;
  tags : TagsField
}.

(** The idiom repeated in every consumer of a gallery:
    [tags = gallery.get("tags", []); if isinstance(tags, str): try
    json.loads except: tags = []]. *)
Definition gallery_tags `{Json} (g : Gallery) : list string :=
  match tags g with
  | TagsList l => l
  | TagsStr raw => default [] (json_loads raw)
  end.

(** The dictionary [details] of [compute_recommendation_score]. *)
Record ScoreDetails := {
  tag_score : R;
  uploader_score : R;
  quality_score : R;
  content_score : R;
  recency_score : R;
  total_score : R;
  matched_tags : list string
}.

(** ** Time *)

(** One day ([timedelta(days=1)]), in microseconds. *)
Definition day : Z := 86400000000.

(** ** Exceptions *)

(** The result of a call that may raise. *)
Inductive Outcome (A : Type) :=
  | Returned (a : A)
  | Raised (e : string).
Arguments Returned {A} a.
Arguments Raised {A} e.

(** ** recommender/tag_analyzer.py *)

Module TagAnalyzer.

Local Open Scope Q_scope.

Definition NAMESPACE_WEIGHTS : gmap string Q :=
  list_to_map
    [ ("female"%string, 1.2); ("male"%string, 1.2); ("parody"%string, 1.0);
      ("character"%string, 1.0); ("artist"%string, 0.9); ("group"%string, 0.9);
      ("language"%string, 1.1); ("other"%string, 0.8); ("mixed"%string, 1.0);
      ("cosplayer"%string, 0.7); ("reclass"%string, 0.5) ].

(** [tag.split(":", 1)[0]] when [":" in tag], as an option: the text
    before the first colon, [None] when the tag has no colon. *)
Fixpoint before_colon (tag : string) : option string :=
  match tag with
  | EmptyString => None
  | String c rest =>
      if Ascii.eqb c ":"%char then Some EmptyString
      else String c <$> before_colon rest
  end.

Definition namespace_of (tag : string) : string :=
  default "other"%string (before_colon tag).

Definition ns_weight (tag : string) : Q :=
  default 1.0 (NAMESPACE_WEIGHTS !! namespace_of tag).

Record TagStats := { positive_count : nat; negative_count : nat }.

(** [collections.Counter.update]: one more occurrence per element. *)
Definition counter_update (c : gmap string nat) (xs : list string)
  : gmap string nat :=
  foldl counter_incr c xs.

Definition tag_counter `{Json} (favorite_galleries : list Gallery)
  : gmap string nat :=
  foldl (fun c g => counter_update c (gallery_tags g)) ∅ favorite_galleries.

(** The first [base_weights] dictionary: [tf * ns_weight] per tag. *)
Definition raw_base_weights `{Json} (favorite_galleries : list Gallery)
  : gmap string Q :=
  map_imap
    (fun tag count =>
       let tf := ratio count (length favorite_galleries) in
       Some (tf * ns_weight tag))
    (tag_counter favorite_galleries).

(** [base_weights] after "Normalize base weights" in
    [compute_tag_weights_from_favorites] (no guard on the maximum). *)
Definition normalized_base_weights `{Json} (favorite_galleries : list Gallery)
  : gmap string Q :=
  let base_weights := raw_base_weights favorite_galleries in
  scale_by (max_value_or 1.0 base_weights) base_weights.

Definition _compute_feedback_multiplier (pos_count neg_count : nat) : Q :=
  if ((pos_count =? 0)%nat && (neg_count =? 0)%nat)%bool then 1.0
  else
    let base_positive_delta := 0.1 in
    let base_negative_delta := 0.15 in
    let learning_rate_decay := 0.9 in
    let multiplier := 1.0 in
    let multiplier :=
      foldl (fun multiplier i =>
               let decay := learning_rate_decay ^ Z.of_nat (i + neg_count) in
               multiplier + base_positive_delta * decay)
            multiplier (seq 0 pos_count) in
    let multiplier :=
      foldl (fun multiplier i =>
               let decay := learning_rate_decay ^ Z.of_nat (i + pos_count) in
               multiplier - base_negative_delta * decay)
            multiplier (seq 0 neg_count) in
    Qmax 0.0 (Qmin 2.0 multiplier).

(** [stats = feedback_stats.get(tag, {})] followed by the two
    [stats.get(..., 0)]. *)
Definition stats_of (feedback_stats : gmap string TagStats) (tag : string)
  : nat * nat :=
  match feedback_stats !! tag with
  | Some st => (positive_count st, negative_count st)
  | None => (0%nat, 0%nat)
  end.

(** The first [tag_weights] dictionary: base weight times feedback
    multiplier, before the second normalisation. *)
Definition feedback_adjusted_weights `{Json}
    (favorite_galleries : list Gallery)
    (feedback_stats : gmap string TagStats) : gmap string Q :=
  map_imap
    (fun tag base_weight =>
       let '(pos_count, neg_count) := stats_of feedback_stats tag in
       Some (base_weight * _compute_feedback_multiplier pos_count neg_count))
    (normalized_base_weights favorite_galleries).

(** The dictionary that [compute_tag_weights_from_favorites] builds
    for a non-empty list of favorites (its last [tag_weights]). *)
Definition final_tag_weights `{Json}
    (favorite_galleries : list Gallery)
    (feedback_stats : gmap string TagStats) : gmap string Q :=
  let tag_weights :=
    feedback_adjusted_weights favorite_galleries feedback_stats in
  let max_weight := max_value_or 1.0 tag_weights in
  if Qlt_le_dec 0 max_weight
  then scale_by max_weight tag_weights
  else tag_weights.

Definition _get_base_weights_for_sync `{Json}
    (favorite_galleries : list Gallery) : gmap string Q :=
  match favorite_galleries with
  | [] => ∅
  | _ =>
      let base_weights := raw_base_weights favorite_galleries in
      let max_base_weight := max_value_or 1.0 base_weights in
      if Qlt_le_dec 0 max_base_weight
      then scale_by max_base_weight base_weights
      else base_weights
  end.

Section Analyzer.
Context `{Json} `{Sklearn}.

(** The attributes of a [TagAnalyzer] object. *)
Record t := {
  user_tag_weights : gmap string Q;
  vectorizer : option Vectorizer;
  user_vector : option Vector
}.

(** [TagAnalyzer.__init__] *)
Definition init : t :=
  {| user_tag_weights := ∅; vectorizer := None; user_vector := None |}.

(** Returns the dictionary and the updated analyzer; an empty list
    of favorites returns [{}] and leaves the analyzer untouched. *)
Definition compute_tag_weights_from_favorites (self : t)
    (favorite_galleries : list Gallery)
    (feedback_stats : option (gmap string TagStats))
  : gmap string Q * t :=
  match favorite_galleries with
  | [] => (∅, self)
  | _ =>
      let feedback_stats := default ∅ feedback_stats in
      let tag_weights := final_tag_weights favorite_galleries feedback_stats in
      (tag_weights,
       {| user_tag_weights := tag_weights;
          vectorizer := vectorizer self;
          user_vector := user_vector self |})
  end.

Definition extract_tags_from_galleries (galleries : list Gallery)
  : list (list string) :=
  gallery_tags <$> galleries.

(** [" ".join(tags)] *)
Definition join_tags (tags : list string) : string :=
  String.concat " " tags.

Definition build_user_profile (self : t)
    (favorite_galleries : list Gallery)
    (feedback_stats : option (gmap string TagStats)) : t :=
  let self :=
    (compute_tag_weights_from_favorites self favorite_galleries
       feedback_stats).2 in
  let all_tags_list := extract_tags_from_galleries favorite_galleries in
  let tag_documents := join_tags <$> all_tags_list in
  match tag_documents with
  | [] => self
  | _ =>
      let '(fitted, tag_matrix_mean) :=
        fit_transform_mean TfidfVectorizer tag_documents in
      {| user_tag_weights := user_tag_weights self;
         vectorizer := Some fitted;
         user_vector :=
           match tag_matrix_mean with
           | Some v => Some v
           | None => user_vector self
           end |}
  end.

(** [set(candidate_tags) & set(self.user_tag_weights.keys())], listed
    in the order of first occurrence among the candidate's tags. *)
Definition matched_tags (self : t) (candidate_tags : list string)
  : list string :=
  filter (fun tag => is_Some (user_tag_weights self !! tag))
         (remove_dups candidate_tags).

Definition weight_of (self : t) (tag : string) : Q :=
  default 0 (user_tag_weights self !! tag).

Definition jaccard_score (self : t) (candidate_tags : list string) : Q :=
  let intersection := matched_tags self candidate_tags in
  let total_user_weight := sum_Q (dict_values (user_tag_weights self)) in
  let weighted_intersection := sum_Q (weight_of self <$> intersection) in
  Qmin 1.0 (weighted_intersection / total_user_weight).

Definition compute_tag_similarity (self : t) (candidate_tags : list string)
  : R :=
  if bool_decide (user_tag_weights self = ∅) then 0%R
  else match candidate_tags with
  | [] => 0%R
  | _ =>
  match matched_tags self candidate_tags with
  | [] => 0%R
  | _ =>
  if Qlt_le_dec 0 (sum_Q (dict_values (user_tag_weights self))) then
    let jaccard := Q2R (jaccard_score self candidate_tags) in
    match vectorizer self, user_vector self with
    | Some vec, Some uv =>
        match transform_cosine vec uv (join_tags candidate_tags) with
        | Some cosine_score => (0.6 * jaccard + 0.4 * cosine_score)%R
        | None => jaccard
        end
    | _, _ => jaccard
    end
  else 0%R
  end end.

Definition explain_similarity (self : t) (candidate_tags : list string)
    (top_n : nat) : list string :=
  let sorted_matches :=
    sorted_desc
      (fun a b : string * Q => Qltb b.2 a.2)
      ((fun tag => (tag, weight_of self tag))
         <$> matched_tags self candidate_tags) in
  (take top_n sorted_matches).*1.

End Analyzer.

End TagAnalyzer.

(** ** recommender/uploader_analyzer.py *)

Module UploaderAnalyzer.

Local Open Scope Q_scope.

Record t := {
  uploader_weights : gmap string Q;
  uploader_gallery_count : gmap string nat
}.

Definition init : t :=
  {| uploader_weights := ∅; uploader_gallery_count := ∅ |}.

(** The characters [str.strip()] removes, within ASCII. *)
Definition is_space (c : ascii) : bool :=
  let n := nat_of_ascii c in
  ((9 <=? n)%nat && (n <=? 13)%nat || (28 <=? n)%nat && (n <=? 32)%nat)%bool.

(** Truth value of [uploader.strip()]: some character is not blank. *)
Fixpoint strip_nonempty (s : string) : bool :=
  match s with
  | EmptyString => false
  | String c rest => (negb (is_space c) || strip_nonempty rest)%bool
  end.

Definition uploader_counter (favorite_galleries : list Gallery)
  : gmap string nat :=
  foldl (fun c g =>
           match uploader g with
           | Some u => if strip_nonempty u then counter_incr c u else c
           | None => c
           end)
        ∅ favorite_galleries.

Definition frequency_weight (count total_favorites : nat) : Q :=
  let frequency_weight := ratio count total_favorites in
  if (5 <=? count)%nat then frequency_weight * 1.5
  else if (3 <=? count)%nat then frequency_weight * 1.2
  else frequency_weight.

(** The entries written by the loop over [uploader_counter.items()]
    replace those of the same uploader; the other entries stay.  The
    weights the loop writes are positive, so the divisor of the
    normalisation is positive whenever an uploader was counted. *)
Definition build_uploader_profile (self : t)
    (favorite_galleries : list Gallery) : t :=
  let counter := uploader_counter favorite_galleries in
  let total_favorites := length favorite_galleries in
  if (total_favorites =? 0)%nat then self
  else
    let weights :=
      ((fun count => frequency_weight count total_favorites) <$> counter)
        ∪ uploader_weights self in
    let counts := counter ∪ uploader_gallery_count self in
    let max_weight := max_value_or 1.0 weights in
    {| uploader_weights := scale_by max_weight weights;
       uploader_gallery_count := counts |}.

Definition compute_uploader_score (self : t) (candidate_uploader : string)
  : Q :=
  if (String.eqb candidate_uploader "" || bool_decide (uploader_weights self = ∅))%bool
  then 0.0
  else match uploader_weights self !! candidate_uploader with
       | Some w => w
       | None => 0.1
       end.

(** [n] is a natural number, as at the call sites.  The list
    comprehension reads [self.uploader_gallery_count[uploader]] for
    every uploader it lists and raises [KeyError] at one without a
    count. *)
Definition get_top_uploaders (self : t) (n : nat)
  : Outcome (list (string * Q * nat)) :=
  let sorted_uploaders :=
    sorted_desc (fun a b : string * Q => Qltb b.2 a.2)
      (map_to_list (uploader_weights self)) in
  match
    mapM (fun kv : string * Q =>
            (fun count => (kv.1, kv.2, count))
              <$> uploader_gallery_count self !! kv.1)
         (take n sorted_uploaders)
  with
  | Some l => Returned l
  | None => Raised "KeyError"
  end.

Definition update_uploader_preference (self : t) (uploader : string)
    (is_positive : bool) : t :=
  if String.eqb uploader "" then self
  else
    let current_weight := default 0.1 (uploader_weights self !! uploader) in
    let new_weight :=
      if is_positive then Qmin 1.0 (current_weight + 0.15)
      else Qmax 0.0 (current_weight - 0.2) in
    {| uploader_weights := <[uploader := new_weight]> (uploader_weights self);
       uploader_gallery_count := uploader_gallery_count self |}.

End UploaderAnalyzer.

(** ** recommender/content_scorer.py *)

Module ContentScorer.

Record t := {
  avg_rating : Q;
  rating_std : R;
  avg_filecount : Z;
  filecount_range : Z * Z;
  preferred_languages : gmap string Q;
  preferred_categories : gmap string Q
}.

Definition init : t :=
  {| avg_rating := 0.0; rating_std := 0.0; avg_filecount := 0;
     filecount_range := (0, 10000)%Z;
     preferred_languages := ∅; preferred_categories := ∅ |}.

(** [np.mean] *)
Definition np_mean (xs : list Q) : Q :=
  (sum_Q xs / inject_Z (Z.of_nat (length xs)))%Q.

(** [np.std]: the population standard deviation. *)
Definition np_std (xs : list Q) : R :=
  let m := np_mean xs in
  sqrt (Q2R (np_mean ((fun x => (x - m) * (x - m))%Q <$> xs))).

(** [np.percentile(a, q)] with the default linear interpolation. *)
Definition np_percentile (a : list Z) (q : Q) : Q :=
  let sorted := merge_sort Z.le a in
  let n := Z.of_nat (length a) in
  let virtual_index := (inject_Z (n - 1) * q / 100)%Q in
  let lo := Qfloor virtual_index in
  let hi := Z.min (lo + 1) (n - 1) in
  let gamma := (virtual_index - inject_Z lo)%Q in
  let a_lo := inject_Z (nth (Z.to_nat lo) sorted 0%Z) in
  let a_hi := inject_Z (nth (Z.to_nat hi) sorted 0%Z) in
  (a_lo + gamma * (a_hi - a_lo))%Q.

(** [tag.startswith("language:") or tag.startswith("lang:")] *)
Definition is_language_tag (tag : string) : bool :=
  (String.prefix "language:" tag || String.prefix "lang:" tag)%bool.

Section Scorer.
Context `{Json} `{IsoFormat}.

Definition language_counter (favorite_galleries : list Gallery)
  : gmap string nat :=
  foldl (fun c g =>
           foldl (fun c tag =>
                    if is_language_tag tag then counter_incr c tag else c)
                 c (gallery_tags g))
        ∅ favorite_galleries.

Definition category_counter (favorite_galleries : list Gallery)
  : gmap string nat :=
  foldl (fun c g => counter_incr c (category g)) ∅ favorite_galleries.

Definition counter_total (c : gmap string nat) : nat :=
  foldl Nat.add 0%nat ((map_to_list c).*2).

Definition build_quality_profile (self : t)
    (favorite_galleries : list Gallery) : t :=
  match favorite_galleries with
  | [] => self
  | _ =>
      let ratings := rating <$> favorite_galleries in
      let filecounts := filecount <$> favorite_galleries in
      let languages := language_counter favorite_galleries in
      let total := counter_total languages in
      let categories := category_counter favorite_galleries in
      {| avg_rating := np_mean ratings;
         rating_std :=
           if (1 <? length ratings)%nat then np_std ratings else 0.5%R;
         avg_filecount := Qtrunc (np_mean (inject_Z <$> filecounts));
         filecount_range :=
           (Qtrunc (np_percentile filecounts 10),
            Qtrunc (np_percentile filecounts 90));
         preferred_languages :=
           if (0 <? total)%nat
           then (fun count => ratio count total) <$> languages
           else preferred_languages self;
         preferred_categories :=
           (fun count => ratio count (length favorite_galleries))
             <$> filter (fun kv => kv.1 ≠ ""%string) categories |}
  end.

Definition compute_quality_score (self : t) (gallery : Gallery) : R :=
  let rating := Q2R (rating gallery) in
  let rating_score :=
    if Qlt_le_dec 0 (avg_rating self) then
      let rating_diff := Rabs (rating - Q2R (avg_rating self)) in
      exp (- (rating_diff ^ 2) / (2 * rating_std self ^ 2))
    else (rating / 5.0)%R in
  let filecount := filecount gallery in
  let filecount_score :=
    if ((filecount_range self).1 <=? filecount)%Z
       && (filecount <=? (filecount_range self).2)%Z
    then 1.0%R
    else if (filecount <? (filecount_range self).1)%Z then 0.7%R
    else 0.8%R in
  ((rating_score + filecount_score) / 2)%R.

Definition compute_content_score (self : t) (gallery : Gallery) : Q :=
  let language_score :=
    foldl (fun language_score tag =>
             match preferred_languages self !! tag with
             | Some w => Qmax language_score w
             | None => language_score
             end)
          0.0%Q (gallery_tags gallery) in
  let language_part :=
    if Qlt_le_dec 0 language_score then language_score else 0.5%Q in
  let category_score :=
    default 0.3%Q (preferred_categories self !! category gallery) in
  ((language_part + category_score) / 2)%Q.

(** [posted.replace("Z", "+00:00")] *)
Fixpoint replace_Z (s : string) : string :=
  match s with
  | EmptyString => EmptyString
  | String c rest =>
      if Ascii.eqb c "Z"%char then ("+00:00" ++ replace_Z rest)%string
      else String c (replace_Z rest)
  end.

(** [(now - posted).days] *)
Definition days_between (now posted : Z) : Z := ((now - posted) / day)%Z.

(** The instant [posted] denotes after the conversion at the head of
    [compute_recency_score]; [None] on the paths that return 0.5. *)
Definition posted_instant (gallery : Gallery) : option Z :=
  match posted gallery with
  | None => None
  | Some (PostedDatetime p) => Some p
  | Some (PostedStr raw) =>
      if String.eqb raw "" then None else fromisoformat (replace_Z raw)
  end.

(** [now] is the reading of [datetime.now()]. *)
Definition compute_recency_score (self : t) (gallery : Gallery) (now : Z)
  : R :=
  match posted_instant gallery with
  | None => 0.5%R
  | Some p =>
      let days_diff := days_between now p in
      if (days_diff <? 0)%Z then 1.0%R
      else
        let decay_factor := 0.002%R in
        let score := exp (- decay_factor * IZR days_diff) in
        Rmax 0.2 (Rmin 1.0 score)
  end.

End Scorer.

End ContentScorer.

(** ** models/database.py *)

Module Database.

Record FavoriteRow := {
  fav_token : string;
  added_time : Z;
  last_sync : Z
}.

Record FeedbackRow := {
  fb_rating : Z;
  feedback_time : Z;
  fb_source : string
}.

Record RecommendationRow := {
  rec_gid : Z;
  rec_score : R;
  reason : ScoreDetails;
  recommended_time : Z;
  notified : bool
}.

Record PreferenceRow := {
  weight : Q;
  positive_count : nat;
  negative_count : nat;
  updated_time : Z
}.

(** The tables the engine uses.  [favorites], [feedback] and
    [user_preferences] have a primary key; [recommendation_history]
    only grows, in insertion order. *)
Record t := {
  favorites : gmap Z FavoriteRow;
  feedback : gmap Z FeedbackRow;
  recommendation_history : list RecommendationRow;
  user_preferences : gmap string PreferenceRow
}.

(** [_init_database] on a fresh file. *)
Definition init : t :=
  {| favorites := ∅; feedback := ∅; recommendation_history := [];
     user_preferences := ∅ |}.

Definition with_favorites (self : t) (f : gmap Z FavoriteRow) : t :=
  {| favorites := f; feedback := feedback self;
     recommendation_history := recommendation_history self;
     user_preferences := user_preferences self |}.

Definition with_feedback (self : t) (f : gmap Z FeedbackRow) : t :=
  {| favorites := favorites self; feedback := f;
     recommendation_history := recommendation_history self;
     user_preferences := user_preferences self |}.

Definition with_history (self : t) (h : list RecommendationRow) : t :=
  {| favorites := favorites self; feedback := feedback self;
     recommendation_history := h;
     user_preferences := user_preferences self |}.

Definition with_preferences (self : t) (p : gmap string PreferenceRow) : t :=
  {| favorites := favorites self; feedback := feedback self;
     recommendation_history := recommendation_history self;
     user_preferences := p |}.

(** In the operations below [now] is the reading of [datetime.now()]. *)

Definition add_favorite (self : t) (gid : Z) (token : string)
    (added_time now : Z) : t :=
  with_favorites self
    (<[gid := {| fav_token := token; added_time := added_time;
                 last_sync := now |}]> (favorites self)).

Definition remove_favorite (self : t) (gid : Z) : t :=
  with_favorites self (delete gid (favorites self)).

Definition get_all_favorites (self : t) : list (Z * string) :=
  (fun kv => (kv.1, fav_token kv.2)) <$> map_to_list (favorites self).

Definition is_favorited (self : t) (gid : Z) : bool :=
  bool_decide (is_Some (favorites self !! gid)).

Definition clear_favorites (self : t) : t := with_favorites self ∅.

Definition add_feedback (self : t) (gid rating : Z) (source : string)
    (now : Z) : t :=
  with_feedback self
    (<[gid := {| fb_rating := rating; feedback_time := now;
                 fb_source := source |}]> (feedback self)).

Definition get_feedback (self : t) (gid : Z) : option Z :=
  fb_rating <$> feedback self !! gid.

Definition get_all_feedback (self : t) : list (Z * Z) :=
  (fun kv => (kv.1, fb_rating kv.2)) <$> map_to_list (feedback self).

Definition add_recommendation (self : t) (gid : Z) (score : R)
    (reason : ScoreDetails) (notified : bool) (now : Z) : t :=
  with_history self
    (recommendation_history self ++
       [ {| rec_gid := gid; rec_score := score; reason := reason;
            recommended_time := now; notified := notified |} ]).

(** [SELECT 1 FROM recommendation_history WHERE gid = ? AND
    recommended_time > ?], respectively without the second condition. *)
Definition is_recommended (self : t) (gid : Z) (expiry_days : option Z)
    (now : Z) : bool :=
  match expiry_days with
  | Some expiry_days =>
      let expiry_time := (now - expiry_days * day)%Z in
      existsb (fun row =>
                 (rec_gid row =? gid)%Z
                 && (expiry_time <? recommended_time row)%Z)
              (recommendation_history self)
  | None =>
      existsb (fun row => (rec_gid row =? gid)%Z)
              (recommendation_history self)
  end.

Definition clean_expired_recommendations (self : t) (expiry_days now : Z)
  : nat * t :=
  let expiry_time := (now - expiry_days * day)%Z in
  let kept :=
    List.filter (fun row => negb (recommended_time row <? expiry_time)%Z)
                (recommendation_history self) in
  ((length (recommendation_history self) - length kept)%nat,
   with_history self kept).

Definition update_tag_preference (self : t) (tag : string) (weight : Q)
    (positive_count negative_count : nat) (now : Z) : t :=
  with_preferences self
    (<[tag := {| weight := weight; positive_count := positive_count;
                 negative_count := negative_count;
                 updated_time := now |}]> (user_preferences self)).

Definition get_tag_preference (self : t) (tag : string)
  : option PreferenceRow :=
  user_preferences self !! tag.

Definition get_all_tag_preferences (self : t) : gmap string Q :=
  weight <$> user_preferences self.

Definition get_all_tag_feedback_stats (self : t)
  : gmap string TagAnalyzer.TagStats :=
  (fun row =>
     {| TagAnalyzer.positive_count := positive_count row;
        TagAnalyzer.negative_count := negative_count row |})
    <$> user_preferences self.

(** One round of the loop of [sync_tag_preferences]. *)
Definition sync_tag (now : Z) (self : t) (entry : string * Q) : t :=
  let '(tag, base_weight) := entry in
  match user_preferences self !! tag with
  | Some row =>
      if ((0 <? positive_count row)%nat || (0 <? negative_count row)%nat)%bool
      then self
      else update_tag_preference self tag base_weight
             (positive_count row) (negative_count row) now
  | None => update_tag_preference self tag base_weight 0 0 now
  end.

Definition sync_tag_preferences (self : t) (tag_weights : gmap string Q)
    (now : Z) : t :=
  foldl (sync_tag now) self (map_to_list tag_weights).

Definition increment_tag_feedback (self : t) (tag : string)
    (is_positive : bool) (now : Z) : t :=
  let '(weight, pos, neg) :=
    match user_preferences self !! tag with
    | Some row => (weight row, positive_count row, negative_count row)
    | None => (1.0%Q, 0%nat, 0%nat)
    end in
  if is_positive
  then update_tag_preference self tag weight (S pos) neg now
  else update_tag_preference self tag weight pos (S neg) now.

(** The dictionary [get_stats] returns. *)
Record Stats := {
  favorites_count : nat;
  feedback_count : nat;
  positive_feedback : nat;
  negative_feedback : nat;
  recommendation_count : nat
}.

(** [SUM(CASE WHEN rating = r THEN 1 ELSE 0 END)] followed by [or 0]:
    the number of feedback rows with rating [r]; the [NULL] of an
    empty table becomes 0. *)
Definition count_rating (self : t) (r : Z) : nat :=
  length (List.filter (fun kv => (fb_rating kv.2 =? r)%Z)
            (map_to_list (feedback self))).

Definition get_stats (self : t) : Stats :=
  {| favorites_count := size (favorites self);
     feedback_count := size (feedback self);
     positive_feedback := count_rating self 1;
     negative_feedback := count_rating self (-1);
     recommendation_count := length (recommendation_history self) |}.

End Database.

(** ** models/ehdb.py *)

Module EhdbDatabase.

(** The statements sent to the content store, with their parameters. *)
Inductive Query :=
  | SelectGallery (gid : Z)
  | SelectGalleriesByIds (gids : list Z)
  | SelectNewGalleries (since_timestamp limit : Z)
  | SelectRandomGalleries (min_rating : Q) (count : Z)
  | SelectSimilar (tags : list string) (uploader : option string) (limit : Z)
  | SelectByUploader (uploader : string) (limit : Z).

(** [execute_query]: the rows the PostgreSQL server answers, or the
    exception that [execute_query] re-raises. *)
Class Store := { execute_query : Query -> Outcome (list Gallery) }.

Section Queries.
Context `{Store}.

Definition get_gallery (gid : Z) : Outcome (option Gallery) :=
  match execute_query (SelectGallery gid) with
  | Returned results => Returned (head results)
  | Raised e => Raised e
  end.

Definition get_galleries_by_ids (gids : list Z) : Outcome (list Gallery) :=
  match gids with
  | [] => Returned []
  | _ => execute_query (SelectGalleriesByIds gids)
  end.

Definition get_new_galleries (since_timestamp limit : Z)
  : Outcome (list Gallery) :=
  execute_query (SelectNewGalleries since_timestamp limit).

Definition get_random_galleries (count : Z) (min_rating : Q)
  : Outcome (list Gallery) :=
  execute_query (SelectRandomGalleries min_rating count).

(** [if uploader:] adds the uploader condition. *)
Definition search_similar_galleries (tags : list string)
    (uploader : option string) (limit : Z) : Outcome (list Gallery) :=
  let uploader :=
    match uploader with
    | Some u => if String.eqb u "" then None else Some u
    | None => None
    end in
  execute_query (SelectSimilar tags uploader limit).

End Queries.

End EhdbDatabase.

(** ** recommender/feedback_learner.py *)

Module FeedbackLearner.

Definition _update_tag_weight (now : Z) (db : Database.t) (tag : string)
    (is_positive : bool) : Database.t :=
  let '(base_weight, pos_count, neg_count) :=
    match Database.get_tag_preference db tag with
    | Some pref =>
        (Database.weight pref, Database.positive_count pref,
         Database.negative_count pref)
    | None => (1.0%Q, 0%nat, 0%nat)
    end in
  if is_positive
  then Database.update_tag_preference db tag base_weight
         (S pos_count) neg_count now
  else Database.update_tag_preference db tag base_weight
         pos_count (S neg_count) now.

(** The uploader part of [learn_from_feedback] only writes to the
    learner's log. *)
Definition learn_from_feedback `{Json} (db : Database.t) (gid rating : Z)
    (gallery_info : Gallery) (now : Z) : Database.t :=
  let is_positive := (0 <? rating)%Z in
  foldl (fun db tag => _update_tag_weight now db tag is_positive)
        db (gallery_tags gallery_info).

End FeedbackLearner.

(** ** recommender/engine.py *)

Module Engine.

Inductive Level := INFO | WARNING | ERROR.

(** The [config] dictionary: [None] is an absent key. *)
Record Config := {
  cfg_tag_weight : option Q;
  cfg_uploader_weight : option Q;
  cfg_quality_weight : option Q;
  cfg_content_weight : option Q;
  cfg_recency_weight : option Q;
  cfg_min_score_threshold : option Q;
  cfg_immediate_push_threshold : option Q;
  recommendation_expiry_days : option Z
}.

(** One entry of a recommendation list. *)
Record Recommendation := {
  gallery : Gallery;
  score : R;
  details : ScoreDetails;
  source : string
}.

(** [g["gid"] != base] *)
Definition other_than (base : Z) (g : Gallery) : bool :=
  negb (gid g =? base)%Z.

(** [recs[:limit]] *)
Definition slice_to {A} (limit : Z) (l : list A) : list A :=
  if (limit <? 0)%Z then take (length l - Z.to_nat (- limit)) l
  else take (Z.to_nat limit) l.

Section Engine.
Context `{Json} `{IsoFormat} `{Sklearn} `{EhdbDatabase.Store}.

(** The attributes of a [RecommendationEngine]; the local database
    is part of the state, the content store is read-only.  [logger]
    holds the records written through [self.logger], oldest first,
    each with the constant part of its message. *)
Record t := {
  database : Database.t;
  config : Config;
  tag_analyzer : TagAnalyzer.t;
  uploader_analyzer : UploaderAnalyzer.t;
  content_scorer : ContentScorer.t;
  tag_weight : Q;
  uploader_weight : Q;
  quality_weight : Q;
  content_weight : Q;
  recency_weight : Q;
  min_score_threshold : Q;
  immediate_push_threshold : Q;
  _is_initialized : bool;
  logger : list (Level * string)
}.

(** [RecommendationEngine.__init__] *)
Definition init (database : Database.t) (config : Config) : t :=
  {| database := database;
     config := config;
     tag_analyzer := TagAnalyzer.init;
     uploader_analyzer := UploaderAnalyzer.init;
     content_scorer := ContentScorer.init;
     tag_weight := default 0.40%Q (cfg_tag_weight config);
     uploader_weight := default 0.20%Q (cfg_uploader_weight config);
     quality_weight := default 0.20%Q (cfg_quality_weight config);
     content_weight := default 0.15%Q (cfg_content_weight config);
     recency_weight := default 0.05%Q (cfg_recency_weight config);
     min_score_threshold := default 0.70%Q (cfg_min_score_threshold config);
     immediate_push_threshold :=
       default 0.85%Q (cfg_immediate_push_threshold config);
     _is_initialized := false;
     logger := [] |}.

Definition with_database (self : t) (db : Database.t) : t :=
  {| database := db; config := config self;
     tag_analyzer := tag_analyzer self;
     uploader_analyzer := uploader_analyzer self;
     content_scorer := content_scorer self;
     tag_weight := tag_weight self;
     uploader_weight := uploader_weight self;
     quality_weight := quality_weight self;
     content_weight := content_weight self;
     recency_weight := recency_weight self;
     min_score_threshold := min_score_threshold self;
     immediate_push_threshold := immediate_push_threshold self;
     _is_initialized := _is_initialized self;
     logger := logger self |}.

Definition with_profiles (self : t) (ta : TagAnalyzer.t)
    (ua : UploaderAnalyzer.t) (cs : ContentScorer.t) : t :=
  {| database := database self; config := config self;
     tag_analyzer := ta;
     uploader_analyzer := ua;
     content_scorer := cs;
     tag_weight := tag_weight self;
     uploader_weight := uploader_weight self;
     quality_weight := quality_weight self;
     content_weight := content_weight self;
     recency_weight := recency_weight self;
     min_score_threshold := min_score_threshold self;
     immediate_push_threshold := immediate_push_threshold self;
     _is_initialized := _is_initialized self;
     logger := logger self |}.

Definition with_initialized (self : t) (b : bool) : t :=
  {| database := database self; config := config self;
     tag_analyzer := tag_analyzer self;
     uploader_analyzer := uploader_analyzer self;
     content_scorer := content_scorer self;
     tag_weight := tag_weight self;
     uploader_weight := uploader_weight self;
     quality_weight := quality_weight self;
     content_weight := content_weight self;
     recency_weight := recency_weight self;
     min_score_threshold := min_score_threshold self;
     immediate_push_threshold := immediate_push_threshold self;
     _is_initialized := b;
     logger := logger self |}.

Definition with_logger (self : t) (l : list (Level * string)) : t :=
  {| database := database self; config := config self;
     tag_analyzer := tag_analyzer self;
     uploader_analyzer := uploader_analyzer self;
     content_scorer := content_scorer self;
     tag_weight := tag_weight self;
     uploader_weight := uploader_weight self;
     quality_weight := quality_weight self;
     content_weight := content_weight self;
     recency_weight := recency_weight self;
     min_score_threshold := min_score_threshold self;
     immediate_push_threshold := immediate_push_threshold self;
     _is_initialized := _is_initialized self;
     logger := l |}.

(** *** Methods: state passing with exceptions *)

(** A method call maps the engine to its result, or to the exception
    it raises, and to the engine as the call leaves it. *)
Definition M (A : Type) : Type := t -> Outcome A * t.

Definition ret {A} (a : A) : M A := fun self => (Returned a, self).

Definition bind {A B} (k : A -> M B) (m : M A) : M B :=
  fun self =>
    match m self with
    | (Returned a, self') => k a self'
    | (Raised e, self') => (Raised e, self')
    end.

#[local] Instance M_ret : MRet M := @ret.
#[local] Instance M_bind : MBind M := @bind.

Definition get : M t := fun self => (Returned self, self).

Definition modify (f : t -> t) : M unit :=
  fun self => (Returned tt, f self).

(** A call into the content store. *)
Definition query {A} (o : Outcome A) : M A := fun self => (o, self).

Definition log (level : Level) (msg : string) : M unit :=
  modify (fun self => with_logger self (logger self ++ [(level, msg)])).

(** [for x in xs: acc = body(acc, x)] *)
Fixpoint for_each {A B} (body : B -> A -> M B) (acc : B) (xs : list A)
  : M B :=
  match xs with
  | [] => ret acc
  | x :: xs' => acc' ← body acc x; for_each body acc' xs'
  end.

Definition initialize (now : Z) : M unit :=
  log INFO "Starting recommendation engine initialization...";;
  self ← get;
  let favorite_gids := (Database.get_all_favorites (database self)).*1 in
  match favorite_gids with
  | [] =>
      log WARNING
        "User favorites are empty, recommendation quality may be poor";;
      modify (fun self => with_initialized self true)
  | _ =>
      favorite_galleries ←
        query (EhdbDatabase.get_galleries_by_ids favorite_gids);
      match favorite_galleries with
      | [] =>
          log WARNING "Unable to get favorite information from EHDB";;
          modify (fun self => with_initialized self true)
      | _ =>
          modify (fun self =>
            let feedback_stats :=
              Database.get_all_tag_feedback_stats (database self) in
            let self :=
              with_profiles self
                (TagAnalyzer.build_user_profile (tag_analyzer self)
                   favorite_galleries (Some feedback_stats))
                (UploaderAnalyzer.build_uploader_profile
                   (uploader_analyzer self) favorite_galleries)
                (ContentScorer.build_quality_profile
                   (content_scorer self) favorite_galleries) in
            let base_weights :=
              TagAnalyzer._get_base_weights_for_sync favorite_galleries in
            with_database self
              (Database.sync_tag_preferences (database self)
                 base_weights now));;
          modify (fun self => with_initialized self true);;
          log INFO "Recommendation engine initialization completed"
      end
  end.

(** The scores of a gallery on the profiles of [self]. *)
Definition score_gallery (self : t) (gallery : Gallery) (now : Z)
  : R * ScoreDetails :=
  let tags := gallery_tags gallery in
  let tag_score :=
    TagAnalyzer.compute_tag_similarity (tag_analyzer self) tags in
  let uploader := default ""%string (uploader gallery) in
  let uploader_score :=
    Q2R (UploaderAnalyzer.compute_uploader_score
           (uploader_analyzer self) uploader) in
  let quality_score :=
    ContentScorer.compute_quality_score (content_scorer self) gallery in
  let content_score :=
    Q2R (ContentScorer.compute_content_score
           (content_scorer self) gallery) in
  let recency_score :=
    ContentScorer.compute_recency_score (content_scorer self) gallery now in
  let total_score :=
    (tag_score * Q2R (tag_weight self)
     + uploader_score * Q2R (uploader_weight self)
     + quality_score * Q2R (quality_weight self)
     + content_score * Q2R (content_weight self)
     + recency_score * Q2R (recency_weight self))%R in
  (total_score,
   Build_ScoreDetails
     (round3 tag_score) (round3 uploader_score) (round3 quality_score)
     (round3 content_score) (round3 recency_score) (round3 total_score)
     (TagAnalyzer.explain_similarity (tag_analyzer self) tags 5)).

Definition compute_recommendation_score (gallery : Gallery) (now : Z)
  : M (R * ScoreDetails) :=
  self ← get;
  (if _is_initialized self then mret tt else initialize now);;
  self ← get;
  ret (score_gallery self gallery now).

Definition is_manual (source : string) : bool := String.eqb source "manual".

(** The body of the loop of [_filter_and_score_galleries]. *)
Definition filter_and_score_one (source : string) (now : Z)
    (recommendations : list Recommendation) (gallery : Gallery)
  : M (list Recommendation) :=
  self ← get;
  let gid := gid gallery in
  if Database.is_favorited (database self) gid
  then ret recommendations
  else if bool_decide (is_Some (Database.get_feedback (database self) gid))
  then ret recommendations
  else
    let expiry_days := recommendation_expiry_days (config self) in
    if (negb (is_manual source)
        && Database.is_recommended (database self) gid expiry_days now)%bool
    then ret recommendations
    else
      '(score, details) ← compute_recommendation_score gallery now;
      self ← get;
      if Rlt_dec score (Q2R (min_score_threshold self))
      then ret recommendations
      else ret (recommendations ++
                  [ Build_Recommendation gallery score details source ]).

Definition by_score_desc (a b : Recommendation) : bool :=
  if Rlt_dec (score b) (score a) then true else false.

Definition _filter_and_score_galleries (galleries : list Gallery)
    (source : string) (now : Z) : M (list Recommendation) :=
  recommendations ←
    for_each (filter_and_score_one source now) [] galleries;
  let recommendations := sorted_desc by_score_desc recommendations in
  match recommendations with
  | [] =>
      log INFO "Recommendation completed: %d candidates, 0 recommendations (all below threshold %.2f)"
  | _ =>
      log INFO "Recommendation completed: %d candidates, %d recommendations (highest %.2f, lowest %.2f)"
  end;;
  ret recommendations.

Definition recommend_new_galleries (since_timestamp limit : Z) (now : Z)
  : M (list Recommendation) :=
  log INFO "Starting new gallery recommendation";;
  new_galleries ←
    query (EhdbDatabase.get_new_galleries since_timestamp limit);
  _filter_and_score_galleries new_galleries "new" now.

Definition recommend_from_pool (count : Z) (min_rating : Q) (now : Z)
  : M (list Recommendation) :=
  log INFO "Starting recommendation from gallery pool";;
  candidates ←
    query (EhdbDatabase.get_random_galleries count min_rating);
  _filter_and_score_galleries candidates "old" now.

Definition recommend_similar (gid : Z) (limit : Z) (now : Z)
  : M (list Recommendation) :=
  log INFO "Starting similar gallery recommendation";;
  base_gallery ← query (EhdbDatabase.get_gallery gid);
  match base_gallery with
  | None => log WARNING "Gallery does not exist";; mret []
  | Some base_gallery =>
      let tags := gallery_tags base_gallery in
      let uploader := uploader base_gallery in
      similar_galleries ←
        query (EhdbDatabase.search_similar_galleries tags uploader
                 (limit * 3));
      let similar_galleries :=
        List.filter (other_than gid) similar_galleries in
      recommendations ←
        _filter_and_score_galleries similar_galleries "manual" now;
      ret (slice_to limit recommendations)
  end.

Definition handle_feedback (gid rating : Z) (source : string) (now : Z)
  : M unit :=
  modify (fun self =>
    with_database self
      (Database.add_feedback (database self) gid rating source now));;
  gallery ← query (EhdbDatabase.get_gallery gid);
  match gallery with
  | None => log WARNING "Unable to get gallery information"
  | Some gallery =>
      modify (fun self =>
        with_database self
          (FeedbackLearner.learn_from_feedback (database self)
             gid rating gallery now));;
      initialize now;;
      log INFO "Feedback handling completed"
  end.

Definition should_push_immediately (self : t) (score : R) : bool :=
  if Rle_dec (Q2R (immediate_push_threshold self)) score
  then true else false.

End Engine.

End Engine.


(** ** crawler/favorites.py *)

Module FavoritesCrawler.

(** [favcat]: a category number or ['all']. *)
Inductive Favcat :=
  | FavcatAll
  | FavcatNumber (n : Z).

(** The network and the regular-expression engine.  [_make_request]
    is given the category and the pagination token that the URL
    carries and yields the response text, or [None] once the retries
    are used up.  The three matchers are [re.findall] on the link
    pattern (with [int] applied to the id), [re.findall] on the
    favorited-time pattern followed by [strip] and [strptime] ([None]
    when the text does not parse), and [re.search] on the next-page
    pattern. *)
Class Upstream := {
  _make_request : Favcat -> string -> option string;
  link_matches : string -> list (Z * string);
  favtime_matches : string -> list (option Z);
  next_match : string -> option string
}.

(** The dictionary [fetch_favorites_page] returns. *)
Record Page := {
  items : list (Z * string * Z);
  next_token : option string
}.

Definition empty_page : Page := {| items := []; next_token := None |}.

(** The "Deduplicate" loop: the first occurrence of every
    (gid, token) pair, in order. *)
Fixpoint dedup_links (seen : gset (Z * string)) (matches : list (Z * string))
  : list (Z * string) :=
  match matches with
  | [] => []
  | key :: rest =>
      if bool_decide (key ∈ seen) then dedup_links seen rest
      else key :: dedup_links ({[key]} ∪ seen) rest
  end.

(** The "Match favorite time to galleries" loop: the i-th item takes
    the i-th time found; a time that does not parse, or a missing
    one, is replaced by [now]. *)
Fixpoint attach_favtimes (now : Z) (favtimes : list (option Z))
    (links : list (Z * string)) : list (Z * string * Z) :=
  match links with
  | [] => []
  | (gid, token) :: rest =>
      match favtimes with
      | Some dt :: favtimes' =>
          (gid, token, dt) :: attach_favtimes now favtimes' rest
      | None :: favtimes' =>
          (gid, token, now) :: attach_favtimes now favtimes' rest
      | [] => (gid, token, now) :: attach_favtimes now [] rest
      end
  end.

Section Crawler.
Context `{Upstream}.

Definition fetch_favorites_page (favcat : Favcat) (next_token : string)
    (now : Z) : Page :=
  match _make_request favcat next_token with
  | None => empty_page
  | Some html =>
      if String.eqb html "" then empty_page
      else
        match link_matches html with
        | [] => empty_page
        | matches =>
            let items := dedup_links ∅ matches in
            {| items := attach_favtimes now (favtime_matches html) items;
               next_token := next_match html |}
        end
  end.

(** Truth value of [result["next_token"]]. *)
Definition more_pages (page : Page) : option string :=
  match next_token page with
  | Some tok => if String.eqb tok "" then None else Some tok
  | None => None
  end.

(** The [while page_num < max_pages] loop of [fetch_all_favorites]
    with [pages_left = max_pages - page_num]; the second component
    lists the tokens of the pages requested, in order. *)
Fixpoint all_favorites_loop (pages_left : nat) (favcat : Favcat)
    (now : Z) (next_token : string)
    (all_galleries : list (Z * string * Z)) (requested : list string)
  : list (Z * string * Z) * list string :=
  match pages_left with
  | O => (all_galleries, requested)
  | S pages_left' =>
      let result := fetch_favorites_page favcat next_token now in
      let requested := requested ++ [next_token] in
      match items result with
      | [] => (all_galleries, requested)
      | _ =>
          let all_galleries := all_galleries ++ items result in
          match more_pages result with
          | None => (all_galleries, requested)
          | Some tok =>
              all_favorites_loop pages_left' favcat now tok
                all_galleries requested
          end
      end
  end.

Definition fetch_all_favorites (favcat : Favcat) (max_pages : Z) (now : Z)
  : list (Z * string * Z) * list string :=
  all_favorites_loop (Z.to_nat max_pages) favcat now "" [] [].

(** The loop of [fetch_new_favorites], in the same way. *)
Fixpoint new_favorites_loop (pages_left : nat) (known_gids : gset Z)
    (favcat : Favcat) (now : Z) (next_token : string)
    (new_galleries : list (Z * string * Z)) (requested : list string)
  : list (Z * string * Z) * list string :=
  match pages_left with
  | O => (new_galleries, requested)
  | S pages_left' =>
      let result := fetch_favorites_page favcat next_token now in
      let requested := requested ++ [next_token] in
      match items result with
      | [] => (new_galleries, requested)
      | _ =>
          let page_new :=
            List.filter (fun g => bool_decide (g.1.1 ∉ known_gids))
                        (items result) in
          match page_new with
          | [] => (new_galleries, requested)
          | _ =>
              let new_galleries := new_galleries ++ page_new in
              match more_pages result with
              | None => (new_galleries, requested)
              | Some tok =>
                  new_favorites_loop pages_left' known_gids favcat now
                    tok new_galleries requested
              end
          end
      end
  end.

Definition fetch_new_favorites (known_gids : gset Z) (favcat : Favcat)
    (max_pages : Z) (now : Z) : list (Z * string * Z) * list string :=
  new_favorites_loop (Z.to_nat max_pages) known_gids favcat now "" [] [].

(** The ten numbered categories, one full sync each; the second
    component lists the pages requested, by category and token. *)
Definition fetch_all_categories (max_pages_per_category : Z) (now : Z)
  : list (Z * string * Z) * list (Favcat * string) :=
  foldl (fun '(all_galleries, requested) favcat =>
           let '(galleries, tokens) :=
             fetch_all_favorites (FavcatNumber favcat)
               max_pages_per_category now in
           (all_galleries ++ galleries,
            requested ++ ((fun tok => (FavcatNumber favcat, tok)) <$> tokens)))
        ([], []) (seqZ 0 10).

End Crawler.

End FavoritesCrawler.

(** ** scheduler/tasks.py *)

Module TaskScheduler.
Section Tasks.
Context `{Json} `{IsoFormat} `{Sklearn} `{EhdbDatabase.Store}
        `{FavoritesCrawler.Upstream}.

(** The scheduler works on the local database of its recommender;
    [logger] holds the records of the scheduler's own logger. *)
Record t := {
  recommender : Engine.t;
  logger : list (Engine.Level * string)
}.

Definition log (self : t) (level : Engine.Level) (msg : string) : t :=
  {| recommender := recommender self;
     logger := logger self ++ [(level, msg)] |}.

Definition with_recommender (self : t) (engine : Engine.t) : t :=
  {| recommender := engine; logger := logger self |}.

(** The loop "Save to database". *)
Definition save_favorites (db : Database.t)
    (new_favorites : list (Z * string * Z)) (now : Z) : Database.t :=
  foldl (fun db '(gid, token, added_time) =>
           Database.add_favorite db gid token added_time now)
        db new_favorites.

(** [crawl_time], [save_time] and [init_time] are the clock readings
    of the crawl, of the save loop and of the rebuild.  The [except]
    clause catches what [initialize] raises; nothing else in the body
    raises in this model. *)
Definition task_sync_favorites (crawl_time save_time init_time : Z)
    (self : t) : t :=
  let self := log self Engine.INFO "Starting scheduled favorites sync task" in
  let db := Engine.database (recommender self) in
  let known_gids : gset Z :=
    list_to_set ((Database.get_all_favorites db).*1) in
  let new_favorites :=
    (FavoritesCrawler.fetch_new_favorites known_gids
       FavoritesCrawler.FavcatAll 10 crawl_time).1 in
  let db := save_favorites db new_favorites save_time in
  let self :=
    with_recommender self (Engine.with_database (recommender self) db) in
  match new_favorites with
  | [] => log self Engine.INFO "Favorites sync completed, no new items"
  | _ =>
      match Engine.initialize init_time (recommender self) with
      | (Returned _, engine) =>
          log (with_recommender self engine) Engine.INFO
            "Favorites sync completed, %d new items"
      | (Raised _, engine) =>
          log (with_recommender self engine) Engine.ERROR
            "Scheduled favorites sync failed"
      end
  end.

End Tasks.
End TaskScheduler.


(** * Reading of the specification *)

Module Spec.

Local Open Scope Q_scope.

(** The sum of [delta * 0.9^(i + offset)] for [i] in [[0, count)]. *)
Fixpoint decayed_sum (delta : Q) (offset count : nat) : Q :=
  match count with
  | O => 0
  | S i => decayed_sum delta offset i + delta * 0.9 ^ Z.of_nat (i + offset)
  end.

Definition clamp (lo hi x : Q) : Q := Qmax lo (Qmin hi x).

(** The running multiplier before it is clamped. *)
Definition raw_multiplier (p n : nat) : Q :=
  1.0 + decayed_sum 0.10 n p - decayed_sum 0.15 p n.

(** The feedback multiplier as the specification words it: start at
    1.0, add [0.10 * 0.9^(i + negative_count)] for every positive
    event, subtract [0.15 * 0.9^(i + positive_count)] for every
    negative event, clamp to [[0.0, 2.0]]. *)
Definition feedback_multiplier (positive_count negative_count : nat) : Q :=
  clamp 0.0 2.0 (raw_multiplier positive_count negative_count).

(** [m] is the greatest weight of the table [d]. *)
Definition is_max_weight (d : gmap string Q) (m : Q) : Prop :=
  (exists tag, d !! tag = Some m) /\
  (forall tag w, d !! tag = Some w -> w <= m).

(** The normalization invariant: the table is not empty and its
    greatest weight is 1.0. *)
Definition normalized (d : gmap string Q) : Prop :=
  d <> ∅ /\ exists m, is_max_weight d m /\ m == 1.0.

(** Occurrences of a tag in a list of tags. *)
Definition occurrences (tag : string) (l : list string) : nat :=
  length (filter (fun x => x = tag) l).

(** The tags of all the favorites, in order. *)
Definition all_tags `{Json} (favorite_galleries : list Gallery)
  : list string :=
  concat (gallery_tags <$> favorite_galleries).

(** The tag contains a colon. *)
Definition has_colon (tag : string) : Prop :=
  In ":"%char (list_ascii_of_string tag).

(** The namespace multipliers the specification lists. *)
Definition namespace_multipliers : list (string * Q) :=
  [ ("female"%string, 1.2); ("male"%string, 1.2); ("language"%string, 1.1);
    ("artist"%string, 0.9); ("group"%string, 0.9);
    ("cosplayer"%string, 0.7); ("reclass"%string, 0.5) ].

(** The feedback multiplier of a tag under a statistics map. *)
Definition multiplier_of (feedback_stats : option (gmap string TagAnalyzer.TagStats))
    (tag : string) : Q :=
  let '(pos_count, neg_count) :=
    TagAnalyzer.stats_of (default ∅ feedback_stats) tag in
  TagAnalyzer._compute_feedback_multiplier pos_count neg_count.

End Spec.

(** * Vocabulary of the statements on the engine *)

Section EngineVocabulary.
Context `{Json} `{IsoFormat} `{Sklearn} `{EhdbDatabase.Store}.
Import Engine.

(** What the recommend operations read and never write. *)
Definition static (self : Engine.t) :=
  (Database.favorites (database self), Database.feedback (database self),
   Database.recommendation_history (database self), config self,
   min_score_threshold self).

(** The list a recommend operation hands back; an operation that
    raises hands back nothing. *)
Definition returned {A} (r : Outcome (list A) * Engine.t) : list A :=
  match r.1 with
  | Returned l => l
  | Raised _ => []
  end.

(** The candidate filter of [_filter_and_score_galleries]. *)
Definition passes (self : Engine.t) (source : string) (now : Z) (g : Z)
  : Prop :=
  Database.is_favorited (database self) g = false /\
  Database.get_feedback (database self) g = None /\
  (is_manual source = false ->
   Database.is_recommended (database self) g
     (recommendation_expiry_days (config self)) now = false).

(** The message logged at the end of [_filter_and_score_galleries]. *)
Definition completion_message (recs : list Recommendation) : string :=
  match sorted_desc by_score_desc recs with
  | [] => "Recommendation completed: %d candidates, 0 recommendations (all below threshold %.2f)"
  | _ => "Recommendation completed: %d candidates, %d recommendations (highest %.2f, lowest %.2f)"
  end.

(** [self] with the recommendation history replaced by [h]. *)
Definition set_history (h : list Database.RecommendationRow)
    (self : Engine.t) : Engine.t :=
  with_database self (Database.with_history (database self) h).

Definition lift_history {A} (h : list Database.RecommendationRow)
    (r : Outcome A * Engine.t) : Outcome A * Engine.t :=
  (r.1, set_history h r.2).

(** The expiry check answers the same on the history [h] as on the
    history of [self], or the source is exempt from it. *)
Definition expiry_agrees (h : list Database.RecommendationRow)
    (self : Engine.t) (source : string) (now : Z) (g : Z) : Prop :=
  is_manual source = true \/
  Database.is_recommended (Database.with_history (database self) h) g
    (recommendation_expiry_days (config self)) now
  = Database.is_recommended (database self) g
      (recommendation_expiry_days (config self)) now.

(** The log gained the first record of a run of [initialize]. *)
Definition initialization_logged (before after : Engine.t) : Prop :=
  (INFO, "Starting recommendation engine initialization..."%string)
    ∈ drop (length (logger before)) (logger after).

(** The history without the rows of gallery [g]. *)
Definition forget (g : Z) (h : list Database.RecommendationRow)
  : list Database.RecommendationRow :=
  List.filter (fun row => negb (Database.rec_gid row =? g)%Z) h.

End EngineVocabulary.

(** The ids of a list of crawled items. *)
Definition gids_of (l : list (Z * string * Z)) : list Z :=
  (fun item => item.1.1) <$> l.

(** * Vocabulary of the further properties *)

(** [a] is not greater than [b] in the order [gtb] sorts by. *)
Definition not_greater {A : Type} (gtb : A -> A -> bool) (a b : A) : Prop :=
  gtb b a = false.

(** The row [sync_tag_preferences] leaves for a tag of the table it
    is given: [old] is the row the tag had. *)
Definition synced_row (now : Z) (base_weight : Q)
    (old : option Database.PreferenceRow) : Database.PreferenceRow :=
  match old with
  | Some row =>
      if ((0 <? Database.positive_count row)%nat
          || (0 <? Database.negative_count row)%nat)%bool
      then row
      else {| Database.weight := base_weight;
              Database.positive_count := Database.positive_count row;
              Database.negative_count := Database.negative_count row;
              Database.updated_time := now |}
  | None => {| Database.weight := base_weight;
               Database.positive_count := 0;
               Database.negative_count := 0;
               Database.updated_time := now |}
  end.

(** The row a tag has after [k] feedback events of one sign. *)
Definition learned_row (now : Z) (is_positive : bool) (k : nat)
    (old : option Database.PreferenceRow) : option Database.PreferenceRow :=
  match k with
  | O => old
  | S _ =>
      let '(w, p, n) :=
        match old with
        | Some row =>
            (Database.weight row, Database.positive_count row,
             Database.negative_count row)
        | None => (1.0%Q, 0%nat, 0%nat)
        end in
      Some (if is_positive
            then {| Database.weight := w;
                    Database.positive_count := (p + k)%nat;
                    Database.negative_count := n;
                    Database.updated_time := now |}
            else {| Database.weight := w;
                    Database.positive_count := p;
                    Database.negative_count := (n + k)%nat;
                    Database.updated_time := now |})
  end.

(** Every uploader of the weight table has a gallery count. *)
Definition counted (self : UploaderAnalyzer.t) : Prop :=
  forall u, is_Some (UploaderAnalyzer.uploader_weights self !! u) ->
            is_Some (UploaderAnalyzer.uploader_gallery_count self !! u).


(** * Sample collaborators and data for the closed statements *)

Module Sample.

(** A [json.loads] that rejects every document; the sample galleries
    carry their tags as lists. *)
Definition json : Json := {| json_loads := fun _ => None |}.

Definition isoformat : IsoFormat := {| fromisoformat := fun _ => None |}.

(** A scikit-learn whose fit always raises, as it does on a corpus of
    one document ([max_df = 0.8] keeps less than [min_df = 1]). *)
Definition sklearn : Sklearn :=
  {| Vectorizer := unit; Vector := unit; TfidfVectorizer := tt;
     fit_transform_mean := fun _ _ => (tt, None);
     transform_cosine := fun _ _ _ => None |}.

Definition tagged (id : Z) (l : list string) : Gallery :=
  {| gid := id; token := "0123456789"; title := ""; category := "Doujinshi";
     uploader := None; posted := None; filecount := 20; rating := 4.5%Q;
     tags := TagsList l |}.

(** A content store of two galleries that never raises. *)
Definition catalogue : list Gallery :=
  [ tagged 7 ["female:elf"; "language:japanese"]%string;
    tagged 8 ["language:japanese"]%string ].

Definition store : EhdbDatabase.Store :=
  {| EhdbDatabase.execute_query q :=
       match q with
       | EhdbDatabase.SelectGallery g =>
           Returned (List.filter (fun x => (gid x =? g)%Z) catalogue)
       | EhdbDatabase.SelectGalleriesByIds gs =>
           Returned (List.filter (fun x => bool_decide (gid x ∈ gs)) catalogue)
       | _ => Returned catalogue
       end |}.

(** A configuration with default weights and thresholds. *)
Definition config (expiry_days : option Z) : Engine.Config :=
  {| Engine.cfg_tag_weight := None; Engine.cfg_uploader_weight := None;
     Engine.cfg_quality_weight := None; Engine.cfg_content_weight := None;
     Engine.cfg_recency_weight := None;
     Engine.cfg_min_score_threshold := None;
     Engine.cfg_immediate_push_threshold := None;
     Engine.recommendation_expiry_days := expiry_days |}.

(** A history row: gallery [g] recommended at instant [t]. *)
Definition recommended (g t : Z) : Database.RecommendationRow :=
  {| Database.rec_gid := g; Database.rec_score := 0.9%R;
     Database.reason := Build_ScoreDetails 0 0 0 0 0 0 [];
     Database.recommended_time := t; Database.notified := true |}.

(** An engine whose history holds one row: gallery 7, recommended at
    instant 0. *)
Definition once_recommended (expiry_days : option Z)
  : Engine.t (H1 := sklearn) :=
  Engine.init
    (Database.add_recommendation Database.init 7 0.9%R
       (Build_ScoreDetails 0 0 0 0 0 0 []) true 0)
    (config expiry_days).

(** An engine on an empty database, as constructed and after the
    [initialize] of start-up. *)
Definition fresh_engine : Engine.t (H1 := sklearn) :=
  Engine.init Database.init (config None).

Definition idle_engine : Engine.t (H1 := sklearn) :=
  (Engine.initialize (H := json) (H2 := store) 0 fresh_engine).2.

(** An engine on an empty database with a low minimum score and a
    window of 30 days, after the [initialize] of start-up. *)
Definition keen_config : Engine.Config :=
  {| Engine.cfg_tag_weight := None; Engine.cfg_uploader_weight := None;
     Engine.cfg_quality_weight := None; Engine.cfg_content_weight := None;
     Engine.cfg_recency_weight := None;
     Engine.cfg_min_score_threshold := Some 0.25%Q;
     Engine.cfg_immediate_push_threshold := None;
     Engine.recommendation_expiry_days := Some 30%Z |}.

Definition keen_engine : Engine.t (H1 := sklearn) :=
  (Engine.initialize (H := json) (H2 := store) 0
     (Engine.init Database.init keen_config)).2.

(** The keen engine with gallery 7 of the catalogue as only favorite,
    after [initialize]. *)
Definition fan_engine : Engine.t (H1 := sklearn) :=
  (Engine.initialize (H := json) (H2 := store) 3
     (Engine.init (Database.add_favorite Database.init 7 "0123456789" 1 2)
        keen_config)).2.

Definition g8 : Gallery := tagged 8 ["language:japanese"%string].

(** A gallery without tags posted at instant [p]. *)
Definition posted_at (id p : Z) : Gallery :=
  {| gid := id; token := "0123456789"; title := ""; category := "Doujinshi";
     uploader := None; posted := Some (PostedDatetime p); filecount := 20;
     rating := 4.5%Q; tags := TagsList [] |}.

(** A listing of two pages; the first page shows one gallery twice and
    carries one readable time. *)
Definition upstream : FavoritesCrawler.Upstream :=
  {| FavoritesCrawler._make_request _ next_token :=
       if String.eqb next_token "" then Some "page 1"%string
       else if String.eqb next_token "3-1700000000" then Some "page 2"%string
       else None;
     FavoritesCrawler.link_matches html :=
       if String.eqb html "page 1"
       then [ (5%Z, "aaaaaaaaaa"%string); (4%Z, "bbbbbbbbbb"%string);
              (5%Z, "aaaaaaaaaa"%string) ]
       else if String.eqb html "page 2" then [ (3%Z, "cccccccccc"%string) ]
       else [];
     FavoritesCrawler.favtime_matches html :=
       if String.eqb html "page 1" then [Some 1700000300%Z; None] else [];
     FavoritesCrawler.next_match html :=
       if String.eqb html "page 1" then Some "3-1700000000"%string else None |}.


(** A tag profile of one tag, without vectorizer. *)
Definition elf_profile : TagAnalyzer.t (H0 := sklearn) :=
  {| TagAnalyzer.user_tag_weights := {[ "female:elf"%string := 1%Q ]};
     TagAnalyzer.vectorizer := None;
     TagAnalyzer.user_vector := None |}.


(** A content store that is down: every statement raises. *)
Definition outage : EhdbDatabase.Store :=
  {| EhdbDatabase.execute_query _ := Raised "OperationalError" |}.

End Sample.

(** * Facts *)

Import Spec.

Local Open Scope Q_scope.

(** ** The feedback multiplier *)

Section MultiplierFacts.
Import TagAnalyzer.

Lemma foldl_seq_snoc (f : nat -> Q) (acc : Q) (len : nat) :
  foldl (fun m i => m + f i) acc (seq 0 (S len))
  == foldl (fun m i => m + f i) acc (seq 0 len) + f len.
Proof.
  rewrite seq_S, foldl_app. simpl. reflexivity.
Qed.

Lemma positive_loop (acc : Q) (n p : nat) :
  foldl (fun m i => m + 0.1 * 0.9 ^ Z.of_nat (i + n)) acc (seq 0 p)
  == acc + decayed_sum 0.10 n p.
Proof.
  induction p as [|p IH].
  - simpl. lra.
  - rewrite (foldl_seq_snoc (fun i => 0.1 * 0.9 ^ Z.of_nat (i + n))).
    rewrite IH. simpl. lra.
Qed.

Lemma negative_loop (acc : Q) (p n : nat) :
  foldl (fun m i => m - 0.15 * 0.9 ^ Z.of_nat (i + p)) acc (seq 0 n)
  == acc - decayed_sum 0.15 p n.
Proof.
  induction n as [|n IH].
  - simpl. lra.
  - rewrite seq_S, foldl_app. simpl. rewrite IH. lra.
Qed.

Lemma multiplier_closed_form (p n : nat) :
  _compute_feedback_multiplier p n == feedback_multiplier p n.
Proof.
  unfold _compute_feedback_multiplier, feedback_multiplier, clamp.
  destruct ((p =? 0)%nat && (n =? 0)%nat)%bool eqn:E.
  - apply andb_true_iff in E as [Ep En].
    apply Nat.eqb_eq in Ep, En. subst. reflexivity.
  - cbv zeta. rewrite negative_loop, positive_loop. reflexivity.
Qed.

Lemma decayed_sum_nonneg delta offset count :
  0 <= delta -> 0 <= decayed_sum delta offset count.
Proof.
  intros Hd. induction count as [|i IH]; simpl; [lra|].
  assert (0 <= 0.9 ^ Z.of_nat (i + offset)) by (apply Qpower_0_le; lra).
  nra.
Qed.

Lemma decay_succ (k : nat) :
  0.9 ^ Z.of_nat (S k) == 0.9 * 0.9 ^ Z.of_nat k.
Proof.
  rewrite Nat2Z.inj_succ, <- Z.add_1_l.
  rewrite Qpower_plus by lra. reflexivity.
Qed.

Lemma decayed_sum_shift delta offset count :
  decayed_sum delta (S offset) count == 0.9 * decayed_sum delta offset count.
Proof.
  induction count as [|i IH]; simpl; [lra|].
  rewrite IH. rewrite Nat.add_succ_r, decay_succ. lra.
Qed.

Lemma raw_multiplier_pos_step p n :
  raw_multiplier p n <= raw_multiplier (S p) n.
Proof.
  unfold raw_multiplier. simpl. rewrite decayed_sum_shift.
  pose proof (decayed_sum_nonneg 0.15 p n ltac:(lra)).
  assert (0 <= 0.9 ^ Z.of_nat (p + n)) by (apply Qpower_0_le; lra).
  lra.
Qed.

Lemma raw_multiplier_neg_step p n :
  raw_multiplier p (S n) <= raw_multiplier p n.
Proof.
  unfold raw_multiplier. simpl. rewrite decayed_sum_shift.
  pose proof (decayed_sum_nonneg 0.10 n p ltac:(lra)).
  assert (0 <= 0.9 ^ Z.of_nat (n + p)) by (apply Qpower_0_le; lra).
  lra.
Qed.

Lemma clamp_bounds lo hi x : lo <= hi -> lo <= clamp lo hi x <= hi.
Proof.
  intros Hlh. unfold clamp. split.
  - apply Q.le_max_l.
  - apply Q.max_lub; [assumption | apply Q.le_min_l].
Qed.

Lemma clamp_monotone lo hi x y : x <= y -> clamp lo hi x <= clamp lo hi y.
Proof.
  intros Hxy. unfold clamp.
  apply Q.max_le_compat_l, Q.min_le_compat_l, Hxy.
Qed.

Lemma raw_multiplier_pos_mono p p' n :
  (p <= p')%nat -> raw_multiplier p n <= raw_multiplier p' n.
Proof.
  induction 1 as [|p' _ IH]; [lra|].
  pose proof (raw_multiplier_pos_step p' n). lra.
Qed.

Lemma raw_multiplier_neg_mono p n n' :
  (n <= n')%nat -> raw_multiplier p n' <= raw_multiplier p n.
Proof.
  induction 1 as [|n' _ IH]; [lra|].
  pose proof (raw_multiplier_neg_step p n'). lra.
Qed.

End MultiplierFacts.

(** ** Dictionaries of weights *)

Section DictFacts.

Lemma Qmax_cases (x y : Q) : Qmax x y = x \/ Qmax x y = y.
Proof.
  unfold Qmax, GenericMinMax.gmax. destruct (x ?= y); auto.
Qed.

Lemma foldl_Qmax_ge (v : Q) (vs : list Q) : v <= foldl Qmax v vs.
Proof.
  revert v. induction vs as [|x vs IH]; intros v; simpl; [lra|].
  apply Qle_trans with (Qmax v x); [apply Q.le_max_l | apply IH].
Qed.

Lemma foldl_Qmax_upper (v : Q) (vs : list Q) (x : Q) :
  x ∈ vs -> x <= foldl Qmax v vs.
Proof.
  revert v. induction vs as [|y vs IH]; intros v Hin.
  - inversion Hin.
  - simpl. apply elem_of_cons in Hin as [->|Hin].
    + apply Qle_trans with (Qmax v y);
        [apply Q.le_max_r | apply foldl_Qmax_ge].
    + apply IH, Hin.
Qed.

Lemma foldl_Qmax_elem (v : Q) (vs : list Q) :
  foldl Qmax v vs ∈ v :: vs.
Proof.
  revert v. induction vs as [|y vs IH]; intros v; simpl.
  - apply list_elem_of_here.
  - specialize (IH (Qmax v y)).
    apply elem_of_cons in IH as [Heq|Hin].
    + rewrite Heq.
      destruct (Qmax_cases v y) as [E|E]; rewrite E.
      * apply list_elem_of_here.
      * apply list_elem_of_further, list_elem_of_here.
    + do 2 apply list_elem_of_further. exact Hin.
Qed.

Lemma list_max_spec (dflt : Q) (l : list Q) :
  l <> [] ->
  let m := match l with [] => dflt | v :: vs => foldl Qmax v vs end in
  m ∈ l /\ (forall x, x ∈ l -> x <= m).
Proof.
  destruct l as [|v vs]; [congruence|]. intros _ m. subst m. split.
  - apply foldl_Qmax_elem.
  - intros x [->|Hx]%elem_of_cons.
    + apply foldl_Qmax_ge.
    + apply foldl_Qmax_upper, Hx.
Qed.

Lemma dict_values_elem (d : gmap string Q) (w : Q) :
  w ∈ dict_values d <-> exists tag, d !! tag = Some w.
Proof.
  unfold dict_values. rewrite list_elem_of_fmap. split.
  - intros [[tag v] [-> Hin]]. exists tag. apply elem_of_map_to_list, Hin.
  - intros [tag Htag]. exists (tag, w). split; [reflexivity|].
    apply elem_of_map_to_list, Htag.
Qed.

Lemma dict_values_nil (d : gmap string Q) : dict_values d = [] <-> d = ∅.
Proof.
  unfold dict_values. split.
  - intros E%fmap_nil_inv. apply map_to_list_empty_iff, E.
  - intros ->. rewrite map_to_list_empty. reflexivity.
Qed.

Lemma max_value_or_is_max (dflt : Q) (d : gmap string Q) :
  d <> ∅ -> is_max_weight d (max_value_or dflt d).
Proof.
  intros Hne.
  assert (dict_values d <> []) as Hvs by (rewrite dict_values_nil; exact Hne).
  destruct (list_max_spec dflt _ Hvs) as [Hin Hub].
  split.
  - apply dict_values_elem, Hin.
  - intros tag w Hw. apply Hub, dict_values_elem. eauto.
Qed.

Lemma is_max_weight_unique d m1 m2 :
  is_max_weight d m1 -> is_max_weight d m2 -> m1 == m2.
Proof.
  intros [[t1 H1] U1] [[t2 H2] U2].
  apply Qle_antisym; eauto.
Qed.

Lemma scale_by_lookup m d tag :
  scale_by m d !! tag = (fun v => v / m) <$> d !! tag.
Proof. unfold scale_by. apply lookup_fmap. Qed.

Lemma scale_by_max m d :
  0 < m -> is_max_weight d m -> is_max_weight (scale_by m d) (m / m).
Proof.
  intros Hm [[tag Htag] Hub]. split.
  - exists tag. rewrite scale_by_lookup, Htag. reflexivity.
  - intros tag' w Hw. rewrite scale_by_lookup in Hw.
    destruct (d !! tag') as [v|] eqn:Ev; simpl in Hw; [|discriminate].
    inversion Hw; subst. apply Qmult_le_compat_r.
    + eauto.
    + apply Qlt_le_weak, Qinv_lt_0_compat, Hm.
Qed.

Lemma scale_by_empty m d : scale_by m d = ∅ <-> d = ∅.
Proof. unfold scale_by. apply fmap_empty_iff. Qed.
End DictFacts.


(** ** Counting tags *)

Section CounterFacts.
Context `{Json}.
Import TagAnalyzer.

Lemma occurrences_cons tag x xs :
  occurrences tag (x :: xs)
  = ((if decide (x = tag) then 1 else 0) + occurrences tag xs)%nat.
Proof.
  unfold occurrences. rewrite filter_cons.
  destruct (decide (x = tag)); reflexivity.
Qed.

Lemma occurrences_app tag xs ys :
  occurrences tag (xs ++ ys) = (occurrences tag xs + occurrences tag ys)%nat.
Proof.
  unfold occurrences. rewrite filter_app, length_app. reflexivity.
Qed.

Lemma occurrences_pos tag xs : (0 < occurrences tag xs)%nat <-> tag ∈ xs.
Proof.
  induction xs as [|x xs IH].
  - split; [inversion 1 | intros Hin; inversion Hin].
  - rewrite occurrences_cons, elem_of_cons.
    destruct (decide (x = tag)) as [->|Hne].
    + split; [auto | lia].
    + simpl. rewrite IH. split; [auto | intros [E|Hin]; congruence].
Qed.

Lemma counter_update_lookup (c : gmap string nat) xs tag :
  counter_update c xs !! tag
  = match occurrences tag xs with
    | O => c !! tag
    | S k => Some (S k + default 0%nat (c !! tag))%nat
    end.
Proof.
  revert c. induction xs as [|x xs IH]; intros c; [reflexivity|].
  unfold counter_update in *. simpl. rewrite IH, occurrences_cons.
  unfold counter_incr.
  destruct (decide (x = tag)) as [->|Hne].
  - rewrite lookup_insert_eq. simpl.
    destruct (occurrences tag xs); f_equal; lia.
  - rewrite lookup_insert_ne by exact Hne. reflexivity.
Qed.

Lemma tag_counter_unfold (c : gmap string nat) favs :
  foldl (fun c g => counter_update c (gallery_tags g)) c favs
  = counter_update c (all_tags favs).
Proof.
  revert c. induction favs as [|g favs IH]; intros c; [reflexivity|].
  simpl. rewrite IH. unfold all_tags, counter_update. simpl.
  rewrite foldl_app. reflexivity.
Qed.

Lemma tag_counter_lookup favs tag :
  tag_counter favs !! tag
  = match occurrences tag (all_tags favs) with
    | O => None
    | S k => Some (S k)
    end.
Proof.
  unfold tag_counter. rewrite tag_counter_unfold, counter_update_lookup.
  rewrite lookup_empty. destruct (occurrences _ _); simpl; f_equal; lia.
Qed.

Lemma raw_base_weights_lookup favs tag :
  raw_base_weights favs !! tag
  = match occurrences tag (all_tags favs) with
    | O => None
    | S k => Some (ratio (S k) (length favs) * ns_weight tag)
    end.
Proof.
  unfold raw_base_weights. rewrite map_lookup_imap, tag_counter_lookup.
  destruct (occurrences _ _); reflexivity.
Qed.

Lemma all_tags_nil_length favs : all_tags favs <> [] -> (0 < length favs)%nat.
Proof. destruct favs; [intros Hc; contradiction Hc; reflexivity | simpl; lia]. Qed.

Lemma ns_weight_pos tag : 0 < ns_weight tag.
Proof.
  unfold ns_weight.
  destruct (NAMESPACE_WEIGHTS !! namespace_of tag) as [w|] eqn:E; simpl.
  - apply elem_of_list_to_map_2 in E.
    repeat (apply elem_of_cons in E as [E|E]; [inversion E; reflexivity|]).
    inversion E.
  - reflexivity.
Qed.

Lemma ratio_pos count total :
  (0 < count)%nat -> (0 < total)%nat -> 0 < ratio count total.
Proof.
  intros Hc Ht. unfold ratio. apply Qlt_shift_div_l.
  - change 0 with (inject_Z 0). rewrite <- Zlt_Qlt. lia.
  - rewrite Qmult_0_l. change 0 with (inject_Z 0). rewrite <- Zlt_Qlt. lia.
Qed.

Lemma raw_base_weights_pos favs tag w :
  raw_base_weights favs !! tag = Some w -> 0 < w.
Proof.
  rewrite raw_base_weights_lookup.
  destruct (occurrences tag (all_tags favs)) as [|k] eqn:E; [discriminate|].
  intros [= <-].
  assert (tag ∈ all_tags favs) as Hin by (apply occurrences_pos; lia).
  assert (all_tags favs <> []) as Hne by (intros E'; rewrite E' in Hin; inversion Hin).
  apply all_tags_nil_length in Hne.
  pose proof (ns_weight_pos tag). pose proof (ratio_pos (S k) (length favs)).
  apply Qmult_lt_0_compat; auto with lia.
Qed.

Lemma raw_base_weights_empty favs :
  raw_base_weights favs = ∅ <-> all_tags favs = [].
Proof.
  rewrite map_empty. split.
  - intros Hall. destruct (all_tags favs) as [|tag l] eqn:E; [reflexivity|].
    specialize (Hall tag). rewrite raw_base_weights_lookup, E in Hall.
    rewrite occurrences_cons in Hall.
    destruct (decide (tag = tag)); [discriminate | congruence].
  - intros E tag. rewrite raw_base_weights_lookup, E. reflexivity.
Qed.
End CounterFacts.


(** ** The tables of the tag analyzer *)

Section TableFacts.
Context `{Json}.
Import TagAnalyzer.

Lemma raw_base_max_pos favs :
  all_tags favs <> [] -> 0 < max_value_or 1.0 (raw_base_weights favs).
Proof.
  intros Hne. rewrite <- raw_base_weights_empty in Hne.
  destruct (max_value_or_is_max 1.0 _ Hne) as [[tag Htag] _].
  eapply raw_base_weights_pos, Htag.
Qed.

Lemma normalized_base_weights_lookup favs tag :
  normalized_base_weights favs !! tag
  = (fun v => v / max_value_or 1.0 (raw_base_weights favs))
      <$> raw_base_weights favs !! tag.
Proof. unfold normalized_base_weights. apply scale_by_lookup. Qed.

Lemma normalized_base_weights_pos favs tag w :
  all_tags favs <> [] -> normalized_base_weights favs !! tag = Some w -> 0 < w.
Proof.
  intros Hne. rewrite normalized_base_weights_lookup.
  destruct (raw_base_weights favs !! tag) as [v|] eqn:E; [|discriminate].
  intros [= <-]. apply Qlt_shift_div_l.
  - apply raw_base_max_pos, Hne.
  - rewrite Qmult_0_l. eapply raw_base_weights_pos, E.
Qed.

Lemma normalized_base_weights_normalized favs :
  all_tags favs <> [] -> normalized (normalized_base_weights favs).
Proof.
  intros Hne. pose proof (raw_base_max_pos favs Hne) as Hpos.
  rewrite <- raw_base_weights_empty in Hne.
  split.
  - unfold normalized_base_weights. rewrite scale_by_empty. exact Hne.
  - exists (max_value_or 1.0 (raw_base_weights favs)
            / max_value_or 1.0 (raw_base_weights favs)). split.
    + apply scale_by_max; [exact Hpos | apply max_value_or_is_max, Hne].
    + field. lra.
Qed.

Lemma normalized_base_weights_dom favs tag :
  is_Some (normalized_base_weights favs !! tag) <-> tag ∈ all_tags favs.
Proof.
  rewrite normalized_base_weights_lookup, fmap_is_Some.
  rewrite raw_base_weights_lookup, <- occurrences_pos.
  destruct (occurrences tag (all_tags favs)).
  - split; [intros [? ?]; discriminate | lia].
  - split; [lia | eauto].
Qed.

Lemma feedback_adjusted_weights_lookup favs stats tag :
  feedback_adjusted_weights favs stats !! tag
  = (fun base_weight => base_weight * multiplier_of (Some stats) tag)
      <$> normalized_base_weights favs !! tag.
Proof.
  unfold feedback_adjusted_weights, multiplier_of. rewrite map_lookup_imap.
  simpl. destruct (normalized_base_weights favs !! tag); simpl; [|reflexivity].
  destruct (stats_of stats tag). reflexivity.
Qed.

Lemma multiplier_of_nonneg stats tag : 0 <= multiplier_of stats tag.
Proof.
  unfold multiplier_of. destruct (stats_of _ tag) as [p n].
  rewrite multiplier_closed_form. unfold feedback_multiplier.
  pose proof (clamp_bounds 0.0 2.0 (raw_multiplier p n)) as Hb. lra.
Qed.

Lemma feedback_adjusted_weights_empty favs stats :
  feedback_adjusted_weights favs stats = ∅ <-> all_tags favs = [].
Proof.
  rewrite <- raw_base_weights_empty, !map_empty. split; intros Hall tag.
  - specialize (Hall tag).
    rewrite feedback_adjusted_weights_lookup, normalized_base_weights_lookup
      in Hall.
    destruct (raw_base_weights favs !! tag); [discriminate | reflexivity].
  - rewrite feedback_adjusted_weights_lookup, normalized_base_weights_lookup.
    rewrite Hall. reflexivity.
Qed.

(** The greatest adjusted weight is positive exactly when some tag of
    the favorites keeps a positive multiplier. *)
Lemma feedback_adjusted_max_pos favs stats :
  all_tags favs <> [] ->
  0 < max_value_or 1.0 (feedback_adjusted_weights favs stats)
  <-> exists tag, tag ∈ all_tags favs /\ 0 < multiplier_of (Some stats) tag.
Proof.
  intros Hne.
  assert (feedback_adjusted_weights favs stats <> ∅) as Hne'
    by (rewrite feedback_adjusted_weights_empty; exact Hne).
  destruct (max_value_or_is_max 1.0 _ Hne') as [[tag Htag] Hub].
  split.
  - intros Hpos. exists tag.
    rewrite feedback_adjusted_weights_lookup in Htag.
    destruct (normalized_base_weights favs !! tag) as [b|] eqn:Eb;
      [|discriminate].
    injection Htag as Htag. split.
    + apply normalized_base_weights_dom. rewrite Eb. eauto.
    + pose proof (normalized_base_weights_pos _ _ _ Hne Eb).
      pose proof (multiplier_of_nonneg (Some stats) tag).
      destruct (Qlt_le_dec 0 (multiplier_of (Some stats) tag)); [assumption|].
      assert (multiplier_of (Some stats) tag == 0) as E0 by lra.
      rewrite <- Htag, E0 in Hpos. lra.
  - intros [tag' [Hin Hm]].
    apply normalized_base_weights_dom in Hin as [b Hb].
    pose proof (normalized_base_weights_pos _ _ _ Hne Hb).
    apply Qlt_le_trans with (b * multiplier_of (Some stats) tag').
    + apply Qmult_lt_0_compat; assumption.
    + apply (Hub tag').
      rewrite feedback_adjusted_weights_lookup, Hb. reflexivity.
Qed.

Lemma final_tag_weights_normalized favs stats :
  all_tags favs <> [] ->
  (exists tag, tag ∈ all_tags favs /\ 0 < multiplier_of (Some stats) tag) ->
  normalized (final_tag_weights favs stats).
Proof.
  intros Hne Hpos. apply feedback_adjusted_max_pos in Hpos; [|exact Hne].
  assert (feedback_adjusted_weights favs stats <> ∅) as Hne'
    by (rewrite feedback_adjusted_weights_empty; exact Hne).
  unfold final_tag_weights. cbv zeta.
  destruct (Qlt_le_dec 0 _) as [Hlt|Hle]; [|lra].
  split.
  - rewrite scale_by_empty. exact Hne'.
  - eexists. split.
    + apply scale_by_max; [exact Hlt | apply max_value_or_is_max, Hne'].
    + field. lra.
Qed.

Lemma final_tag_weights_zero favs stats :
  all_tags favs <> [] ->
  (forall tag, tag ∈ all_tags favs -> multiplier_of (Some stats) tag == 0) ->
  final_tag_weights favs stats <> ∅ /\
  forall tag w, final_tag_weights favs stats !! tag = Some w -> w == 0.
Proof.
  intros Hne Hzero.
  assert (feedback_adjusted_weights favs stats <> ∅) as Hne'
    by (rewrite feedback_adjusted_weights_empty; exact Hne).
  unfold final_tag_weights. cbv zeta.
  destruct (Qlt_le_dec 0 _) as [Hlt|Hle].
  - apply feedback_adjusted_max_pos in Hlt as [tag [Hin Hm]]; [|exact Hne].
    rewrite (Hzero tag Hin) in Hm. lra.
  - split; [exact Hne'|]. intros tag w.
    rewrite feedback_adjusted_weights_lookup.
    destruct (normalized_base_weights favs !! tag) as [b|] eqn:Eb;
      [|discriminate].
    intros [= <-]. rewrite Hzero; [lra|].
    apply normalized_base_weights_dom. rewrite Eb. eauto.
Qed.

Lemma base_weights_for_sync_normalized favs :
  all_tags favs <> [] -> normalized (_get_base_weights_for_sync favs).
Proof.
  intros Hne. pose proof (raw_base_max_pos favs Hne) as Hpos.
  unfold _get_base_weights_for_sync.
  destruct favs as [|g favs]; [contradiction Hne; reflexivity|].
  cbv zeta. destruct (Qlt_le_dec 0 _) as [Hlt|Hle]; [|lra].
  apply normalized_base_weights_normalized in Hne. exact Hne.
Qed.

(** Both tables at once, for favorites that carry some tag. *)
Lemma tag_weight_tables `{Sklearn}
    (self : TagAnalyzer.t) (favs : list Gallery)
    (stats : option (gmap string TagAnalyzer.TagStats)) :
  all_tags favs <> [] ->
  let table :=
    (TagAnalyzer.compute_tag_weights_from_favorites self favs stats).1 in
  normalized (TagAnalyzer._get_base_weights_for_sync favs) /\
  table <> ∅ /\
  ((exists tag, tag ∈ all_tags favs /\ 0 < multiplier_of stats tag) ->
   normalized table) /\
  ((forall tag, tag ∈ all_tags favs -> multiplier_of stats tag == 0) ->
   forall tag w, table !! tag = Some w -> w == 0).
Proof.
  intros Hne table. subst table.
  assert (forall tag, multiplier_of stats tag
                      = multiplier_of (Some (default ∅ stats)) tag) as Hm
    by (intros tag; destruct stats; reflexivity).
  split; [apply base_weights_for_sync_normalized, Hne|].
  destruct favs as [|g favs]; [contradiction Hne; reflexivity|].
  cbn [TagAnalyzer.compute_tag_weights_from_favorites fst].
  split; [|split].
  - destruct (Qlt_le_dec 0 (max_value_or 1.0
      (TagAnalyzer.feedback_adjusted_weights (g :: favs) (default ∅ stats))))
      as [Hlt|Hle].
    + apply feedback_adjusted_max_pos in Hlt; [|exact Hne].
      apply (final_tag_weights_normalized _ _ Hne Hlt).
    + unfold TagAnalyzer.final_tag_weights. cbv zeta.
      destruct (Qlt_le_dec 0 _); [lra|].
      rewrite feedback_adjusted_weights_empty. exact Hne.
  - intros [tag [Hin Hpos]]. apply final_tag_weights_normalized; [exact Hne|].
    exists tag. rewrite <- Hm. auto.
  - intros Hzero. apply final_tag_weights_zero; [exact Hne|].
    intros tag Hin. rewrite <- Hm. auto.
Qed.

End TableFacts.

(** ** Claims on the tag analyzer *)

(** C3, as the code has it: for every list of favorites in which at
    least one tag occurs and every feedback-statistics map, the
    base-weight table of [_get_base_weights_for_sync] is non-empty with
    greatest weight 1.0, and the table of
    [compute_tag_weights_from_favorites] is non-empty; its greatest
    weight is 1.0 when some tag of the favorites has a positive feedback
    multiplier, and all its weights are 0 when every multiplier is 0. *)
Theorem tag_tables_normalized `{Json} `{Sklearn}
    (self : TagAnalyzer.t) (favs : list Gallery)
    (stats : option (gmap string TagAnalyzer.TagStats)) :
  all_tags favs <> [] ->
  let table :=
    (TagAnalyzer.compute_tag_weights_from_favorites self favs stats).1 in
  normalized (TagAnalyzer._get_base_weights_for_sync favs) /\
  table <> ∅ /\
  ((exists tag, tag ∈ all_tags favs /\ 0 < multiplier_of stats tag) ->
   normalized table) /\
  ((forall tag, tag ∈ all_tags favs -> multiplier_of stats tag == 0) ->
   forall tag w, table !! tag = Some w -> w == 0).
Proof. apply tag_weight_tables. Qed.

Lemma tag_tables_normalized_witness :
  let favs := [Sample.tagged 1 ["female:elf"; "language:japanese"]%string] in
  all_tags (H := Sample.json) favs <> [] /\
  normalized (TagAnalyzer._get_base_weights_for_sync (H := Sample.json) favs).
Proof.
  split; [discriminate|].
  apply (tag_tables_normalized (H := Sample.json) (H0 := Sample.sklearn)
           TagAnalyzer.init _ None).
  discriminate.
Defined.

(** C3 as stated fails twice: favorites without any tag give empty
    tables, and a tag with eleven dislikes and no like has multiplier 0,
    so that the only weight of the table is 0. *)
Lemma tag_tables_normalized_counterexample :
  let untagged := [Sample.tagged 1 []] in
  let disliked := [Sample.tagged 1 ["character:x"%string]] in
  let stats : option (gmap string TagAnalyzer.TagStats) :=
    Some {[ "character:x"%string :=
              {| TagAnalyzer.positive_count := 0;
                 TagAnalyzer.negative_count := 11 |} ]} in
  (untagged <> [] /\
   ~ normalized
       (TagAnalyzer.compute_tag_weights_from_favorites
          (H := Sample.json) (H0 := Sample.sklearn)
          TagAnalyzer.init untagged None).1 /\
   ~ normalized
       (TagAnalyzer._get_base_weights_for_sync (H := Sample.json) untagged)) /\
  (disliked <> [] /\
   ~ normalized
       (TagAnalyzer.compute_tag_weights_from_favorites
          (H := Sample.json) (H0 := Sample.sklearn)
          TagAnalyzer.init disliked stats).1).
Proof.
  intros untagged disliked stats. split; [split; [discriminate|split]|split].
  - intros [Hne _]. apply Hne. reflexivity.
  - intros [Hne _]. apply Hne. reflexivity.
  - discriminate.
  - intros [_ [m [[[tag Htag] _] Hm]]].
    assert (all_tags (H := Sample.json) disliked <> []) as Hne by discriminate.
    destruct (tag_weight_tables (H := Sample.json) (H0 := Sample.sklearn)
                TagAnalyzer.init disliked stats Hne) as (_ & _ & _ & Hzero).
    assert (m == 0) as E0.
    { apply (Hzero) with (tag := tag); [|exact Htag].
      intros tag' Hin. apply list_elem_of_singleton in Hin. subst tag'.
      vm_compute. reflexivity. }
    rewrite E0 in Hm. discriminate Hm.
Qed.

(** C4: the multiplier computed by the two loops is the one the
    specification words (start at 1.0, add [0.10 * 0.9^(i + negative)]
    for each positive event, subtract [0.15 * 0.9^(i + positive)] for
    each negative event, clamp to [[0.0, 2.0]]); for one positive and no
    negative event it is 1.10, and a tag of base weight 0.5 with these
    counts has weight 0.55 before the second normalisation. *)
Theorem feedback_multiplier_formula :
  (forall p n : nat,
     TagAnalyzer._compute_feedback_multiplier p n == feedback_multiplier p n) /\
  TagAnalyzer._compute_feedback_multiplier 1 0 == 1.10 /\
  (forall (J : Json) favs stats tag base_weight,
     TagAnalyzer.normalized_base_weights favs !! tag = Some base_weight ->
     base_weight == 0.5 ->
     TagAnalyzer.stats_of stats tag = (1%nat, 0%nat) ->
     exists w,
       TagAnalyzer.feedback_adjusted_weights favs stats !! tag = Some w /\
       w == 0.55).
Proof.
  split; [exact multiplier_closed_form|]. split; [reflexivity|].
  intros J favs stats tag b Hb Hhalf Hstats.
  exists (b * TagAnalyzer._compute_feedback_multiplier 1 0). split.
  - rewrite feedback_adjusted_weights_lookup, Hb. unfold multiplier_of.
    simpl. rewrite Hstats. reflexivity.
  - rewrite Hhalf. reflexivity.
Qed.

Lemma feedback_multiplier_formula_witness :
  let favs :=
    [ Sample.tagged 1 ["character:x"; "character:y"]%string;
      Sample.tagged 2 ["character:y"]%string ] in
  let stats : gmap string TagAnalyzer.TagStats :=
    {[ "character:x"%string :=
         {| TagAnalyzer.positive_count := 1;
            TagAnalyzer.negative_count := 0 |} ]} in
  exists base_weight,
    TagAnalyzer.normalized_base_weights (H := Sample.json) favs
      !! "character:x"%string = Some base_weight /\
    base_weight == 0.5 /\
    TagAnalyzer.stats_of stats "character:x" = (1%nat, 0%nat) /\
    exists w,
      TagAnalyzer.feedback_adjusted_weights (H := Sample.json) favs stats
        !! "character:x"%string = Some w /\
      w == 0.55.
Proof.
  intros favs stats.
  eexists. split; [vm_compute; reflexivity|].
  split; [reflexivity|]. split; [reflexivity|].
  eapply (proj2 (proj2 feedback_multiplier_formula) Sample.json favs stats
            "character:x"%string);
    [vm_compute; reflexivity | reflexivity | reflexivity].
Defined.

(** C5: for all counts the multiplier lies in [[0.0, 2.0]], does not
    decrease when the positive count grows and does not increase when
    the negative count grows. *)
Theorem feedback_multiplier_bounded_monotone (p n k : nat) :
  0.0 <= TagAnalyzer._compute_feedback_multiplier p n <= 2.0 /\
  TagAnalyzer._compute_feedback_multiplier p n
    <= TagAnalyzer._compute_feedback_multiplier (p + k) n /\
  TagAnalyzer._compute_feedback_multiplier p (n + k)
    <= TagAnalyzer._compute_feedback_multiplier p n.
Proof.
  rewrite !multiplier_closed_form. unfold feedback_multiplier.
  split; [apply clamp_bounds; lra|]. split.
  - apply clamp_monotone, raw_multiplier_pos_mono. lia.
  - apply clamp_monotone, raw_multiplier_neg_mono. lia.
Qed.

(** ** Namespaces *)

Section NamespaceFacts.
Import TagAnalyzer.

Lemma before_colon_none tag : ~ has_colon tag -> before_colon tag = None.
Proof.
  unfold has_colon. induction tag as [|c rest IH]; intros Hno; [reflexivity|].
  simpl in *. destruct (Ascii.eqb c ":") eqn:E.
  - apply Ascii.eqb_eq in E. subst c. contradiction Hno. left. reflexivity.
  - rewrite IH; [reflexivity|]. intros Hin. apply Hno. right. exact Hin.
Qed.

Lemma before_colon_prefix ns rest :
  ~ has_colon ns -> before_colon (ns ++ ":" ++ rest) = Some ns.
Proof.
  unfold has_colon. induction ns as [|c ns IH]; intros Hno; [reflexivity|].
  simpl in *. destruct (Ascii.eqb c ":") eqn:E.
  - apply Ascii.eqb_eq in E. subst c. contradiction Hno. left. reflexivity.
  - rewrite IH; [reflexivity|]. intros Hin. apply Hno. right. exact Hin.
Qed.

Lemma namespace_of_prefix ns rest :
  ~ has_colon ns -> namespace_of (ns ++ ":" ++ rest) = ns.
Proof.
  intros Hno. unfold namespace_of. rewrite before_colon_prefix by exact Hno.
  reflexivity.
Qed.

Lemma namespace_of_plain tag :
  ~ has_colon tag -> namespace_of tag = "other"%string.
Proof.
  intros Hno. unfold namespace_of. rewrite before_colon_none by exact Hno.
  reflexivity.
Qed.

End NamespaceFacts.

(** C6: for every list of favorites, the base weight of a tag before
    normalisation is its number of occurrences across the favorites,
    divided by the number of favorites and multiplied by the multiplier
    of its namespace; the namespace is the text before the first colon,
    a tag without colon falls in "other" with multiplier 0.8, and
    female/male, language, artist/group, cosplayer and reclass have
    multipliers 1.2, 1.1, 0.9, 0.7 and 0.5.  For the single favorite
    tagged "female:elf" and "language:japanese" and no feedback, the
    weight of "female:elf" is 1.0 and is the greatest of the table. *)
Theorem base_weight_formula :
  (forall (J : Json) (favs : list Gallery) (tag : string),
     tag ∈ all_tags favs ->
     TagAnalyzer.raw_base_weights favs !! tag
     = Some (ratio (occurrences tag (all_tags favs)) (length favs)
             * TagAnalyzer.ns_weight tag)) /\
  (forall ns rest : string,
     ~ has_colon ns ->
     TagAnalyzer.namespace_of (ns ++ ":" ++ rest) = ns /\
     TagAnalyzer.ns_weight (ns ++ ":" ++ rest)
     = default 1.0 (TagAnalyzer.NAMESPACE_WEIGHTS !! ns)) /\
  (forall tag : string,
     ~ has_colon tag ->
     TagAnalyzer.namespace_of tag = "other"%string /\
     TagAnalyzer.ns_weight tag == 0.8) /\
  Forall (fun entry : string * Q =>
            TagAnalyzer.NAMESPACE_WEIGHTS !! entry.1 = Some entry.2)
         namespace_multipliers /\
  (let favs := [Sample.tagged 1 ["female:elf"; "language:japanese"]%string] in
   let table :=
     (TagAnalyzer.compute_tag_weights_from_favorites
        (H := Sample.json) (H0 := Sample.sklearn)
        TagAnalyzer.init favs (Some ∅)).1 in
   exists w, table !! "female:elf"%string = Some w /\ w == 1.0 /\
             is_max_weight table w).
Proof.
  split; [|split; [|split; [|split]]].
  - intros J favs tag Hin. rewrite raw_base_weights_lookup.
    apply occurrences_pos in Hin.
    destruct (occurrences tag (all_tags favs)); [lia | reflexivity].
  - intros ns rest Hno. split; [apply namespace_of_prefix, Hno|].
    unfold TagAnalyzer.ns_weight. rewrite namespace_of_prefix by exact Hno.
    reflexivity.
  - intros tag Hno. split; [apply namespace_of_plain, Hno|].
    unfold TagAnalyzer.ns_weight. rewrite namespace_of_plain by exact Hno.
    reflexivity.
  - repeat constructor.
  - intros favs table.
    assert (all_tags (H := Sample.json) favs <> []) as Hne by discriminate.
    destruct (tag_weight_tables (H := Sample.json) (H0 := Sample.sklearn)
                TagAnalyzer.init favs (Some ∅) Hne) as (_ & _ & Hnorm & _).
    destruct Hnorm as [_ [m [[Hm Hub] Hm1]]].
    { exists "female:elf"%string. split; [apply list_elem_of_here|].
      vm_compute. reflexivity. }
    fold table in Hm, Hub.
    eexists. split; [vm_compute; reflexivity|].
    split; [reflexivity|]. split.
    + exists "female:elf"%string. vm_compute. reflexivity.
    + intros tag w Hw. apply Hub in Hw. rewrite Hm1 in Hw.
      apply (Qle_trans _ _ _ Hw). discriminate.
Qed.

Lemma base_weight_formula_witness :
  let favs :=
    [ Sample.tagged 1 ["female:elf"; "language:japanese"]%string;
      Sample.tagged 2 ["female:elf"; "plain"]%string ] in
  TagAnalyzer.raw_base_weights (H := Sample.json) favs !! "plain"%string
  = Some (ratio 1 2 * 0.8).
Proof.
  intros favs.
  exact (proj1 base_weight_formula Sample.json favs "plain"%string
           ltac:(vm_compute; repeat constructor)).
Defined.

(** ** The engine *)

Section SortedFacts.
Context {A : Type} (gtb : A -> A -> bool).

Lemma insert_desc_elem (x y : A) (s : list A) :
  y ∈ insert_desc gtb x s <-> y = x \/ y ∈ s.
Proof.
  induction s as [|z s IH]; simpl.
  - rewrite list_elem_of_singleton, elem_of_nil. tauto.
  - destruct (gtb z x).
    + rewrite !elem_of_cons, IH. tauto.
    + rewrite !elem_of_cons. tauto.
Qed.

Lemma sorted_desc_elem (y : A) (l : list A) :
  y ∈ sorted_desc gtb l <-> y ∈ l.
Proof.
  unfold sorted_desc. induction l as [|x l IH]; simpl; [reflexivity|].
  rewrite insert_desc_elem, elem_of_cons, IH. reflexivity.
Qed.
End SortedFacts.

Section EngineFacts.
Context `{Json} `{IsoFormat} `{Sklearn} `{EhdbDatabase.Store}.
Import Engine.

Lemma sync_tag_static now db entry :
  Database.favorites (Database.sync_tag now db entry) = Database.favorites db /\
  Database.feedback (Database.sync_tag now db entry) = Database.feedback db /\
  Database.recommendation_history (Database.sync_tag now db entry)
  = Database.recommendation_history db.
Proof.
  unfold Database.sync_tag. destruct entry as [tag w].
  destruct (Database.user_preferences db !! tag) as [row|]; [|auto].
  destruct (_ || _)%bool; auto.
Qed.

Lemma sync_tag_preferences_static db weights now :
  Database.favorites (Database.sync_tag_preferences db weights now)
  = Database.favorites db /\
  Database.feedback (Database.sync_tag_preferences db weights now)
  = Database.feedback db /\
  Database.recommendation_history (Database.sync_tag_preferences db weights now)
  = Database.recommendation_history db.
Proof.
  unfold Database.sync_tag_preferences.
  generalize (map_to_list weights). intros l. revert db.
  induction l as [|e l IH]; intros db; simpl; [auto|].
  destruct (IH (Database.sync_tag now db e)) as (-> & -> & ->).
  apply sync_tag_static.
Qed.

#[local] Arguments TagAnalyzer._get_base_weights_for_sync : simpl never.
#[local] Arguments TagAnalyzer.build_user_profile : simpl never.
#[local] Arguments UploaderAnalyzer.build_uploader_profile : simpl never.
#[local] Arguments ContentScorer.build_quality_profile : simpl never.
#[local] Arguments Database.sync_tag_preferences : simpl never.
#[local] Arguments Database.get_all_tag_feedback_stats : simpl never.
#[local] Arguments Database.get_all_favorites : simpl never.
#[local] Arguments EhdbDatabase.get_galleries_by_ids : simpl never.
#[local] Arguments score_gallery : simpl never.

Ltac run :=
  unfold mbind, M_bind, mret, M_ret, Engine.bind, Engine.ret, Engine.log,
    Engine.modify, Engine.get, Engine.query in *; simpl in *.

Lemma initialize_static now self :
  static (initialize now self).2 = static self.
Proof.
  unfold initialize. run.
  destruct ((Database.get_all_favorites (database self)).*1) as [|g0 gs];
    [reflexivity|].
  destruct (EhdbDatabase.get_galleries_by_ids (g0 :: gs)) as [[|f fs]|e];
    [reflexivity| |reflexivity].
  unfold static. simpl.
  destruct (sync_tag_preferences_static (database self)
              (TagAnalyzer._get_base_weights_for_sync (f :: fs)) now)
    as (-> & -> & ->).
  reflexivity.
Qed.

Lemma compute_recommendation_score_static gallery now self :
  static (compute_recommendation_score gallery now self).2 = static self.
Proof.
  unfold compute_recommendation_score. run.
  destruct (_is_initialized self); [reflexivity|].
  pose proof (initialize_static now self) as Hs.
  destruct (initialize now self) as [[[]|e] self']; exact Hs.
Qed.

Lemma passes_static self self' source now g :
  static self' = static self ->
  passes self' source now g <-> passes self source now g.
Proof.
  unfold static, passes, Database.is_favorited, Database.get_feedback,
    Database.is_recommended.
  intros [= -> -> -> -> _]. reflexivity.
Qed.

Lemma filter_and_score_one_sound source now recs g self :
  let r := filter_and_score_one source now recs g self in
  static r.2 = static self /\
  match r.1 with
  | Returned recs' =>
      recs' = recs \/
      exists sc d, recs' = recs ++ [Build_Recommendation g sc d source] /\
                   passes self source now (gid g)
  | Raised _ => True
  end.
Proof.
  unfold filter_and_score_one. run.
  destruct (Database.is_favorited (database self) (gid g)) eqn:Efav;
    [simpl; auto|].
  destruct (bool_decide (is_Some (Database.get_feedback (database self) (gid g))))
    eqn:Efb; [simpl; auto|].
  destruct (negb (is_manual source) && _)%bool eqn:Erec; [simpl; auto|].
  pose proof (compute_recommendation_score_static g now self) as Hs.
  destruct (compute_recommendation_score g now self) as [[[sc d]|e] self'];
    simpl in *; [|auto].
  destruct (Rlt_dec sc (Q2R (min_score_threshold self'))); simpl;
    (split; [exact Hs|]); [auto|].
  right. exists sc, d. split; [reflexivity|].
  split; [exact Efav|]. split.
  - apply bool_decide_eq_false in Efb.
    destruct (Database.get_feedback (database self) (gid g)); [|reflexivity].
    contradiction Efb. eauto.
  - intros Hman. rewrite Hman in Erec. exact Erec.
Qed.

Lemma for_each_cons {A B} (body : B -> A -> M B) acc x xs self :
  for_each body acc (x :: xs) self
  = match body acc x self with
    | (Returned acc', self') => for_each body acc' xs self'
    | (Raised e, self') => (Raised e, self')
    end.
Proof. reflexivity. Qed.

Lemma for_each_filter_sound source now galleries :
  forall recs self,
    let r := for_each (filter_and_score_one source now) recs galleries self in
    static r.2 = static self /\
    match r.1 with
    | Returned recs' =>
        forall x, x ∈ recs' ->
          x ∈ recs \/
          (Engine.source x = source /\ gallery x ∈ galleries /\
           passes self source now (gid (gallery x)))
    | Raised _ => True
    end.
Proof.
  induction galleries as [|g galleries IH]; intros recs self.
  - simpl. split; [reflexivity|]. auto.
  - rewrite for_each_cons.
    pose proof (filter_and_score_one_sound source now recs g self) as [Hs Hone].
    destruct (filter_and_score_one source now recs g self) as [[recs1|e] self1];
      cbn [fst snd] in *; [|auto].
    specialize (IH recs1 self1). cbv zeta in IH. destruct IH as [Hs' Hall].
    split; [congruence|].
    destruct (for_each _ recs1 galleries self1) as [[recs2|e] self2];
      cbn [fst snd] in *; [|exact I].
    intros x Hx. destruct (Hall x Hx) as [Hin|(Hsrc & Hg & Hp)].
    + destruct Hone as [->|(sc & d & -> & Hp)]; [auto|].
      apply elem_of_app in Hin as [Hin|Hin]; [auto|].
      apply list_elem_of_singleton in Hin. subst x. right. simpl.
      split; [reflexivity|]. split; [apply list_elem_of_here | exact Hp].
    + right. split; [exact Hsrc|]. split; [apply list_elem_of_further, Hg|].
      apply (passes_static self self1); assumption.
Qed.

(** Every entry of the list [_filter_and_score_galleries] returns
    carries the source tag and comes from a candidate that passed the
    filter on the database as the call found it. *)
Lemma filter_and_score_galleries_unfold galleries source now self :
  _filter_and_score_galleries galleries source now self
  = match for_each (filter_and_score_one source now) [] galleries self with
    | (Returned recs, self') =>
        (Returned (sorted_desc by_score_desc recs),
         with_logger self' (logger self' ++ [(INFO, completion_message recs)]))
    | (Raised e, self') => (Raised e, self')
    end.
Proof.
  unfold _filter_and_score_galleries, completion_message. run.
  destruct (for_each _ [] galleries self) as [[recs|e] self1]; [|reflexivity].
  destruct (sorted_desc by_score_desc recs); reflexivity.
Qed.

Lemma filter_and_score_galleries_sound galleries source now self :
  let r := _filter_and_score_galleries galleries source now self in
  static r.2 = static self /\
  Forall (fun x => Engine.source x = source /\ gallery x ∈ galleries /\
                   passes self source now (gid (gallery x)))
         (returned r).
Proof.
  rewrite filter_and_score_galleries_unfold.
  unfold returned.
  pose proof (for_each_filter_sound source now galleries [] self) as [Hs Hall].
  destruct (for_each _ [] galleries self) as [[recs|e] self1];
    cbn [fst snd] in *; [|split; [exact Hs | constructor]].
  split; [exact Hs|].
  apply Forall_forall. intros x Hx. apply sorted_desc_elem in Hx.
  destruct (Hall x Hx) as [Hnil|Hok]; [inversion Hnil | exact Hok].
Qed.

Lemma with_logger_static self l : static (with_logger self l) = static self.
Proof. reflexivity. Qed.

Lemma passes_logged self l source now g :
  passes (with_logger self l) source now g <-> passes self source now g.
Proof. reflexivity. Qed.

Lemma recommend_new_galleries_sound since_timestamp limit now self :
  let r := recommend_new_galleries since_timestamp limit now self in
  static r.2 = static self /\
  Forall (fun x => Engine.source x = "new"%string /\
                   passes self "new" now (gid (gallery x)))
         (returned r).
Proof.
  unfold recommend_new_galleries. run.
  destruct (EhdbDatabase.get_new_galleries since_timestamp limit)
    as [new_galleries|e]; [|split; [reflexivity | constructor]].
  match goal with
  | |- context [_filter_and_score_galleries ?gs ?src ?n ?s] =>
      pose proof (filter_and_score_galleries_sound gs src n s) as [Hs Hall]
  end.
  split; [exact Hs|].
  eapply Forall_impl; [exact Hall|]. simpl. tauto.
Qed.

Lemma recommend_from_pool_sound count min_rating now self :
  let r := recommend_from_pool count min_rating now self in
  static r.2 = static self /\
  Forall (fun x => Engine.source x = "old"%string /\
                   passes self "old" now (gid (gallery x)))
         (returned r).
Proof.
  unfold recommend_from_pool. run.
  destruct (EhdbDatabase.get_random_galleries count min_rating)
    as [candidates|e]; [|split; [reflexivity | constructor]].
  match goal with
  | |- context [_filter_and_score_galleries ?gs ?src ?n ?s] =>
      pose proof (filter_and_score_galleries_sound gs src n s) as [Hs Hall]
  end.
  split; [exact Hs|].
  eapply Forall_impl; [exact Hall|]. simpl. tauto.
Qed.

Lemma slice_to_elem {A} (limit : Z) (l : list A) x :
  x ∈ slice_to limit l -> x ∈ l.
Proof.
  unfold slice_to. destruct (limit <? 0)%Z; apply subseteq_take.
Qed.

Lemma recommend_similar_sound base limit now self :
  let r := recommend_similar base limit now self in
  static r.2 = static self /\
  Forall (fun x => Engine.source x = "manual"%string /\
                   gid (gallery x) <> base /\
                   passes self "manual" now (gid (gallery x)))
         (returned r).
Proof.
  unfold recommend_similar. run.
  destruct (EhdbDatabase.get_gallery base) as [[base_gallery|]|e];
    [| split; [reflexivity | constructor] | split; [reflexivity | constructor]].
  destruct (EhdbDatabase.search_similar_galleries _ _ _)
    as [similar|e]; [|split; [reflexivity | constructor]].
  match goal with
  | |- context [_filter_and_score_galleries ?gs ?src ?n ?s] =>
      pose proof (filter_and_score_galleries_sound gs src n s) as [Hs Hall];
      destruct (_filter_and_score_galleries gs src n s) as [[recs|e] self1]
  end; unfold returned in *; cbn [fst snd] in *;
    [|split; [exact Hs | constructor]].
  split; [exact Hs|].
  apply Forall_forall. intros x Hx%slice_to_elem.
  rewrite Forall_forall in Hall. destruct (Hall x Hx) as (Hsrc & Hg & Hp).
  split; [exact Hsrc|]. split; [|exact Hp].
  apply list_elem_of_In, filter_In in Hg as [_ Hg].
  unfold other_than in Hg. apply negb_true_iff, Z.eqb_neq in Hg. exact Hg.
Qed.

Lemma is_recommended_none db row now :
  row ∈ Database.recommendation_history db ->
  Database.is_recommended db (Database.rec_gid row) None now = true.
Proof.
  intros Hin. unfold Database.is_recommended. apply existsb_exists.
  exists row. split; [apply list_elem_of_In, Hin | apply Z.eqb_refl].
Qed.

Lemma is_recommended_within db row expiry_days now :
  row ∈ Database.recommendation_history db ->
  (now < Database.recommended_time row + expiry_days * day)%Z ->
  Database.is_recommended db (Database.rec_gid row) (Some expiry_days) now
  = true.
Proof.
  intros Hin Hnow. unfold Database.is_recommended. apply existsb_exists.
  exists row. split; [apply list_elem_of_In, Hin|].
  rewrite Z.eqb_refl. apply Z.ltb_lt. lia.
Qed.

Lemma is_recommended_expired db g expiry_days now :
  (forall row, row ∈ Database.recommendation_history db ->
               Database.rec_gid row = g ->
               (Database.recommended_time row + expiry_days * day <= now)%Z) ->
  Database.is_recommended db g (Some expiry_days) now = false.
Proof.
  intros Hall. unfold Database.is_recommended.
  apply not_true_is_false. intros Hex. apply existsb_exists in Hex.
  destruct Hex as [row [Hin Hrow]]. apply andb_true_iff in Hrow as [Hg Ht].
  apply Z.eqb_eq in Hg. apply Z.ltb_lt in Ht.
  apply list_elem_of_In in Hin. specialize (Hall row Hin Hg). lia.
Qed.

Lemma sync_tag_history now db entry h :
  Database.sync_tag now (Database.with_history db h) entry
  = Database.with_history (Database.sync_tag now db entry) h.
Proof.
  unfold Database.sync_tag. destruct entry as [tag w]. simpl.
  destruct (Database.user_preferences db !! tag) as [row|]; [|reflexivity].
  destruct (_ || _)%bool; reflexivity.
Qed.

Lemma sync_tag_preferences_history db weights now h :
  Database.sync_tag_preferences (Database.with_history db h) weights now
  = Database.with_history (Database.sync_tag_preferences db weights now) h.
Proof.
  unfold Database.sync_tag_preferences.
  generalize (map_to_list weights). intros l. revert db.
  induction l as [|e l IH]; intros db; simpl; [reflexivity|].
  rewrite sync_tag_history. apply IH.
Qed.

Lemma initialize_history now h self :
  initialize now (set_history h self) = lift_history h (initialize now self).
Proof.
  unfold initialize, lift_history. run.
  change (Database.get_all_favorites (Database.with_history (database self) h))
    with (Database.get_all_favorites (database self)).
  destruct ((Database.get_all_favorites (database self)).*1) as [|g0 gs];
    [reflexivity|].
  destruct (EhdbDatabase.get_galleries_by_ids (g0 :: gs)) as [[|f fs]|e];
    [reflexivity| |reflexivity].
  simpl. unfold set_history. simpl.
  rewrite sync_tag_preferences_history. reflexivity.
Qed.

Lemma compute_recommendation_score_history gallery now h self :
  compute_recommendation_score gallery now (set_history h self)
  = lift_history h (compute_recommendation_score gallery now self).
Proof.
  cbv [compute_recommendation_score lift_history mbind M_bind Engine.bind
       Engine.get mret M_ret Engine.ret].
  cbv beta iota.
  change (_is_initialized (set_history h self)) with (_is_initialized self).
  destruct (_is_initialized self); [reflexivity|].
  rewrite initialize_history. unfold lift_history.
  destruct (initialize now self) as [[[]|e] self']; reflexivity.
Qed.

Lemma expiry_agrees_static h self self' source now g :
  static self' = static self ->
  expiry_agrees h self source now g -> expiry_agrees h self' source now g.
Proof.
  unfold static, expiry_agrees, Database.is_recommended.
  intros [= _ _ Hh Hc _]. simpl. rewrite Hh, Hc. tauto.
Qed.

Lemma filter_and_score_one_history source now recs g h self :
  expiry_agrees h self source now (gid g) ->
  filter_and_score_one source now recs g (set_history h self)
  = lift_history h (filter_and_score_one source now recs g self).
Proof.
  intros Hagree.
  cbv [filter_and_score_one lift_history mbind M_bind Engine.bind
       Engine.get mret M_ret Engine.ret].
  cbv beta iota.
  change (database (set_history h self))
    with (Database.with_history (database self) h).
  change (config (set_history h self)) with (config self).
  change (Database.is_favorited (Database.with_history (database self) h) (gid g))
    with (Database.is_favorited (database self) (gid g)).
  destruct (Database.is_favorited (database self) (gid g)); [reflexivity|].
  change (Database.get_feedback (Database.with_history (database self) h) (gid g))
    with (Database.get_feedback (database self) (gid g)).
  destruct (bool_decide _); [reflexivity|].
  assert ((negb (is_manual source) &&
           Database.is_recommended (Database.with_history (database self) h)
             (gid g) (recommendation_expiry_days (config self)) now)%bool
          = (negb (is_manual source) &&
             Database.is_recommended (database self)
               (gid g) (recommendation_expiry_days (config self)) now)%bool)
    as ->.
  { destruct Hagree as [->| ->]; reflexivity. }
  destruct (negb (is_manual source) && _)%bool; [reflexivity|].
  rewrite compute_recommendation_score_history. unfold lift_history.
  destruct (compute_recommendation_score g now self) as [[[sc d]|e] self'];
    cbn [fst snd]; [|reflexivity].
  change (min_score_threshold (set_history h self'))
    with (min_score_threshold self').
  destruct (Rlt_dec sc (Q2R (min_score_threshold self'))); reflexivity.
Qed.

Lemma for_each_filter_history source now h galleries :
  forall recs self,
    (forall g, g ∈ galleries -> expiry_agrees h self source now (gid g)) ->
    for_each (filter_and_score_one source now) recs galleries
      (set_history h self)
    = lift_history h
        (for_each (filter_and_score_one source now) recs galleries self).
Proof.
  induction galleries as [|g galleries IH]; intros recs self Hagree;
    [reflexivity|].
  rewrite !for_each_cons.
  rewrite filter_and_score_one_history
    by (apply Hagree, list_elem_of_here).
  pose proof (filter_and_score_one_sound source now recs g self) as [Hs _].
  unfold lift_history at 1.
  destruct (filter_and_score_one source now recs g self) as [[recs1|e] self1];
    cbn [fst snd] in *; [|reflexivity].
  apply IH. intros g' Hg'.
  apply (expiry_agrees_static h self self1); [exact Hs|].
  apply Hagree, list_elem_of_further, Hg'.
Qed.

Lemma filter_and_score_galleries_history galleries source now h self :
  (forall g, g ∈ galleries -> expiry_agrees h self source now (gid g)) ->
  _filter_and_score_galleries galleries source now (set_history h self)
  = lift_history h (_filter_and_score_galleries galleries source now self).
Proof.
  intros Hagree. rewrite !filter_and_score_galleries_unfold.
  rewrite for_each_filter_history by exact Hagree.
  unfold lift_history at 1.
  destruct (for_each _ [] galleries self) as [[recs|e] self1]; reflexivity.
Qed.

Lemma recommend_similar_history base limit now h self :
  recommend_similar base limit now (set_history h self)
  = lift_history h (recommend_similar base limit now self).
Proof.
  cbv [recommend_similar lift_history mbind M_bind Engine.bind Engine.log
       Engine.modify Engine.query mret M_ret Engine.ret].
  cbv beta iota.
  destruct (EhdbDatabase.get_gallery base) as [[base_gallery|]|e];
    [|reflexivity|reflexivity].
  destruct (EhdbDatabase.search_similar_galleries _ _ _)
    as [similar|e]; [|reflexivity].
  change (with_logger (set_history h self)
            (logger (set_history h self) ++
               [(INFO, "Starting similar gallery recommendation"%string)]))
    with (set_history h
            (with_logger self
               (logger self ++
                  [(INFO, "Starting similar gallery recommendation"%string)]))).
  rewrite filter_and_score_galleries_history by (intros; left; reflexivity).
  unfold lift_history.
  match goal with
  | |- context [_filter_and_score_galleries ?gs ?src ?n ?s] =>
      destruct (_filter_and_score_galleries gs src n s) as [[recs|e] self1]
  end; reflexivity.
Qed.
End EngineFacts.

(** ** Claims on the candidate filter *)

(** C1: whatever the candidates and the query mode, no entry of a
    returned recommendation list is a gallery that is a favorite or has
    a feedback record (its score plays no part), and the call leaves
    both tables as they were. *)
Theorem recommendations_exclude_known
    `{Json} `{IsoFormat} `{Sklearn} `{EhdbDatabase.Store}
    (self : Engine.t) (now : Z) :
  let unknown (r : Outcome (list Engine.Recommendation) * Engine.t) :=
    Database.favorites (Engine.database r.2)
    = Database.favorites (Engine.database self) /\
    Database.feedback (Engine.database r.2)
    = Database.feedback (Engine.database self) /\
    Forall (fun x =>
              Database.is_favorited (Engine.database self)
                (gid (Engine.gallery x)) = false /\
              Database.get_feedback (Engine.database self)
                (gid (Engine.gallery x)) = None)
           (returned r) in
  (forall galleries source,
     unknown (Engine._filter_and_score_galleries galleries source now self)) /\
  (forall since_timestamp limit,
     unknown (Engine.recommend_new_galleries since_timestamp limit now self)) /\
  (forall count min_rating,
     unknown (Engine.recommend_from_pool count min_rating now self)) /\
  (forall base limit,
     unknown (Engine.recommend_similar base limit now self)).
Proof.
  intros unknown. subst unknown. cbv beta.
  split; [|split; [|split]].
  - intros galleries source.
    destruct (filter_and_score_galleries_sound galleries source now self)
      as [Hs Hall].
    unfold static in Hs. injection Hs as Hfav Hfb _ _ _.
    split; [exact Hfav|]. split; [exact Hfb|].
    eapply Forall_impl; [exact Hall|]. intros x (_ & _ & Hf & Hb & _). auto.
  - intros since_timestamp limit.
    destruct (recommend_new_galleries_sound since_timestamp limit now self)
      as [Hs Hall].
    unfold static in Hs. injection Hs as Hfav Hfb _ _ _.
    split; [exact Hfav|]. split; [exact Hfb|].
    eapply Forall_impl; [exact Hall|]. intros x (_ & Hf & Hb & _). auto.
  - intros count min_rating.
    destruct (recommend_from_pool_sound count min_rating now self)
      as [Hs Hall].
    unfold static in Hs. injection Hs as Hfav Hfb _ _ _.
    split; [exact Hfav|]. split; [exact Hfb|].
    eapply Forall_impl; [exact Hall|]. intros x (_ & Hf & Hb & _). auto.
  - intros base limit.
    destruct (recommend_similar_sound base limit now self) as [Hs Hall].
    unfold static in Hs. injection Hs as Hfav Hfb _ _ _.
    split; [exact Hfav|]. split; [exact Hfb|].
    eapply Forall_impl; [exact Hall|]. intros x (_ & _ & Hf & Hb & _). auto.
Qed.

(** C10: without [recommendation_expiry_days] in the configuration, a
    gallery with any row in the recommendation history is excluded by
    every non-manual mode, whenever the row was written and whenever
    the query runs. *)
Theorem no_expiry_suppresses_forever
    `{Json} `{IsoFormat} `{Sklearn} `{EhdbDatabase.Store}
    (self : Engine.t) (now : Z) (row : Database.RecommendationRow) :
  Engine.recommendation_expiry_days (Engine.config self) = None ->
  row ∈ Database.recommendation_history (Engine.database self) ->
  let absent (r : Outcome (list Engine.Recommendation) * Engine.t) :=
    Forall (fun x => gid (Engine.gallery x) <> Database.rec_gid row)
           (returned r) in
  (forall galleries source,
     Engine.is_manual source = false ->
     absent (Engine._filter_and_score_galleries galleries source now self)) /\
  (forall since_timestamp limit,
     absent (Engine.recommend_new_galleries since_timestamp limit now self)) /\
  (forall count min_rating,
     absent (Engine.recommend_from_pool count min_rating now self)).
Proof.
  intros Hcfg Hrow absent. subst absent. cbv beta.
  assert (forall source g,
            Engine.is_manual source = false ->
            passes self source now g -> g <> Database.rec_gid row) as Hex.
  { intros source g Hman (_ & _ & Hrec) ->. specialize (Hrec Hman).
    rewrite Hcfg, (is_recommended_none _ _ _ Hrow) in Hrec. discriminate. }
  split; [|split].
  - intros galleries source Hman.
    destruct (filter_and_score_galleries_sound galleries source now self)
      as [_ Hall].
    eapply Forall_impl; [exact Hall|]. intros x (_ & _ & Hp). eauto.
  - intros since_timestamp limit.
    destruct (recommend_new_galleries_sound since_timestamp limit now self)
      as [_ Hall].
    eapply Forall_impl; [exact Hall|]. intros x (_ & Hp).
    apply (Hex "new"%string); [reflexivity | exact Hp].
  - intros count min_rating.
    destruct (recommend_from_pool_sound count min_rating now self)
      as [_ Hall].
    eapply Forall_impl; [exact Hall|]. intros x (_ & Hp).
    apply (Hex "old"%string); [reflexivity | exact Hp].
Qed.

Section ExpiryFacts.
Context `{Json} `{IsoFormat} `{Sklearn} `{EhdbDatabase.Store}.
Import Engine.

Lemma recommend_new_galleries_history since_timestamp limit now h self :
  (forall g, expiry_agrees h self "new" now g) ->
  recommend_new_galleries since_timestamp limit now (set_history h self)
  = lift_history h (recommend_new_galleries since_timestamp limit now self).
Proof.
  intros Hagree.
  cbv [recommend_new_galleries lift_history mbind M_bind Engine.bind
       Engine.log Engine.modify Engine.query mret M_ret Engine.ret].
  cbv beta iota.
  destruct (EhdbDatabase.get_new_galleries since_timestamp limit)
    as [new_galleries|e]; [|reflexivity].
  change (with_logger (set_history h self)
            (logger (set_history h self) ++
               [(INFO, "Starting new gallery recommendation"%string)]))
    with (set_history h
            (with_logger self
               (logger self ++
                  [(INFO, "Starting new gallery recommendation"%string)]))).
  rewrite filter_and_score_galleries_history
    by (intros g _; apply (Hagree (gid g))).
  reflexivity.
Qed.

Lemma recommend_from_pool_history count min_rating now h self :
  (forall g, expiry_agrees h self "old" now g) ->
  recommend_from_pool count min_rating now (set_history h self)
  = lift_history h (recommend_from_pool count min_rating now self).
Proof.
  intros Hagree.
  cbv [recommend_from_pool lift_history mbind M_bind Engine.bind
       Engine.log Engine.modify Engine.query mret M_ret Engine.ret].
  cbv beta iota.
  destruct (EhdbDatabase.get_random_galleries count min_rating)
    as [candidates|e]; [|reflexivity].
  change (with_logger (set_history h self)
            (logger (set_history h self) ++
               [(INFO, "Starting recommendation from gallery pool"%string)]))
    with (set_history h
            (with_logger self
               (logger self ++
                  [(INFO, "Starting recommendation from gallery pool"%string)]))).
  rewrite filter_and_score_galleries_history
    by (intros g _; apply (Hagree (gid g))).
  reflexivity.
Qed.

(** Rows that are past the window weigh as much as no row at all. *)
Lemma forget_agrees (self : Engine.t) (W g now : Z) source :
  recommendation_expiry_days (config self) = Some W ->
  (forall row,
     row ∈ Database.recommendation_history (database self) ->
     Database.rec_gid row = g ->
     (Database.recommended_time row + W * day <= now)%Z) ->
  forall g',
    expiry_agrees
      (forget g (Database.recommendation_history (database self)))
      self source now g'.
Proof.
  intros Hcfg Hexpired g'. right. rewrite Hcfg.
  unfold Database.is_recommended, forget. simpl.
  induction (Database.recommendation_history (database self))
    as [|row rows IH]; [reflexivity|].
  simpl.
  assert (forall r, r ∈ rows -> Database.rec_gid r = g ->
                    (Database.recommended_time r + W * day <= now)%Z) as Hrest
    by (intros r Hr; apply Hexpired, list_elem_of_further, Hr).
  specialize (IH Hrest).
  destruct (Z.eqb_spec (Database.rec_gid row) g) as [Hg|Hg]; simpl.
  - rewrite IH.
    specialize (Hexpired row (list_elem_of_here _ _) Hg).
    assert ((now - W * day <? Database.recommended_time row)%Z = false) as ->
      by (apply Z.ltb_ge; lia).
    rewrite andb_false_r. reflexivity.
  - rewrite IH. reflexivity.
Qed.

End ExpiryFacts.

(** C7: let the window [W] be configured and let [T] be the instant of
    the latest recommendation of gallery [g].  Before [T + W] no
    non-manual mode returns [g].  From [T + W] on, the expiry check no
    longer holds [g] back, and a non-manual query has the outcome it has
    on a history in which [g] was never recommended.  The similar-item
    mode never consults the history: its outcome is the same on every
    history. *)
Theorem expiry_window
    `{Json} `{IsoFormat} `{Sklearn} `{EhdbDatabase.Store}
    (self : Engine.t) (W T g : Z) :
  let history := Database.recommendation_history (Engine.database self) in
  Engine.recommendation_expiry_days (Engine.config self) = Some W ->
  (exists row, row ∈ history /\ Database.rec_gid row = g /\
               Database.recommended_time row = T) ->
  (forall row, row ∈ history -> Database.rec_gid row = g ->
               (Database.recommended_time row <= T)%Z) ->
  let absent (r : Outcome (list Engine.Recommendation) * Engine.t) :=
    Forall (fun x => gid (Engine.gallery x) <> g) (returned r) in
  (forall now, (now < T + W * day)%Z ->
     (forall galleries source,
        Engine.is_manual source = false ->
        absent (Engine._filter_and_score_galleries galleries source now self)) /\
     (forall since_timestamp limit,
        absent (Engine.recommend_new_galleries since_timestamp limit now self)) /\
     (forall count min_rating,
        absent (Engine.recommend_from_pool count min_rating now self))) /\
  (forall now, (T + W * day <= now)%Z ->
     Database.is_recommended (Engine.database self) g (Some W) now = false /\
     (forall galleries source,
        Engine._filter_and_score_galleries galleries source now
          (set_history (forget g history) self)
        = lift_history (forget g history)
            (Engine._filter_and_score_galleries galleries source now self)) /\
     (forall since_timestamp limit,
        Engine.recommend_new_galleries since_timestamp limit now
          (set_history (forget g history) self)
        = lift_history (forget g history)
            (Engine.recommend_new_galleries since_timestamp limit now self)) /\
     (forall count min_rating,
        Engine.recommend_from_pool count min_rating now
          (set_history (forget g history) self)
        = lift_history (forget g history)
            (Engine.recommend_from_pool count min_rating now self))) /\
  (forall now h base limit,
     Engine.recommend_similar base limit now (set_history h self)
     = lift_history h (Engine.recommend_similar base limit now self)).
Proof.
  intros history Hcfg [row (Hrow & Hg & HT)] Hlatest absent.
  subst absent history. cbv beta. split; [|split].
  - intros now Hnow.
    assert (forall source g',
              Engine.is_manual source = false ->
              passes self source now g' -> g' <> g) as Hex.
    { intros source g' Hman (_ & _ & Hrec) ->. specialize (Hrec Hman).
      rewrite Hcfg, <- Hg in Hrec.
      rewrite (is_recommended_within _ row W now Hrow) in Hrec by lia.
      discriminate. }
    split; [|split].
    + intros galleries source Hman.
      destruct (filter_and_score_galleries_sound galleries source now self)
        as [_ Hall].
      eapply Forall_impl; [exact Hall|]. intros x (_ & _ & Hp). eauto.
    + intros since_timestamp limit.
      destruct (recommend_new_galleries_sound since_timestamp limit now self)
        as [_ Hall].
      eapply Forall_impl; [exact Hall|]. intros x (_ & Hp).
      apply (Hex "new"%string); [reflexivity | exact Hp].
    + intros count min_rating.
      destruct (recommend_from_pool_sound count min_rating now self)
        as [_ Hall].
      eapply Forall_impl; [exact Hall|]. intros x (_ & Hp).
      apply (Hex "old"%string); [reflexivity | exact Hp].
  - intros now Hnow.
    assert (forall r,
              r ∈ Database.recommendation_history (Engine.database self) ->
              Database.rec_gid r = g ->
              (Database.recommended_time r + W * day <= now)%Z) as Hexpired
      by (intros r Hr Hrg; specialize (Hlatest r Hr Hrg); lia).
    split; [apply is_recommended_expired, Hexpired|].
    split; [|split].
    + intros galleries source. apply filter_and_score_galleries_history.
      intros g' _. apply (forget_agrees self W g now); assumption.
    + intros since_timestamp limit. apply recommend_new_galleries_history.
      apply (forget_agrees self W g now); assumption.
    + intros count min_rating. apply recommend_from_pool_history.
      apply (forget_agrees self W g now); assumption.
  - intros now h base limit. apply recommend_similar_history.
Qed.

Section FilterWitnesses.
#[local] Existing Instance Sample.json.
#[local] Existing Instance Sample.isoformat.
#[local] Existing Instance Sample.sklearn.
#[local] Existing Instance Sample.store.

Lemma no_expiry_suppresses_forever_witness :
  Forall (fun x => gid (Engine.gallery x) <> 7%Z)
    (returned
       (Engine.recommend_new_galleries 0 200 (400 * day)
          (Sample.once_recommended None))).
Proof.
  apply (proj1 (proj2
           (no_expiry_suppresses_forever (Sample.once_recommended None) (400 * day)
              (Sample.recommended 7 0) eq_refl
              ltac:(apply list_elem_of_here)))).
Defined.

Lemma expiry_window_witness :
  Forall (fun x => gid (Engine.gallery x) <> 7%Z)
    (returned
       (Engine.recommend_new_galleries 0 200 (29 * day)
          (Sample.once_recommended (Some 30%Z)))) /\
  Database.is_recommended (Engine.database (Sample.once_recommended (Some 30%Z)))
    7 (Some 30%Z) (30 * day) = false.
Proof.
  pose proof (expiry_window (Sample.once_recommended (Some 30%Z)) 30 0 7 eq_refl
                ltac:(exists (Sample.recommended 7 0);
                      split; [apply list_elem_of_here | split; reflexivity])
                ltac:(intros row Hrow _;
                      apply list_elem_of_singleton in Hrow; subst row;
                      simpl; lia))
    as (Hbefore & Hafter & _).
  split.
  - apply (Hbefore (29 * day)%Z ltac:(reflexivity)).
  - apply (Hafter (30 * day)%Z ltac:(discriminate)).
Defined.

End FilterWitnesses.

(** ** Feedback and scoring *)

Section FeedbackFacts.
Context `{Json} `{IsoFormat} `{Sklearn} `{EhdbDatabase.Store}.
Import Engine.

Lemma handle_feedback_unresolved gid rating source now self :
  EhdbDatabase.get_gallery gid = Returned None ->
  handle_feedback gid rating source now self
  = (Returned tt,
     with_logger
       (with_database self
          (Database.add_feedback (database self) gid rating source now))
       (logger self ++ [(WARNING, "Unable to get gallery information"%string)])).
Proof.
  intros Hnone.
  cbv [handle_feedback mbind M_bind Engine.bind Engine.log Engine.modify
       Engine.query mret M_ret Engine.ret].
  cbv beta iota. rewrite Hnone. reflexivity.
Qed.

Lemma initialize_logs_start now self :
  exists rest,
    logger (initialize now self).2
    = logger self
      ++ (INFO, "Starting recommendation engine initialization..."%string)
      :: rest.
Proof.
  unfold initialize.
  cbv [mbind M_bind Engine.bind Engine.log Engine.modify Engine.get
       Engine.query mret M_ret Engine.ret].
  cbv beta iota. cbn [logger with_logger database config].
  destruct ((Database.get_all_favorites (database self)).*1) as [|g0 gs].
  { eexists. cbn. rewrite <- app_assoc. reflexivity. }
  destruct (EhdbDatabase.get_galleries_by_ids (g0 :: gs)) as [[|f fs]|e].
  - eexists. cbn. rewrite <- app_assoc. reflexivity.
  - eexists. cbn. rewrite <- app_assoc. reflexivity.
  - eexists. cbn. reflexivity.
Qed.

Lemma initialize_returns_initialized now self :
  (initialize now self).1 = Returned tt ->
  _is_initialized (initialize now self).2 = true.
Proof.
  unfold initialize.
  cbv [mbind M_bind Engine.bind Engine.log Engine.modify Engine.get
       Engine.query mret M_ret Engine.ret].
  cbv beta iota. cbn [logger with_logger database config].
  destruct ((Database.get_all_favorites (database self)).*1) as [|g0 gs];
    [reflexivity|].
  destruct (EhdbDatabase.get_galleries_by_ids (g0 :: gs)) as [[|f fs]|e];
    [reflexivity | reflexivity | discriminate].
Qed.

Lemma score_gallery_same_age self g now1 now2 :
  (forall p, ContentScorer.posted_instant g = Some p ->
             ContentScorer.days_between now1 p
             = ContentScorer.days_between now2 p) ->
  score_gallery self g now1 = score_gallery self g now2.
Proof.
  intros Hage. unfold score_gallery.
  assert (ContentScorer.compute_recency_score (content_scorer self) g now1
          = ContentScorer.compute_recency_score (content_scorer self) g now2)
    as ->; [|reflexivity].
  unfold ContentScorer.compute_recency_score.
  destruct (ContentScorer.posted_instant g) as [p|]; [|reflexivity].
  rewrite (Hage p eq_refl). reflexivity.
Qed.

Lemma compute_recommendation_score_initialized g now self :
  _is_initialized self = true ->
  compute_recommendation_score g now self
  = (Returned (score_gallery self g now), self).
Proof.
  intros Hinit.
  cbv [compute_recommendation_score mbind M_bind Engine.bind Engine.get
       mret M_ret Engine.ret].
  cbv beta iota. rewrite Hinit. reflexivity.
Qed.

Lemma compute_recommendation_score_fresh g now self :
  _is_initialized self = false ->
  compute_recommendation_score g now self
  = match initialize now self with
    | (Returned _, self') => (Returned (score_gallery self' g now), self')
    | (Raised e, self') => (Raised e, self')
    end.
Proof.
  intros Hinit.
  cbv [compute_recommendation_score mbind M_bind Engine.bind Engine.get
       mret M_ret Engine.ret].
  cbv beta iota. rewrite Hinit.
  destruct (initialize now self) as [[[]|e] self']; reflexivity.
Qed.

(** An [initialize] that raises has only written its first log record,
    and raises again from the state it leaves. *)
Lemma initialize_raises_again now now' self e :
  (initialize now self).1 = Raised e ->
  _is_initialized (initialize now self).2 = _is_initialized self /\
  (initialize now' (initialize now self).2).1 = Raised e.
Proof.
  unfold initialize.
  cbv [mbind M_bind Engine.bind Engine.log Engine.modify Engine.get
       Engine.query mret M_ret Engine.ret].
  cbv beta iota. cbn [logger with_logger database config].
  destruct ((Database.get_all_favorites (database self)).*1) as [|g0 gs] eqn:Ef;
    [discriminate|].
  destruct (EhdbDatabase.get_galleries_by_ids (g0 :: gs)) as [[|f fs]|e'] eqn:Eq;
    [discriminate | discriminate |].
  cbn [fst snd]. intros [= ->]. split; [reflexivity|].
  cbn [logger with_logger database config]. rewrite Ef, Eq. reflexivity.
Qed.
End FeedbackFacts.

(** ** Claims on feedback and scoring *)

Section FeedbackClaims.
Import Engine.

(** Every run of [initialize] leaves its first record in the log. *)
Lemma initialize_is_logged
    `{Json} `{IsoFormat} `{Sklearn} `{EhdbDatabase.Store} now self :
  initialization_logged self (initialize now self).2.
Proof.
  unfold initialization_logged.
  destruct (initialize_logs_start now self) as [rest ->].
  rewrite drop_app_length. apply list_elem_of_here.
Qed.

(** C2, as the code has it: when the content store has no gallery
    [gid], [handle_feedback] returns without raising, the feedback
    record is persisted, a warning is logged and nothing else: the
    learner step is skipped (the tag preferences are unchanged) and so
    is the profile rebuild ([initialize] does not run, the analyzers and
    the initialisation flag are as before). *)
Theorem handle_feedback_unresolvable
    `{Json} `{IsoFormat} `{Sklearn} `{EhdbDatabase.Store}
    (self : Engine.t) (gid rating : Z) (source : string) (now : Z) :
  EhdbDatabase.get_gallery gid = Returned None ->
  let r := handle_feedback gid rating source now self in
  r.1 = Returned tt /\
  Database.get_feedback (database r.2) gid = Some rating /\
  Database.user_preferences (database r.2)
  = Database.user_preferences (database self) /\
  logger r.2
  = logger self ++ [(WARNING, "Unable to get gallery information"%string)] /\
  ~ initialization_logged self r.2 /\
  tag_analyzer r.2 = tag_analyzer self /\
  uploader_analyzer r.2 = uploader_analyzer self /\
  content_scorer r.2 = content_scorer self /\
  _is_initialized r.2 = _is_initialized self.
Proof.
  intros Hnone r. subst r.
  rewrite (handle_feedback_unresolved gid rating source now self Hnone).
  cbn [fst snd]. split; [reflexivity|]. split.
  { unfold Database.get_feedback. cbn. rewrite lookup_insert_eq. reflexivity. }
  split; [reflexivity|]. split; [reflexivity|]. split.
  { unfold initialization_logged. cbn [logger with_logger].
    rewrite drop_app_length. intros Hin.
    apply list_elem_of_singleton in Hin. discriminate Hin. }
  repeat split.
Qed.

(** C8, as the code has it: two successive calls of
    [compute_recommendation_score] on the same gallery, with nothing
    else touching the engine in between, have the same outcome provided
    the two clock readings give the gallery the same age in whole days
    (or the gallery has no readable posting time); when the first call
    returns, the second leaves the engine as the first left it. *)
Theorem score_repeatable_within_a_day
    `{Json} `{IsoFormat} `{Sklearn} `{EhdbDatabase.Store}
    (self : Engine.t) (g : Gallery) (now1 now2 : Z) :
  (forall p, ContentScorer.posted_instant g = Some p ->
             ContentScorer.days_between now1 p
             = ContentScorer.days_between now2 p) ->
  let first := compute_recommendation_score g now1 self in
  let second := compute_recommendation_score g now2 first.2 in
  second.1 = first.1 /\
  (forall result, first.1 = Returned result -> second.2 = first.2).
Proof.
  intros Hage first second. subst first second.
  destruct (_is_initialized self) eqn:Hinit.
  - rewrite (compute_recommendation_score_initialized g now1 self Hinit).
    cbn [fst snd].
    rewrite (compute_recommendation_score_initialized g now2 self Hinit).
    cbn [fst snd]. rewrite (score_gallery_same_age self g now1 now2 Hage).
    auto.
  - rewrite (compute_recommendation_score_fresh g now1 self Hinit).
    pose proof (initialize_returns_initialized now1 self) as Hret.
    pose proof (initialize_raises_again now1 now2 self) as Hraise.
    destruct (initialize now1 self) as [[[]|e] self1]; cbn [fst snd] in *.
    + rewrite (compute_recommendation_score_initialized g now2 self1
                 (Hret eq_refl)).
      cbn [fst snd]. rewrite (score_gallery_same_age self1 g now1 now2 Hage).
      auto.
    + destruct (Hraise e eq_refl) as [Hflag Hagain]. rewrite Hinit in Hflag.
      rewrite (compute_recommendation_score_fresh g now2 self1 Hflag).
      destruct (initialize now2 self1) as [[[]|e'] self2]; cbn [fst snd] in *;
        [discriminate|]. split; [congruence | discriminate].
Qed.
End FeedbackClaims.

Section FeedbackClosed.
#[local] Existing Instance Sample.json.
#[local] Existing Instance Sample.isoformat.
#[local] Existing Instance Sample.sklearn.
#[local] Existing Instance Sample.store.
Import Engine.

Lemma handle_feedback_unresolvable_witness :
  let r := handle_feedback 42 (-1) "new" 0 Sample.idle_engine in
  r.1 = Returned tt /\
  Database.get_feedback (database r.2) 42 = Some (-1)%Z.
Proof.
  intros r.
  destruct (@handle_feedback_unresolvable Sample.json Sample.isoformat Sample.sklearn Sample.store Sample.idle_engine 42 (-1) "new" 0 eq_refl)
    as (Hret & Hfb & _).
  split; assumption.
Defined.

(** C2 as stated fails on the rebuild: with gallery 42 absent from the
    content store, the feedback is persisted and the learner skipped,
    but no run of [initialize] is logged. *)
Lemma handle_feedback_rebuild_counterexample :
  let r := handle_feedback 42 (-1) "new" 0 Sample.idle_engine in
  EhdbDatabase.get_gallery 42 = Returned None /\
  r.1 = Returned tt /\
  Database.get_feedback (database r.2) 42 = Some (-1)%Z /\
  Database.user_preferences (database r.2)
  = Database.user_preferences (database Sample.idle_engine) /\
  ~ initialization_logged Sample.idle_engine r.2.
Proof.
  intros r. subst r. split; [reflexivity|].
  rewrite (@handle_feedback_unresolved Sample.json Sample.sklearn Sample.store
             42 (-1) "new" 0 Sample.idle_engine eq_refl).
  cbn [fst snd]. split; [reflexivity|]. split; [reflexivity|].
  split; [reflexivity|].
  unfold initialization_logged. cbn [logger with_logger].
  rewrite drop_app_length. intros Hin.
  apply list_elem_of_singleton in Hin. discriminate Hin.
Qed.

Lemma recency_same_day cs :
  ContentScorer.compute_recency_score cs (Sample.posted_at 9 0) 0 = 1%R.
Proof.
  unfold ContentScorer.compute_recency_score.
  change (ContentScorer.posted_instant (Sample.posted_at 9 0)) with (Some 0%Z).
  cbv beta iota zeta.
  rewrite (eq_refl : ContentScorer.days_between 0 0 = 0%Z).
  rewrite Z.ltb_irrefl.
  rewrite Rmult_0_r, exp_0.
  rewrite Rmin_left by lra. rewrite Rmax_right by lra. lra.
Qed.

Lemma recency_next_day cs :
  (ContentScorer.compute_recency_score cs (Sample.posted_at 9 0) day < 1)%R.
Proof.
  unfold ContentScorer.compute_recency_score.
  change (ContentScorer.posted_instant (Sample.posted_at 9 0)) with (Some 0%Z).
  cbv beta iota zeta.
  rewrite (eq_refl : ContentScorer.days_between day 0 = 1%Z).
  rewrite (eq_refl : (1 <? 0)%Z = false).
  match goal with
  | |- context [exp ?x] =>
      assert (exp x < 1)%R as Hexp
        by (apply Rlt_le_trans with (exp 0);
            [apply exp_increasing; lra | rewrite exp_0; lra])
  end.
  rewrite Rmin_right by lra. apply Rmax_lub_lt; lra.
Qed.

(** C8 as stated fails: on an initialised engine that no call mutates,
    scoring a gallery at the instant it was posted and again one day
    later gives two different results. *)
Lemma score_not_repeatable_counterexample :
  let g := Sample.posted_at 9 0 in
  let first := compute_recommendation_score g 0 Sample.idle_engine in
  let second := compute_recommendation_score g day first.2 in
  first.2 = Sample.idle_engine /\ second.2 = Sample.idle_engine /\ second.1 <> first.1.
Proof.
  intros g first second. subst first second.
  assert (_is_initialized Sample.idle_engine = true) as Hinit by reflexivity.
  rewrite (compute_recommendation_score_initialized g 0 _ Hinit).
  cbn [fst snd].
  rewrite (compute_recommendation_score_initialized g day _ Hinit).
  cbn [fst snd]. split; [reflexivity|]. split; [reflexivity|].
  intros [= Htotal _]. revert Htotal.
  pose proof (recency_same_day (content_scorer Sample.idle_engine)) as Hsame.
  pose proof (recency_next_day (content_scorer Sample.idle_engine)) as Hnext.
  fold g in Hsame, Hnext.
  set (r0 := ContentScorer.compute_recency_score _ g 0) in *.
  set (r1 := ContentScorer.compute_recency_score _ g day) in *.
  assert (0 < Q2R (recency_weight Sample.idle_engine))%R as Hw.
  { change (recency_weight Sample.idle_engine) with 0.05%Q. unfold Q2R. simpl. lra. }
  set (w := Q2R (recency_weight Sample.idle_engine)) in *.
  intros Htotal. apply Rplus_eq_reg_l in Htotal. nra.
Qed.

Lemma score_repeatable_within_a_day_witness :
  let g := Sample.posted_at 9 0 in
  let first := compute_recommendation_score g 0 Sample.idle_engine in
  let second := compute_recommendation_score g 1 first.2 in
  second.1 = first.1.
Proof.
  intros g first second.
  refine (proj1 (score_repeatable_within_a_day Sample.idle_engine g 0 1 _)).
  intros p [= <-]. reflexivity.
Defined.
End FeedbackClosed.

(** ** The crawler *)

Section CrawlerFacts.
Context `{FavoritesCrawler.Upstream}.
Import FavoritesCrawler.

Lemma attach_favtimes_gids now favtimes links :
  gids_of (attach_favtimes now favtimes links) = links.*1.
Proof.
  revert favtimes. induction links as [|[g tok] links IH]; intros favtimes;
    [reflexivity|].
  simpl. destruct favtimes as [|[dt|] favtimes']; simpl; f_equal; apply IH.
Qed.

Lemma fetch_favorites_page_gids favcat tok now now' :
  gids_of (items (fetch_favorites_page favcat tok now))
  = gids_of (items (fetch_favorites_page favcat tok now')).
Proof.
  unfold fetch_favorites_page.
  destruct (_make_request favcat tok) as [html|]; [|reflexivity].
  destruct (String.eqb html ""); [reflexivity|].
  destruct (link_matches html); [reflexivity|].
  simpl. rewrite !attach_favtimes_gids. reflexivity.
Qed.

Lemma filter_all_known (known : gset Z) (l : list (Z * string * Z)) :
  (forall item, item ∈ l -> item.1.1 ∈ known) ->
  List.filter (fun g => bool_decide (g.1.1 ∉ known)) l = [].
Proof.
  induction l as [|item l IH]; intros Hknown; [reflexivity|].
  simpl. rewrite bool_decide_eq_false_2.
  - apply IH. intros it Hit. apply Hknown, list_elem_of_further, Hit.
  - intros Hnot. apply Hnot, Hknown, list_elem_of_here.
Qed.

(** When the first page holds nothing new, the loop stops there. *)
Lemma new_favorites_first_page_known known favcat max_pages now :
  (forall item, item ∈ items (fetch_favorites_page favcat "" now) ->
                item.1.1 ∈ known) ->
  fetch_new_favorites known favcat max_pages now
  = ([], if (0 <? max_pages)%Z then [""%string] else []).
Proof.
  intros Hknown. unfold fetch_new_favorites.
  destruct (Z.ltb_spec 0 max_pages) as [Hpos|Hneg].
  - destruct (Z.to_nat max_pages) as [|n] eqn:E; [lia|].
    simpl. destruct (items (fetch_favorites_page favcat "" now)) as [|i l] eqn:Ei;
      [reflexivity|].
    rewrite (filter_all_known known (i :: l) Hknown). reflexivity.
  - replace (Z.to_nat max_pages) with 0%nat by lia. reflexivity.
Qed.

Lemma all_favorites_loop_keeps n favcat now tok acc requested :
  forall item, item ∈ acc ->
    item ∈ (all_favorites_loop n favcat now tok acc requested).1.
Proof.
  revert tok acc requested. induction n as [|n IH]; intros tok acc requested item Hin;
    [exact Hin|].
  simpl. destruct (items (fetch_favorites_page favcat tok now)) as [|i l];
    [exact Hin|].
  destruct (more_pages _) as [tok'|].
  - apply IH. apply elem_of_app. left. exact Hin.
  - simpl. apply elem_of_app. left. exact Hin.
Qed.

Lemma full_sync_has_first_page favcat max_pages now item :
  (0 < max_pages)%Z ->
  item ∈ items (fetch_favorites_page favcat "" now) ->
  item ∈ (fetch_all_favorites favcat max_pages now).1.
Proof.
  intros Hpos Hin. unfold fetch_all_favorites.
  destruct (Z.to_nat max_pages) as [|n] eqn:E; [lia|].
  simpl. destruct (items (fetch_favorites_page favcat "" now)) as [|i l] eqn:Ei;
    [inversion Hin|].
  destruct (more_pages _) as [tok'|]; [apply all_favorites_loop_keeps|]; exact Hin.
Qed.
End CrawlerFacts.

Import FavoritesCrawler.

(** C9: when [known_gids] holds the id of every item of every page the
    listing serves, [fetch_new_favorites] returns no item and stops
    after a single page: the only page it requests is the first one
    (it requests none when [max_pages] allows none). *)
Theorem incremental_sync_all_known `{Upstream}
    (known_gids : gset Z) (favcat : Favcat) (max_pages now : Z) :
  (forall next_token item,
     item ∈ items (fetch_favorites_page favcat next_token now) ->
     item.1.1 ∈ known_gids) ->
  let r := fetch_new_favorites known_gids favcat max_pages now in
  r.1 = [] /\
  (length r.2 <= 1)%nat /\
  ((0 < max_pages)%Z -> r.2 = [""%string]).
Proof.
  intros Hknown r. subst r.
  rewrite new_favorites_first_page_known
    by (intros item; apply (Hknown ""%string)).
  cbn [fst snd]. split; [reflexivity|].
  destruct (Z.ltb_spec 0 max_pages); simpl; split; auto with lia.
Qed.

(** The case the specification names: the known ids are those a full
    sync of the same category returned. *)
Lemma incremental_after_full_sync `{Upstream}
    (favcat : Favcat) (full_pages max_pages earlier now : Z) :
  (0 < full_pages)%Z ->
  let known_gids : gset Z :=
    list_to_set (gids_of (fetch_all_favorites favcat full_pages earlier).1) in
  fetch_new_favorites known_gids favcat max_pages now
  = ([], if (0 <? max_pages)%Z then [""%string] else []).
Proof.
  intros Hpos known_gids. apply new_favorites_first_page_known.
  intros item Hin. subst known_gids. apply elem_of_list_to_set.
  assert (item.1.1 ∈ gids_of (items (fetch_favorites_page favcat "" earlier)))
    as Hearlier.
  { rewrite (fetch_favorites_page_gids favcat "" earlier now).
    unfold gids_of. apply list_elem_of_fmap. eauto. }
  unfold gids_of in *. apply list_elem_of_fmap in Hearlier as [it [-> Hit]].
  apply list_elem_of_fmap. exists it. split; [reflexivity|].
  apply full_sync_has_first_page; assumption.
Qed.

Lemma incremental_sync_all_known_witness :
  let r :=
    fetch_new_favorites (H := Sample.upstream) {[3%Z; 4%Z; 5%Z]}
      FavcatAll 10 0 in
  r.1 = [] /\ r.2 = [""%string].
Proof.
  intros r.
  assert (forall next_token item,
            item ∈ items (fetch_favorites_page (H := Sample.upstream)
                            FavcatAll next_token 0) ->
            item.1.1 ∈ ({[3%Z; 4%Z; 5%Z]} : gset Z)) as Hknown.
  { intros next_token item. unfold fetch_favorites_page. simpl.
    destruct (String.eqb next_token ""); simpl.
    - intros Hin.
      repeat (apply elem_of_cons in Hin as [->|Hin]; [simpl; set_solver|]).
      inversion Hin.
    - destruct (String.eqb next_token "3-1700000000"); simpl.
      + intros Hin.
        repeat (apply elem_of_cons in Hin as [->|Hin]; [simpl; set_solver|]).
        inversion Hin.
      + intros Hin. inversion Hin. }
  destruct (incremental_sync_all_known (H := Sample.upstream)
              {[3%Z; 4%Z; 5%Z]} FavcatAll 10 0 Hknown) as (Hnone & _ & Hone).
  split; [exact Hnone | apply Hone; reflexivity].
Defined.

(** ** Sample runs *)

(** The sample listing: a full sync walks both pages and drops the
    repeated link; an incremental sync that knows the first page stops
    there, one that knows only gallery 5 goes on to the second page. *)
Example full_sync_sample :
  fetch_all_favorites (H := Sample.upstream) FavcatAll 50 1800000000
  = ([ (5%Z, "aaaaaaaaaa"%string, 1700000300%Z);
       (4%Z, "bbbbbbbbbb"%string, 1800000000%Z);
       (3%Z, "cccccccccc"%string, 1800000000%Z) ],
     [ ""%string; "3-1700000000"%string ]).
Proof. vm_compute. reflexivity. Qed.

Example incremental_sync_sample :
  fetch_new_favorites (H := Sample.upstream) {[4%Z; 5%Z]} FavcatAll 10 1800000000
  = ([], [""%string]) /\
  fetch_new_favorites (H := Sample.upstream) {[5%Z]} FavcatAll 10 1800000000
  = ([ (4%Z, "bbbbbbbbbb"%string, 1800000000%Z);
       (3%Z, "cccccccccc"%string, 1800000000%Z) ],
     [ ""%string; "3-1700000000"%string ]).
Proof. split; vm_compute; reflexivity. Qed.

Section SampleRuns.
#[local] Existing Instance Sample.json.
#[local] Existing Instance Sample.isoformat.
#[local] Existing Instance Sample.sklearn.
#[local] Existing Instance Sample.store.
Import Engine.

(** On an engine without favorites a gallery of the sample catalogue
    scores 0.275: quality 0.95, content 0.4 and recency 0.5 under the
    default weights. *)
Lemma keen_score l now :
  l = ["female:elf"; "language:japanese"]%string \/ l = ["language:japanese"%string] ->
  forall id, (score_gallery Sample.keen_engine (Sample.tagged id l) now).1 = 0.275%R.
Proof.
  intros Hl id.
  unfold score_gallery. cbn [fst].
  replace (TagAnalyzer.compute_tag_similarity (tag_analyzer Sample.keen_engine)
             (gallery_tags (Sample.tagged id l))) with 0%R by reflexivity.
  replace (UploaderAnalyzer.compute_uploader_score
             (uploader_analyzer Sample.keen_engine)
             (default ""%string (uploader (Sample.tagged id l)))) with 0.0%Q
    by reflexivity.
  replace (ContentScorer.compute_recency_score
             (content_scorer Sample.keen_engine) (Sample.tagged id l) now)
    with 0.5%R by reflexivity.
  replace (ContentScorer.compute_quality_score
             (content_scorer Sample.keen_engine) (Sample.tagged id l))
    with ((Q2R 4.5 / 5.0 + 1.0) / 2)%R by reflexivity.
  replace (ContentScorer.compute_content_score
             (content_scorer Sample.keen_engine) (Sample.tagged id l))
    with (80 # 200)%Q by (destruct Hl as [-> | ->]; reflexivity).
  replace (tag_weight Sample.keen_engine) with 0.40%Q by reflexivity.
  replace (uploader_weight Sample.keen_engine) with 0.20%Q by reflexivity.
  replace (quality_weight Sample.keen_engine) with 0.20%Q by reflexivity.
  replace (content_weight Sample.keen_engine) with 0.15%Q by reflexivity.
  replace (recency_weight Sample.keen_engine) with 0.05%Q by reflexivity.
  unfold Q2R. simpl. lra.
Qed.

(** One round of the filter loop on the keen engine with history [h]. *)
Lemma keen_filter_one h now recs g e :
  e = set_history h Sample.keen_engine \/
  (exists l, e = with_logger (set_history h Sample.keen_engine) l) ->
  g ∈ Sample.catalogue ->
  filter_and_score_one "new" now recs g e
  = if Database.is_recommended (database e) (gid g) (Some 30%Z) now
    then (Returned recs, e)
    else (Returned (recs ++ [Build_Recommendation g 0.275%R
                               (score_gallery e g now).2 "new"]), e).
Proof.
  intros He Hg.
  assert (_is_initialized e = true) as Hinit
    by (destruct He as [->|[l ->]]; reflexivity).
  assert (forall id l, score_gallery e (Sample.tagged id l) now
                       = score_gallery Sample.keen_engine (Sample.tagged id l) now)
    as Hscore by (intros; destruct He as [->|[l' ->]]; reflexivity).
  assert (min_score_threshold e = 0.25%Q) as Hthr
    by (destruct He as [->|[l ->]]; reflexivity).
  assert (recommendation_expiry_days (config e) = Some 30%Z) as Hcfg
    by (destruct He as [->|[l ->]]; reflexivity).
  cbv [filter_and_score_one mbind M_bind Engine.bind Engine.get
       mret M_ret Engine.ret].
  cbv beta iota.
  replace (Database.is_favorited (database e) (gid g)) with false
    by (destruct He as [->|[l ->]]; reflexivity).
  replace (bool_decide (is_Some (Database.get_feedback (database e) (gid g))))
    with false
    by (destruct He as [->|[l ->]];
        repeat (apply elem_of_cons in Hg as [->|Hg]; [reflexivity|]);
        inversion Hg).
  rewrite Hcfg. change (is_manual "new") with false. cbn [negb andb].
  destruct (Database.is_recommended (database e) (gid g) (Some 30%Z) now);
    [reflexivity|].
  rewrite (compute_recommendation_score_initialized g now e Hinit).
  cbv beta iota.
  destruct (score_gallery e g now) as [sc d] eqn:Esc. cbn [fst snd].
  assert (sc = 0.275%R) as ->.
  { change sc with (sc, d).1. rewrite <- Esc.
    repeat (apply elem_of_cons in Hg as [->|Hg];
            [rewrite Hscore; apply (keen_score _ now); auto|]).
    inversion Hg. }
  rewrite Hthr.
  destruct (Rlt_dec 0.275 (Q2R 0.25)) as [Hlt|_]; [|reflexivity].
  exfalso. revert Hlt. unfold Q2R. simpl. lra.
Qed.

Ltac run_keen_query h now :=
  unfold recommend_new_galleries;
  cbv [mbind M_bind Engine.bind Engine.log Engine.modify Engine.query
       mret M_ret Engine.ret];
  cbv beta iota;
  change (EhdbDatabase.get_new_galleries 0 200) with (Returned Sample.catalogue);
  cbv beta iota;
  rewrite filter_and_score_galleries_unfold;
  unfold Sample.catalogue;
  rewrite for_each_cons;
  rewrite (keen_filter_one h now)
    by (try (right; eexists; reflexivity); apply list_elem_of_here);
  match goal with
  | |- context [Database.is_recommended ?d ?g ?x ?n] =>
      let b := eval vm_compute in (Database.is_recommended d g x n) in
      change (Database.is_recommended d g x n) with b
  end;
  cbv beta iota;
  rewrite for_each_cons;
  rewrite (keen_filter_one h now)
    by (try (right; eexists; reflexivity);
        apply list_elem_of_further, list_elem_of_here);
  match goal with
  | |- context [Database.is_recommended ?d ?g ?x ?n] =>
      let b := eval vm_compute in (Database.is_recommended d g x n) in
      change (Database.is_recommended d g x n) with b
  end;
  cbv beta iota;
  cbn [for_each]; unfold mret, M_ret, Engine.ret, returned; cbn [fst snd app];
  unfold sorted_desc; cbn [foldr insert_desc];
  unfold by_score_desc; cbn [score];
  try (destruct (Rlt_dec 0.275 0.275) as [Hlt|_]; [lra|]);
  reflexivity.

(** Gallery 7, recommended at instant 0 under a window of 30 days, is
    held back on day 29 and returned again on day 30; gallery 8 was
    never recommended. *)
Example recommend_new_sample :
  let self := set_history [Sample.recommended 7 0] Sample.keen_engine in
  (fun x => gid (gallery x))
    <$> returned (recommend_new_galleries 0 200 (29 * day) self) = [8%Z] /\
  (fun x => gid (gallery x))
    <$> returned (recommend_new_galleries 0 200 (30 * day) self) = [7%Z; 8%Z].
Proof.
  intros self. subst self. split.
  - run_keen_query [Sample.recommended 7 0] (29 * day)%Z.
  - run_keen_query [Sample.recommended 7 0] (30 * day)%Z.
Qed.
(** Feedback on a gallery the content store knows: the counts of both
    its tags go up and [initialize] runs. *)
Example handle_feedback_resolved_sample :
  let r := handle_feedback 7 1 "new" 5 Sample.idle_engine in
  r.1 = Returned tt /\
  Database.get_feedback (database r.2) 7 = Some 1%Z /\
  Database.get_tag_preference (database r.2) "female:elf"
  = Some {| Database.weight := 1.0; Database.positive_count := 1;
            Database.negative_count := 0; Database.updated_time := 5 |} /\
  Database.get_tag_preference (database r.2) "language:japanese"
  = Some {| Database.weight := 1.0; Database.positive_count := 1;
            Database.negative_count := 0; Database.updated_time := 5 |} /\
  initialization_logged Sample.idle_engine r.2.
Proof.
  intros r. subst r. repeat split; try reflexivity.
  unfold initialization_logged. cbn. 
  repeat constructor.
Qed.
(** The profile built from the single favorite "female:elf",
    "language:japanese" and the scores of a gallery tagged
    "language:japanese": weighted overlap (11/12) / (1 + 11/12), quality
    and content 1, recency 0.5. *)
Example fan_profile_sample :
  TagAnalyzer.jaccard_score (tag_analyzer Sample.fan_engine) (gallery_tags Sample.g8)
    == 11 # 23 /\
  TagAnalyzer.explain_similarity (tag_analyzer Sample.fan_engine)
    ["language:japanese"; "female:elf"; "misc"]%string 5
  = ["female:elf"; "language:japanese"]%string /\
  ContentScorer.filecount_range (content_scorer Sample.fan_engine) = (20, 20)%Z /\
  ContentScorer.compute_content_score (content_scorer Sample.fan_engine) Sample.g8 == 1 /\
  (Database.weight <$>
     Database.get_tag_preference (database Sample.fan_engine) "language:japanese")
  = Some (110 # 120) /\
  _is_initialized Sample.fan_engine = true.
Proof. repeat split; vm_compute; reflexivity. Qed.

Lemma fan_quality :
  ContentScorer.compute_quality_score (content_scorer Sample.fan_engine) Sample.g8 = 1%R.
Proof.
  unfold ContentScorer.compute_quality_score.
  destruct (Qlt_le_dec 0 (ContentScorer.avg_rating (content_scorer Sample.fan_engine)))
    as [_|Hle]; [|exfalso; revert Hle; vm_compute; congruence].
  replace (Q2R (ContentScorer.avg_rating (content_scorer Sample.fan_engine)))
    with (Q2R (rating Sample.g8))
    by (apply Qeq_eqR; vm_compute; reflexivity).
  replace (ContentScorer.rating_std (content_scorer Sample.fan_engine)) with 0.5%R
    by reflexivity.
  replace (ContentScorer.filecount_range (content_scorer Sample.fan_engine))
    with (20, 20)%Z by (vm_compute; reflexivity).
  change (filecount Sample.g8) with 20%Z. cbn [fst snd Z.leb Z.compare Pos.compare
    Pos.compare_cont andb].
  rewrite Rminus_diag, Rabs_R0.
  replace (- 0 ^ 2 / (2 * 0.5 ^ 2))%R with 0%R by (simpl; lra).
  rewrite exp_0. lra.
Qed.

Example fan_score_sample now :
  (score_gallery Sample.fan_engine Sample.g8 now).1 = (11 / 23 * 0.4 + 0.375)%R.
Proof.
  unfold score_gallery. cbn [fst].
  rewrite fan_quality.
  replace (TagAnalyzer.compute_tag_similarity (tag_analyzer Sample.fan_engine)
             (gallery_tags Sample.g8))
    with (Q2R (TagAnalyzer.jaccard_score (tag_analyzer Sample.fan_engine)
                 (gallery_tags Sample.g8))).
  2:{ unfold TagAnalyzer.compute_tag_similarity.
      replace (bool_decide (TagAnalyzer.user_tag_weights (tag_analyzer Sample.fan_engine) = ∅))
        with false by (vm_compute; reflexivity).
      replace (gallery_tags Sample.g8) with ["language:japanese"%string] by reflexivity.
      replace (TagAnalyzer.matched_tags (tag_analyzer Sample.fan_engine)
                 ["language:japanese"%string])
        with ["language:japanese"%string] by (vm_compute; reflexivity).
      destruct (Qlt_le_dec 0 _) as [_|Hle];
        [|exfalso; revert Hle; vm_compute; congruence].
      replace (TagAnalyzer.user_vector (tag_analyzer Sample.fan_engine)) with (@None unit)
        by reflexivity.
      destruct (TagAnalyzer.vectorizer (tag_analyzer Sample.fan_engine)); reflexivity. }
  rewrite (Qeq_eqR _ (11 # 23)) by (vm_compute; reflexivity).
  replace (UploaderAnalyzer.compute_uploader_score
             (uploader_analyzer Sample.fan_engine)
             (default ""%string (uploader Sample.g8))) with 0.0%Q
    by reflexivity.
  replace (ContentScorer.compute_recency_score
             (content_scorer Sample.fan_engine) Sample.g8 now)
    with 0.5%R by reflexivity.
  rewrite (Qeq_eqR (ContentScorer.compute_content_score _ _) 1)
    by (vm_compute; reflexivity).
  replace (tag_weight Sample.fan_engine) with 0.40%Q by reflexivity.
  replace (uploader_weight Sample.fan_engine) with 0.20%Q by reflexivity.
  replace (quality_weight Sample.fan_engine) with 0.20%Q by reflexivity.
  replace (content_weight Sample.fan_engine) with 0.15%Q by reflexivity.
  replace (recency_weight Sample.fan_engine) with 0.05%Q by reflexivity.
  unfold Q2R. simpl. lra.
Qed.
End SampleRuns.

(** * Further properties *)

(** ** Sorting *)
Section SortingFacts.
Context {A : Type} (gtb : A -> A -> bool).

Hypothesis gtb_asym : forall x y, gtb x y = true -> gtb y x = false.
Hypothesis not_greater_trans :
  forall x y z,
    not_greater gtb x y -> not_greater gtb y z -> not_greater gtb x z.

Lemma insert_desc_perm x s : insert_desc gtb x s ≡ₚ x :: s.
Proof.
  induction s as [|y s IH]; simpl; [reflexivity|].
  destruct (gtb y x); [|reflexivity].
  rewrite IH. apply Permutation_swap.
Qed.

Lemma sorted_desc_perm l : sorted_desc gtb l ≡ₚ l.
Proof.
  unfold sorted_desc. induction l as [|x l IH]; simpl; [reflexivity|].
  rewrite insert_desc_perm, IH. reflexivity.
Qed.

Lemma insert_desc_sorted x s :
  StronglySorted (not_greater gtb) s ->
  StronglySorted (not_greater gtb) (insert_desc gtb x s).
Proof using gtb_asym not_greater_trans.
  induction 1 as [|y s Hs IH Hy]; simpl.
  - repeat constructor.
  - destruct (gtb y x) eqn:E.
    + constructor; [exact IH|].
      apply Forall_forall. intros z Hz.
      apply insert_desc_elem in Hz as [->|Hz].
      * apply gtb_asym, E.
      * rewrite Forall_forall in Hy. apply Hy, Hz.
    + constructor; [constructor; assumption|].
      constructor; [exact E|].
      eapply Forall_impl; [exact Hy|]. intros z Hz.
      apply (not_greater_trans x y z); assumption.
Qed.

Lemma sorted_desc_sorted l :
  StronglySorted (not_greater gtb) (sorted_desc gtb l).
Proof using gtb_asym not_greater_trans.
  unfold sorted_desc. induction l as [|x l IH]; simpl; [constructor|].
  apply insert_desc_sorted, IH.
Qed.
End SortingFacts.

(** ** The tables of the tag analyzer, continued *)

Section TagExtras.
Context `{Json} `{Sklearn}.
Import TagAnalyzer.

Lemma final_tag_weights_lookup favs stats tag :
  final_tag_weights favs stats !! tag
  = (if Qlt_le_dec 0 (max_value_or 1.0 (feedback_adjusted_weights favs stats))
     then (fun v => v / max_value_or 1.0 (feedback_adjusted_weights favs stats))
     else (fun v => v))
      <$> feedback_adjusted_weights favs stats !! tag.
Proof.
  unfold final_tag_weights. cbv zeta.
  destruct (Qlt_le_dec 0 _); [apply scale_by_lookup|].
  destruct (_ !! tag); reflexivity.
Qed.

Lemma final_tag_weights_dom favs stats tag :
  is_Some (final_tag_weights favs stats !! tag) <-> tag ∈ all_tags favs.
Proof.
  rewrite final_tag_weights_lookup, fmap_is_Some.
  rewrite feedback_adjusted_weights_lookup, fmap_is_Some.
  apply normalized_base_weights_dom.
Qed.

Lemma feedback_adjusted_weights_nonneg favs stats tag v :
  feedback_adjusted_weights favs stats !! tag = Some v -> 0 <= v.
Proof.
  rewrite feedback_adjusted_weights_lookup.
  destruct (normalized_base_weights favs !! tag) as [b|] eqn:Eb; [|discriminate].
  intros [= <-].
  assert (all_tags favs <> []) as Hne.
  { assert (tag ∈ all_tags favs) as Hin
      by (apply normalized_base_weights_dom; rewrite Eb; eauto).
    intros E; rewrite E in Hin; inversion Hin. }
  pose proof (normalized_base_weights_pos _ _ _ Hne Eb).
  pose proof (multiplier_of_nonneg (Some stats) tag).
  apply Qmult_le_0_compat; lra.
Qed.

Lemma final_tag_weights_range favs stats tag w :
  final_tag_weights favs stats !! tag = Some w -> 0 <= w <= 1.
Proof.
  rewrite final_tag_weights_lookup.
  destruct (feedback_adjusted_weights favs stats !! tag) as [v|] eqn:Ev;
    [|discriminate].
  pose proof (feedback_adjusted_weights_nonneg _ _ _ _ Ev) as Hv.
  assert (feedback_adjusted_weights favs stats <> ∅) as Hne
    by (intros E; rewrite E, lookup_empty in Ev; discriminate).
  destruct (max_value_or_is_max 1.0 _ Hne) as [_ Hub].
  specialize (Hub tag v Ev).
  destruct (Qlt_le_dec 0 _) as [Hlt|Hle]; intros [= <-].
  - split.
    + apply Qle_shift_div_l; [exact Hlt | lra].
    + apply Qle_shift_div_r; [exact Hlt | lra].
  - lra.
Qed.

Lemma base_weights_for_sync_lookup favs tag :
  _get_base_weights_for_sync favs !! tag = normalized_base_weights favs !! tag.
Proof.
  unfold _get_base_weights_for_sync, normalized_base_weights.
  destruct favs as [|g favs]; [reflexivity|].
  cbv zeta.
  destruct (Qlt_le_dec 0 _) as [Hlt|Hle]; [reflexivity|].
  destruct (decide (all_tags (g :: favs) = [])) as [E|E].
  - apply raw_base_weights_empty in E. rewrite E.
    rewrite scale_by_lookup, lookup_empty. reflexivity.
  - apply raw_base_max_pos in E. lra.
Qed.

Lemma normalized_base_weights_le_1 favs tag w :
  normalized_base_weights favs !! tag = Some w -> w <= 1.
Proof.
  intros Hw.
  assert (all_tags favs <> []) as Hne.
  { assert (tag ∈ all_tags favs) as Hin
      by (apply normalized_base_weights_dom; rewrite Hw; eauto).
    intros E; rewrite E in Hin; inversion Hin. }
  destruct (normalized_base_weights_normalized favs Hne)
    as [_ (m & [_ Hub] & Hm)].
  specialize (Hub _ _ Hw). lra.
Qed.

Lemma tag_weights_lookup (self : TagAnalyzer.t) favs stats tag :
  (compute_tag_weights_from_favorites self favs stats).1 !! tag
  = final_tag_weights favs (default ∅ stats) !! tag.
Proof.
  destruct favs; [|reflexivity]. cbn.
  rewrite lookup_empty. symmetry. apply eq_None_not_Some.
  rewrite final_tag_weights_dom. cbn. inversion 1.
Qed.

(** X1: the keys of the tag-weight table that
    [compute_tag_weights_from_favorites] returns, and of the base
    table of [_get_base_weights_for_sync], are exactly the tags that
    occur in the favorites; every tag weight lies in [[0, 1]] and
    every base weight is positive and at most 1. *)
Theorem tag_tables_keys_and_range (self : TagAnalyzer.t) favs stats tag :
  let table := (compute_tag_weights_from_favorites self favs stats).1 in
  let base := _get_base_weights_for_sync favs in
  (is_Some (table !! tag) <-> tag ∈ all_tags favs) /\
  (is_Some (base !! tag) <-> tag ∈ all_tags favs) /\
  (forall w, table !! tag = Some w -> 0 <= w <= 1) /\
  (forall w, base !! tag = Some w -> 0 < w <= 1).
Proof.
  cbv zeta. rewrite tag_weights_lookup, base_weights_for_sync_lookup.
  split; [apply final_tag_weights_dom|].
  split; [apply normalized_base_weights_dom|].
  split; [intros w; apply final_tag_weights_range|].
  intros w Hw. split.
  - eapply normalized_base_weights_pos; [|exact Hw].
    assert (tag ∈ all_tags favs) as Hin
      by (apply normalized_base_weights_dom; rewrite Hw; eauto).
    intros E; rewrite E in Hin; inversion Hin.
  - eapply normalized_base_weights_le_1; exact Hw.
Qed.

Lemma multiplier_of_no_feedback stats tag :
  stats_of (default ∅ stats) tag = (0%nat, 0%nat) ->
  multiplier_of stats tag = 1.0.
Proof.
  unfold multiplier_of. intros ->. reflexivity.
Qed.

(** X2: when no tag has feedback (no statistics are given, or every
    count is 0), the tag weights of
    [compute_tag_weights_from_favorites] are the base weights of
    [_get_base_weights_for_sync], tag by tag. *)
Theorem tag_weights_without_feedback (self : TagAnalyzer.t) favs stats tag :
  (forall tag, stats_of (default ∅ stats) tag = (0%nat, 0%nat)) ->
  option_Forall2 Qeq
    ((compute_tag_weights_from_favorites self favs stats).1 !! tag)
    (_get_base_weights_for_sync favs !! tag).
Proof.
  intros Hstats.
  rewrite tag_weights_lookup.
  destruct (decide (all_tags favs = [])) as [E|Hne].
  - destruct (final_tag_weights favs (default ∅ stats) !! tag) eqn:E1.
    { exfalso. assert (tag ∈ all_tags favs) as Hin
        by (apply (proj1 (final_tag_weights_dom favs (default ∅ stats) tag));
            rewrite E1; eauto).
      rewrite E in Hin. inversion Hin. }
    destruct (_get_base_weights_for_sync favs !! tag) eqn:E2.
    { exfalso. rewrite base_weights_for_sync_lookup in E2.
      assert (tag ∈ all_tags favs) as Hin
        by (apply (proj1 (normalized_base_weights_dom favs tag));
            rewrite E2; eauto).
      rewrite E in Hin. inversion Hin. }
    constructor.
  - 
    rewrite base_weights_for_sync_lookup, final_tag_weights_lookup.
    set (adj := feedback_adjusted_weights favs (default ∅ stats)).
    assert (forall t v, adj !! t = Some v ->
              exists b, normalized_base_weights favs !! t = Some b /\ v == b)
      as Hadj.
    { intros t v. unfold adj. rewrite feedback_adjusted_weights_lookup.
      destruct (normalized_base_weights favs !! t) as [b|]; [|discriminate].
      intros [= <-]. exists b. split; [reflexivity|].
      rewrite (multiplier_of_no_feedback (Some (default ∅ stats)) t)
        by apply Hstats.
      lra. }
    assert (adj <> ∅) as Hadj_ne
      by (unfold adj; rewrite feedback_adjusted_weights_empty; exact Hne).
    assert (max_value_or 1.0 adj == 1) as Hmax.
    { destruct (max_value_or_is_max 1.0 adj Hadj_ne) as [[t0 Ht0] Hub].
      destruct (Hadj _ _ Ht0) as (b0 & Hb0 & Eb0).
      pose proof (normalized_base_weights_le_1 _ _ _ Hb0).
      destruct (normalized_base_weights_normalized favs Hne)
        as [_ (m & [[t1 Ht1] _] & Hm)].
      assert (adj !! t1 = Some (m * multiplier_of (Some (default ∅ stats)) t1))
        as Ht1'.
      { unfold adj. rewrite feedback_adjusted_weights_lookup, Ht1.
        reflexivity. }
      specialize (Hub _ _ Ht1').
      rewrite (multiplier_of_no_feedback (Some (default ∅ stats)) t1) in Hub
        by apply Hstats.
      lra. }
    destruct (adj !! tag) as [v|] eqn:Ev.
    + destruct (Hadj _ _ Ev) as (b & Hb & Eb). rewrite Hb.
      constructor.
      destruct (Qlt_le_dec 0 _) as [Hlt|Hle]; [|lra].
      rewrite Hmax. rewrite Eb. field.
    + assert (normalized_base_weights favs !! tag = None) as ->.
      { unfold adj in Ev. rewrite feedback_adjusted_weights_lookup in Ev.
        destruct (normalized_base_weights favs !! tag); [discriminate|].
        reflexivity. }
      constructor.
Qed.
End TagExtras.

(** ** Matched tags and similarity *)

Section ExplainFacts.
Context `{Json} `{Sklearn}.
Import TagAnalyzer.

Lemma StronglySorted_take_drop {A} (R : A -> A -> Prop) (l : list A) n x y :
  StronglySorted R l -> x ∈ take n l -> y ∈ drop n l -> R x y.
Proof.
  intros Hs. revert n. induction Hs as [|a l Hs IH Ha]; intros n Hx Hy.
  - rewrite take_nil in Hx. inversion Hx.
  - destruct n as [|n]; [inversion Hx|].
    cbn in Hx, Hy. apply elem_of_cons in Hx as [->|Hx].
    + rewrite Forall_forall in Ha. apply Ha.
      eapply (subseteq_drop n); exact Hy.
    + eapply IH; eauto.
Qed.

Lemma StronglySorted_take {A} (R : A -> A -> Prop) (l : list A) n :
  StronglySorted R l -> StronglySorted R (take n l).
Proof.
  intros Hs. revert n. induction Hs as [|a l Hs IH Ha]; intros [|n]; cbn;
    try constructor; auto.
  rewrite Forall_forall in *. intros x Hx. apply Ha.
  eapply (subseteq_take n); exact Hx.
Qed.

Lemma StronglySorted_weaken {A} (R S : A -> A -> Prop) (l : list A) :
  (forall a b, R a b -> S a b) -> StronglySorted R l -> StronglySorted S l.
Proof.
  intros HRS Hs. induction Hs as [|a l Hs IH Ha]; constructor; [exact IH|].
  eapply Forall_impl; [exact Ha|]. intros b. apply HRS.
Qed.

Lemma weighted_sorted (w : string -> Q) (l : list (string * Q)) :
  Forall (fun p => p.2 = w p.1) l ->
  StronglySorted (fun a b => Qltb a.2 b.2 = false) l ->
  StronglySorted (fun a b => w b <= w a) (l.*1).
Proof.
  intros Hw Hs. induction Hs as [|a l Hs IH Ha]; cbn; constructor.
  - apply IH. inversion Hw; assumption.
  - inversion Hw as [|? ? Hwa Hwl]; subst.
    rewrite Forall_fmap. rewrite Forall_forall in *.
    intros p Hp. cbn. specialize (Ha p Hp). specialize (Hwl p Hp).
    cbn in Hwl. rewrite <- Hwa, <- Hwl.
    unfold Qltb in Ha. destruct (Qlt_le_dec a.2 p.2); [discriminate|assumption].
Qed.

Lemma matched_tags_elem (self : TagAnalyzer.t) candidate_tags tag :
  tag ∈ matched_tags self candidate_tags
  <-> tag ∈ candidate_tags /\ is_Some (user_tag_weights self !! tag).
Proof.
  unfold matched_tags. rewrite list_elem_of_filter, elem_of_remove_dups. tauto.
Qed.

Lemma matched_tags_NoDup (self : TagAnalyzer.t) candidate_tags :
  NoDup (matched_tags self candidate_tags).
Proof. apply NoDup_filter, NoDup_remove_dups. Qed.

Lemma sorted_matches_perm (self : TagAnalyzer.t) l :
  (sorted_desc (fun a b : string * Q => Qltb b.2 a.2)
     ((fun tag => (tag, weight_of self tag)) <$> l)).*1 ≡ₚ l.
Proof.
  rewrite (sorted_desc_perm _ _).
  induction l as [|x l IH]; cbn; [reflexivity|]. f_equiv. exact IH.
Qed.

Lemma sorted_matches_sorted (l : list (string * Q)) :
  StronglySorted (fun a b => Qltb a.2 b.2 = false)
    (sorted_desc (fun a b : string * Q => Qltb b.2 a.2) l).
Proof.
  apply (sorted_desc_sorted (fun a b : string * Q => Qltb b.2 a.2)).
  - intros x y. unfold Qltb.
    destruct (Qlt_le_dec y.2 x.2), (Qlt_le_dec x.2 y.2); auto; lra.
  - intros x y z. unfold not_greater, Qltb.
    destruct (Qlt_le_dec x.2 y.2), (Qlt_le_dec y.2 z.2), (Qlt_le_dec x.2 z.2);
      auto; try discriminate. lra.
Qed.

(** X3: [explain_similarity] lists at most [top_n] tags, none twice;
    each is a tag of the candidate with a weight in the profile; they
    come in order of non-increasing weight; and a matched tag is left
    out only when the list is full, and then it weighs no more than
    any listed tag. *)
Theorem explain_similarity_top (self : TagAnalyzer.t) candidate_tags top_n :
  let listed := explain_similarity self candidate_tags top_n in
  (length listed <= top_n)%nat /\
  NoDup listed /\
  (forall tag, tag ∈ listed ->
     tag ∈ candidate_tags /\ is_Some (user_tag_weights self !! tag)) /\
  StronglySorted (fun a b => weight_of self b <= weight_of self a) listed /\
  (forall tag other,
     tag ∈ listed -> other ∈ candidate_tags ->
     is_Some (user_tag_weights self !! other) -> other ∉ listed ->
     length listed = top_n /\ weight_of self other <= weight_of self tag).
Proof.
  cbv zeta. unfold explain_similarity. cbv zeta.
  set (pairs := (fun tag => (tag, weight_of self tag))
                  <$> matched_tags self candidate_tags).
  set (sorted := sorted_desc (fun a b : string * Q => Qltb b.2 a.2) pairs).
  assert (sorted.*1 ≡ₚ matched_tags self candidate_tags) as Hperm
    by apply sorted_matches_perm.
  assert (StronglySorted (fun a b => Qltb a.2 b.2 = false) sorted) as Hsorted
    by apply sorted_matches_sorted.
  assert (Forall (fun p => p.2 = weight_of self p.1) sorted) as Hw.
  { rewrite Forall_forall. intros p Hp.
    assert (p ∈ pairs) as Hp'.
    { unfold sorted in Hp. rewrite (sorted_desc_perm _ _) in Hp. exact Hp. }
    unfold pairs in Hp'. apply list_elem_of_fmap in Hp' as (t & -> & _).
    reflexivity. }
  assert (NoDup (sorted.*1)) as Hnd
    by (rewrite Hperm; apply matched_tags_NoDup).
  split; [|split; [|split; [|split]]].
  - rewrite length_fmap, length_take. lia.
  - rewrite fmap_take. eapply sublist_NoDup; [|apply sublist_take]; exact Hnd.
  - intros tag Hin. apply matched_tags_elem. rewrite <- Hperm.
    rewrite fmap_take in Hin. eapply (subseteq_take top_n); exact Hin.
  - apply weighted_sorted.
    + rewrite Forall_forall in *. intros p Hp. apply Hw.
      eapply (subseteq_take top_n); exact Hp.
    + apply StronglySorted_take. exact Hsorted.
  - intros tag other Hin Hcand Hprof Hout.
    assert (other ∈ sorted.*1) as Hother
      by (rewrite Hperm; apply matched_tags_elem; auto).
    rewrite <- (take_drop top_n sorted), fmap_app in Hother.
    apply elem_of_app in Hother as [Hother|Hother]; [contradiction|].
    apply list_elem_of_fmap in Hother as (q & -> & Hq).
    apply list_elem_of_fmap in Hin as (p & -> & Hp).
    split.
    + rewrite length_fmap, length_take.
      destruct (decide (top_n <= length sorted)%nat) as [|Hlt]; [lia|].
      rewrite drop_ge in Hq by lia. inversion Hq.
    + pose proof (StronglySorted_take_drop _ _ _ _ _ Hsorted Hp Hq) as Hpq.
      rewrite Forall_forall in Hw.
      rewrite <- (Hw p), <- (Hw q).
      * cbn in Hpq. unfold Qltb in Hpq.
        destruct (Qlt_le_dec p.2 q.2); [discriminate|assumption].
      * rewrite <- (take_drop top_n sorted). apply elem_of_app. auto.
      * rewrite <- (take_drop top_n sorted). apply elem_of_app. auto.
Qed.
End ExplainFacts.

Section SimilarityFacts.
Context `{Json} `{Sklearn}.
Import TagAnalyzer.

Lemma foldl_Qplus_nonneg (a : Q) (xs : list Q) :
  0 <= a -> Forall (fun x => 0 <= x) xs -> 0 <= foldl Qplus a xs.
Proof.
  intros Ha Hxs. revert a Ha. induction Hxs as [|x xs Hx Hxs IH]; intros a Ha.
  - exact Ha.
  - cbn. apply IH. lra.
Qed.

Lemma sum_Q_nonneg (xs : list Q) :
  Forall (fun x => 0 <= x) xs -> 0 <= sum_Q xs.
Proof. apply foldl_Qplus_nonneg. lra. Qed.

Lemma jaccard_score_range (self : TagAnalyzer.t) candidate_tags :
  (forall tag w, user_tag_weights self !! tag = Some w -> 0 <= w) ->
  0 < sum_Q (dict_values (user_tag_weights self)) ->
  0 <= jaccard_score self candidate_tags <= 1.
Proof.
  intros Hw Htot. unfold jaccard_score. cbv zeta.
  set (wi := sum_Q _).
  assert (0 <= wi) as Hwi.
  { apply sum_Q_nonneg. rewrite Forall_fmap, Forall_forall.
    intros tag _. cbn. unfold weight_of.
    destruct (user_tag_weights self !! tag) eqn:E; cbn; [eauto|lra]. }
  fold wi.
  split.
  - apply Q.min_glb; [lra|]. apply Qle_shift_div_l; [exact Htot|lra].
  - pose proof (Q.le_min_l 1.0 (wi / sum_Q (dict_values (user_tag_weights self)))).
    lra.
Qed.

(** X4: on a profile without negative weights,
    [compute_tag_similarity] lies in [[0, 1]] whenever the cosine
    that scikit-learn returns does (or no cosine is available), and
    it is 0 for a candidate that shares no tag with the profile. *)
Theorem tag_similarity_range (self : TagAnalyzer.t) candidate_tags :
  (forall tag w, user_tag_weights self !! tag = Some w -> 0 <= w) ->
  (forall vec uv c,
     vectorizer self = Some vec -> user_vector self = Some uv ->
     transform_cosine vec uv (join_tags candidate_tags) = Some c ->
     (0 <= c <= 1)%R) ->
  (0 <= compute_tag_similarity self candidate_tags <= 1)%R /\
  ((forall tag, tag ∈ candidate_tags -> user_tag_weights self !! tag = None) ->
   compute_tag_similarity self candidate_tags = 0%R).
Proof.
  intros Hw Hcos. split.
  - unfold compute_tag_similarity.
    destruct (bool_decide _); [lra|].
    destruct candidate_tags as [|t ts]; [lra|].
    destruct (matched_tags self (t :: ts)); [lra|].
    destruct (Qlt_le_dec 0 _) as [Hlt|_]; [|lra].
    cbv zeta.
    pose proof (jaccard_score_range self (t :: ts) Hw Hlt) as [Hj0 Hj1].
    apply Qle_Rle in Hj0, Hj1.
    replace (Q2R 0) with 0%R in Hj0 by (unfold Q2R; cbn; lra).
    replace (Q2R 1) with 1%R in Hj1 by (unfold Q2R; cbn; lra).
    destruct (vectorizer self) as [vec|] eqn:Ev; [|lra].
    destruct (user_vector self) as [uv|] eqn:Eu; [|lra].
    destruct (transform_cosine vec uv _) as [c|] eqn:Ec; [|lra].
    specialize (Hcos vec uv c eq_refl eq_refl Ec).
    replace (0.6)%R with (6 / 10)%R by (unfold Q2R; cbn; lra).
    replace (0.4)%R with (4 / 10)%R by (unfold Q2R; cbn; lra).
    lra.
  - intros Hnone. unfold compute_tag_similarity.
    destruct (bool_decide _); [reflexivity|].
    destruct candidate_tags as [|t ts]; [reflexivity|].
    destruct (matched_tags self (t :: ts)) as [|m ms] eqn:Em; [reflexivity|].
    exfalso.
    assert (m ∈ matched_tags self (t :: ts)) as Hm
      by (rewrite Em; apply list_elem_of_here).
    apply matched_tags_elem in Hm as [Hin [w Hw']].
    rewrite (Hnone m Hin) in Hw'. discriminate.
Qed.
End SimilarityFacts.

(** ** Tag preferences *)

Section PreferenceFacts.
Import Database.

Lemma sync_tag_lookup now db tag base_weight tag' :
  user_preferences (sync_tag now db (tag, base_weight)) !! tag'
  = if decide (tag' = tag)
    then Some (synced_row now base_weight (user_preferences db !! tag))
    else user_preferences db !! tag'.
Proof.
  unfold sync_tag, synced_row.
  destruct (user_preferences db !! tag) as [row|] eqn:E.
  - destruct (_ || _)%bool.
    + destruct (decide (tag' = tag)) as [->|]; [exact E|reflexivity].
    + cbn. destruct (decide (tag' = tag)) as [->|Hne].
      * rewrite lookup_insert_eq. reflexivity.
      * rewrite lookup_insert_ne by congruence. reflexivity.
  - cbn. destruct (decide (tag' = tag)) as [->|Hne].
    + rewrite lookup_insert_eq. reflexivity.
    + rewrite lookup_insert_ne by congruence. reflexivity.
Qed.

Lemma foldl_sync_tag_lookup now (l : list (string * Q)) db tag :
  NoDup (l.*1) ->
  user_preferences (foldl (sync_tag now) db l) !! tag
  = match list_to_map (M := gmap string Q) l !! tag with
    | Some base_weight =>
        Some (synced_row now base_weight (user_preferences db !! tag))
    | None => user_preferences db !! tag
    end.
Proof.
  revert db. induction l as [|[t w] l IH]; intros db Hnd.
  - cbn. rewrite lookup_empty. reflexivity.
  - cbn [foldl]. apply NoDup_cons in Hnd as [Hnotin Hnd].
    rewrite IH by exact Hnd. cbn [list_to_map foldr uncurry].
    rewrite sync_tag_lookup.
    destruct (decide (tag = t)) as [->|Hne].
    + rewrite lookup_insert_eq.
      rewrite (not_elem_of_list_to_map_1 l t) by exact Hnotin. reflexivity.
    + rewrite lookup_insert_ne by (cbn; congruence). reflexivity.
Qed.

Lemma sync_tag_preferences_lookup db tag_weights now tag :
  user_preferences (sync_tag_preferences db tag_weights now) !! tag
  = match tag_weights !! tag with
    | Some base_weight =>
        Some (synced_row now base_weight (user_preferences db !! tag))
    | None => user_preferences db !! tag
    end.
Proof.
  unfold sync_tag_preferences.
  rewrite foldl_sync_tag_lookup by apply NoDup_fst_map_to_list.
  rewrite list_to_map_to_list. reflexivity.
Qed.

Lemma sync_tag_frame now db entry :
  sync_tag now db entry
  = with_preferences db (user_preferences (sync_tag now db entry)).
Proof.
  destruct db. unfold sync_tag. destruct entry as [tag w]. cbn.
  destruct (_ !! tag) as [row|]; [|reflexivity].
  destruct (_ || _)%bool; reflexivity.
Qed.

Lemma sync_tag_preferences_frame db tag_weights now :
  sync_tag_preferences db tag_weights now
  = with_preferences db
      (user_preferences (sync_tag_preferences db tag_weights now)).
Proof.
  unfold sync_tag_preferences. generalize (map_to_list tag_weights).
  intros l. revert db. induction l as [|e l IH]; intros db.
  - destruct db; reflexivity.
  - cbn [foldl]. rewrite IH. rewrite (sync_tag_frame now db e) at 1.
    destruct db; reflexivity.
Qed.

Lemma database_eq (a b : Database.t) :
  favorites a = favorites b -> feedback a = feedback b ->
  recommendation_history a = recommendation_history b ->
  user_preferences a = user_preferences b -> a = b.
Proof. destruct a, b. cbn. congruence. Qed.

(** X5: [sync_tag_preferences] leaves the row of a tag with feedback,
    and of a tag outside the table it is given, as it was; a tag of
    the table without feedback gets the base weight with counts 0; a
    tag known to neither stays unknown; the feedback counts of every
    tag, and the other three tables, are unchanged. *)
Theorem sync_tag_preferences_rows db tag_weights now tag :
  let db' := sync_tag_preferences db tag_weights now in
  (forall row,
     get_tag_preference db tag = Some row ->
     ((0 < positive_count row)%nat \/ (0 < negative_count row)%nat
      \/ tag_weights !! tag = None) ->
     get_tag_preference db' tag = Some row) /\
  (forall base_weight,
     tag_weights !! tag = Some base_weight ->
     (forall row, get_tag_preference db tag = Some row ->
                  positive_count row = 0%nat /\ negative_count row = 0%nat) ->
     get_tag_preference db' tag
     = Some {| weight := base_weight; positive_count := 0;
               negative_count := 0; updated_time := now |}) /\
  (tag_weights !! tag = None -> get_tag_preference db tag = None ->
   get_tag_preference db' tag = None) /\
  TagAnalyzer.stats_of (get_all_tag_feedback_stats db') tag
  = TagAnalyzer.stats_of (get_all_tag_feedback_stats db) tag /\
  favorites db' = favorites db /\ feedback db' = feedback db /\
  recommendation_history db' = recommendation_history db.
Proof.
  cbv zeta.
  unfold get_tag_preference, get_all_tag_feedback_stats, TagAnalyzer.stats_of.
  rewrite lookup_fmap, sync_tag_preferences_lookup.
  split; [|split; [|split; [|split]]].
  - intros row Hrow Hcase. rewrite Hrow.
    destruct (tag_weights !! tag) as [w|] eqn:Ew; [|reflexivity].
    unfold synced_row. destruct Hcase as [Hp|[Hn|Hnone]]; [| |discriminate].
    + apply Nat.ltb_lt in Hp. rewrite Hp. reflexivity.
    + apply Nat.ltb_lt in Hn. rewrite Hn, orb_true_r. reflexivity.
  - intros w Ew Hzero. rewrite Ew.
    destruct (user_preferences db !! tag) as [row|]; [|reflexivity].
    destruct (Hzero row eq_refl) as [Hp Hn]. unfold synced_row.
    rewrite Hp, Hn. reflexivity.
  - intros -> ->. reflexivity.
  - rewrite lookup_fmap.
    destruct (tag_weights !! tag) as [w|] eqn:Ew; [|reflexivity].
    destruct (user_preferences db !! tag) as [row|] eqn:Er; [|reflexivity].
    unfold synced_row. destruct (_ || _)%bool; reflexivity.
  - apply sync_tag_preferences_static.
Qed.

(** X6: [sync_tag_preferences] is idempotent: a second run with the
    same weights (at the same clock reading) changes nothing. *)
Theorem sync_tag_preferences_idempotent db tag_weights now :
  sync_tag_preferences (sync_tag_preferences db tag_weights now)
    tag_weights now
  = sync_tag_preferences db tag_weights now.
Proof.
  apply database_eq;
    try (rewrite !(proj1 (sync_tag_preferences_static _ _ _))
         || rewrite !(proj1 (proj2 (sync_tag_preferences_static _ _ _)))
         || rewrite !(proj2 (proj2 (sync_tag_preferences_static _ _ _))));
    try reflexivity.
  apply map_eq. intros tag.
  rewrite (sync_tag_preferences_lookup (sync_tag_preferences _ _ _)).
  rewrite sync_tag_preferences_lookup.
  destruct (tag_weights !! tag) as [w|]; [|reflexivity].
  f_equal. unfold synced_row.
  destruct (user_preferences db !! tag) as [row|]; [|reflexivity].
  destruct ((0 <? positive_count row)%nat || (0 <? negative_count row)%nat)%bool
    eqn:E; [rewrite E; reflexivity|].
  cbn [positive_count negative_count]. rewrite E. reflexivity.
Qed.
End PreferenceFacts.

(** ** The feedback learner *)

Section LearnerFacts.
Context `{Json}.
Import Database.

Lemma update_tag_weight_lookup now db tag is_positive tag' :
  user_preferences (FeedbackLearner._update_tag_weight now db tag is_positive)
    !! tag'
  = if decide (tag' = tag)
    then learned_row now is_positive 1 (user_preferences db !! tag)
    else user_preferences db !! tag'.
Proof.
  unfold FeedbackLearner._update_tag_weight, get_tag_preference, learned_row.
  destruct (user_preferences db !! tag) as [row|] eqn:E;
    destruct is_positive; cbn;
    (destruct (decide (tag' = tag)) as [->|Hne];
     [rewrite lookup_insert_eq; f_equal; f_equal; lia
     |rewrite lookup_insert_ne by congruence; reflexivity]).
Qed.

Lemma update_tag_weight_static now db tag is_positive :
  favorites (FeedbackLearner._update_tag_weight now db tag is_positive)
  = favorites db /\
  feedback (FeedbackLearner._update_tag_weight now db tag is_positive)
  = feedback db /\
  recommendation_history
    (FeedbackLearner._update_tag_weight now db tag is_positive)
  = recommendation_history db.
Proof.
  unfold FeedbackLearner._update_tag_weight.
  destruct (get_tag_preference db tag); destruct is_positive; cbn; auto.
Qed.

Lemma learned_row_step now b k old :
  learned_row now b k (learned_row now b 1 old) = learned_row now b (S k) old.
Proof.
  unfold learned_row. destruct k as [|k].
  - reflexivity.
  - destruct old as [row|]; destruct b; cbn; f_equal; f_equal; lia.
Qed.

Lemma foldl_update_tag_weight_lookup now b tags db tag :
  user_preferences
    (foldl (fun db tag => FeedbackLearner._update_tag_weight now db tag b)
       db tags) !! tag
  = learned_row now b (occurrences tag tags) (user_preferences db !! tag).
Proof.
  revert db. induction tags as [|t tags IH]; intros db.
  - reflexivity.
  - cbn [foldl]. rewrite IH, occurrences_cons, update_tag_weight_lookup.
    destruct (decide (tag = t)) as [->|Hne].
    + rewrite decide_True by reflexivity. apply learned_row_step.
    + rewrite decide_False by congruence. reflexivity.
Qed.

Lemma foldl_update_tag_weight_static now b tags db :
  let db' :=
    foldl (fun db tag => FeedbackLearner._update_tag_weight now db tag b)
      db tags in
  favorites db' = favorites db /\ feedback db' = feedback db /\
  recommendation_history db' = recommendation_history db.
Proof.
  revert db. induction tags as [|t tags IH]; intros db; cbn; [auto|].
  destruct (IH (FeedbackLearner._update_tag_weight now db t b))
    as (-> & -> & ->).
  apply update_tag_weight_static.
Qed.

(** X7: [learn_from_feedback] adds, for every tag, its number of
    occurrences among the gallery's tags to the positive count when
    [rating > 0] and to the negative count otherwise (a rating of 0
    counts as negative); the stored weight of a tag of the gallery is
    kept, or set to 1.0 for a tag that had no row; the rows of other
    tags and the other three tables are unchanged. *)
Theorem learn_from_feedback_counts db gid rating gallery_info now tag :
  let db' := FeedbackLearner.learn_from_feedback db gid rating gallery_info now in
  let k := occurrences tag (gallery_tags gallery_info) in
  let before := TagAnalyzer.stats_of (get_all_tag_feedback_stats db) tag in
  TagAnalyzer.stats_of (get_all_tag_feedback_stats db') tag
  = (if (0 <? rating)%Z then ((before.1 + k)%nat, before.2)
     else (before.1, (before.2 + k)%nat)) /\
  get_all_tag_preferences db' !! tag
  = (if decide (tag ∈ gallery_tags gallery_info)
     then Some (default 1.0 (get_all_tag_preferences db !! tag))
     else get_all_tag_preferences db !! tag) /\
  (tag ∉ gallery_tags gallery_info ->
   get_tag_preference db' tag = get_tag_preference db tag) /\
  favorites db' = favorites db /\ feedback db' = feedback db /\
  recommendation_history db' = recommendation_history db.
Proof.
  cbv zeta.
  unfold FeedbackLearner.learn_from_feedback, get_all_tag_feedback_stats,
    get_all_tag_preferences, get_tag_preference, TagAnalyzer.stats_of.
  rewrite !lookup_fmap, foldl_update_tag_weight_lookup.
  pose proof (occurrences_pos tag (gallery_tags gallery_info)) as Hocc.
  destruct (occurrences tag (gallery_tags gallery_info)) as [|k] eqn:Ek.
  - assert (tag ∉ gallery_tags gallery_info) as Hnotin
      by (intros Hin; apply Hocc in Hin; lia).
    rewrite decide_False by exact Hnotin.
    cbn [learned_row].
    split; [|split; [reflexivity|split; [reflexivity|]]].
    + destruct (user_preferences db !! tag); cbn;
        destruct (0 <? rating)%Z; f_equal; lia.
    + apply foldl_update_tag_weight_static.
  - assert (tag ∈ gallery_tags gallery_info) as Hin by (apply Hocc; lia).
    rewrite decide_True by exact Hin.
    split; [|split; [|split; [contradiction|]]].
    + destruct (user_preferences db !! tag); destruct (0 <? rating)%Z;
        reflexivity.
    + destruct (user_preferences db !! tag); destruct (0 <? rating)%Z;
        reflexivity.
    + apply foldl_update_tag_weight_static.
Qed.

End LearnerFacts.

(** ** The engine, continued *)

Section EngineExtras.
Context `{Json} `{IsoFormat} `{Sklearn} `{EhdbDatabase.Store}.
Import Engine.

#[local] Arguments TagAnalyzer._get_base_weights_for_sync : simpl never.
#[local] Arguments TagAnalyzer.build_user_profile : simpl never.
#[local] Arguments UploaderAnalyzer.build_uploader_profile : simpl never.
#[local] Arguments ContentScorer.build_quality_profile : simpl never.
#[local] Arguments Database.sync_tag_preferences : simpl never.
#[local] Arguments Database.get_all_tag_feedback_stats : simpl never.
#[local] Arguments Database.get_all_favorites : simpl never.
#[local] Arguments EhdbDatabase.get_galleries_by_ids : simpl never.
#[local] Arguments FeedbackLearner.learn_from_feedback : simpl never.
#[local] Arguments score_gallery : simpl never.

Ltac step :=
  cbv [mbind M_bind mret M_ret Engine.bind Engine.ret Engine.log
       Engine.modify Engine.get Engine.query];
  cbv beta iota.

Lemma sync_tag_preferences_empty db now :
  Database.sync_tag_preferences db ∅ now = db.
Proof.
  unfold Database.sync_tag_preferences. rewrite map_to_list_empty. reflexivity.
Qed.

Lemma initialize_database now self :
  exists weights,
    database (initialize now self).2
    = Database.sync_tag_preferences (database self) weights now.
Proof.
  unfold initialize. step. cbn [logger with_logger database config].
  destruct ((Database.get_all_favorites (database self)).*1) as [|g0 gs].
  { exists ∅. rewrite sync_tag_preferences_empty. reflexivity. }
  destruct (EhdbDatabase.get_galleries_by_ids (g0 :: gs)) as [[|f fs]|e].
  - exists ∅. rewrite sync_tag_preferences_empty. reflexivity.
  - eexists. cbn. reflexivity.
  - exists ∅. rewrite sync_tag_preferences_empty. reflexivity.
Qed.

Lemma stats_of_synced db weights now tag :
  TagAnalyzer.stats_of
    (Database.get_all_tag_feedback_stats
       (Database.sync_tag_preferences db weights now)) tag
  = TagAnalyzer.stats_of (Database.get_all_tag_feedback_stats db) tag.
Proof.
  unfold Database.get_all_tag_feedback_stats, TagAnalyzer.stats_of.
  rewrite !lookup_fmap, sync_tag_preferences_lookup.
  destruct (weights !! tag) as [w|]; [|reflexivity].
  destruct (Database.user_preferences db !! tag) as [row|]; [|reflexivity].
  unfold synced_row. destruct (_ || _)%bool; reflexivity.
Qed.

Lemma row_with_feedback_synced db weights now tag row :
  Database.get_tag_preference db tag = Some row ->
  (0 < Database.positive_count row)%nat \/ (0 < Database.negative_count row)%nat ->
  Database.get_tag_preference (Database.sync_tag_preferences db weights now) tag
  = Some row.
Proof.
  unfold Database.get_tag_preference. intros Hrow Hfb.
  rewrite sync_tag_preferences_lookup, Hrow.
  destruct (weights !! tag) as [w|]; [|reflexivity].
  unfold synced_row.
  destruct Hfb as [Hp|Hn].
  - apply Nat.ltb_lt in Hp. rewrite Hp. reflexivity.
  - apply Nat.ltb_lt in Hn. rewrite Hn, orb_true_r. reflexivity.
Qed.

(** X8: [initialize] never changes a feedback count, leaves the row
    of a tag with feedback as it was, and leaves the favorites, the
    feedback and the recommendation history unchanged, whether it
    returns or raises. *)
Theorem initialize_keeps_feedback now self tag :
  let self' := (initialize now self).2 in
  TagAnalyzer.stats_of
    (Database.get_all_tag_feedback_stats (database self')) tag
  = TagAnalyzer.stats_of
      (Database.get_all_tag_feedback_stats (database self)) tag /\
  (forall row,
     Database.get_tag_preference (database self) tag = Some row ->
     (0 < Database.positive_count row)%nat
     \/ (0 < Database.negative_count row)%nat ->
     Database.get_tag_preference (database self') tag = Some row) /\
  Database.favorites (database self') = Database.favorites (database self) /\
  Database.feedback (database self') = Database.feedback (database self) /\
  Database.recommendation_history (database self')
  = Database.recommendation_history (database self).
Proof.
  cbv zeta. destruct (initialize_database now self) as [weights ->].
  split; [apply stats_of_synced|].
  split; [intros row; apply row_with_feedback_synced|].
  apply sync_tag_preferences_static.
Qed.

Lemma handle_feedback_resolved gid rating source now self g :
  EhdbDatabase.get_gallery gid = Returned (Some g) ->
  handle_feedback gid rating source now self
  = match
      initialize now
        (with_database self
           (FeedbackLearner.learn_from_feedback
              (Database.add_feedback (database self) gid rating source now)
              gid rating g now))
    with
    | (Returned _, s2) =>
        (Returned tt,
         with_logger s2
           (logger s2 ++ [(INFO, "Feedback handling completed"%string)]))
    | (Raised e, s2) => (Raised e, s2)
    end.
Proof.
  intros Hg. unfold handle_feedback. step. rewrite Hg.
  cbn [database with_database].
  destruct (initialize now _) as [[[]|e] s2]; reflexivity.
Qed.

Lemma handle_feedback_store_error gid rating source now self e :
  EhdbDatabase.get_gallery gid = Raised e ->
  handle_feedback gid rating source now self
  = (Raised e,
     with_database self
       (Database.add_feedback (database self) gid rating source now)).
Proof.
  intros Hg. unfold handle_feedback. step. rewrite Hg. reflexivity.
Qed.

Lemma handle_feedback_database gid rating source now self :
  exists weights tags,
    database (handle_feedback gid rating source now self).2
    = Database.sync_tag_preferences
        (foldl (fun db tag =>
                  FeedbackLearner._update_tag_weight now db tag (0 <? rating)%Z)
           (Database.add_feedback (database self) gid rating source now)
           tags)
        weights now /\
    (forall g, EhdbDatabase.get_gallery gid = Returned (Some g) ->
               tags = gallery_tags g).
Proof.
  destruct (EhdbDatabase.get_gallery gid) as [[g|]|e] eqn:Hg.
  - rewrite (handle_feedback_resolved _ _ _ _ _ g Hg).
    match goal with
    | |- context [initialize now ?s] =>
        destruct (initialize_database now s) as [weights Hdb];
        destruct (initialize now s) as [[[]|e] s2]
    end; cbn [fst snd database with_logger with_database] in *;
      exists weights, (gallery_tags g); (split; [exact Hdb|]);
      intros g' [= <-]; reflexivity.
  - rewrite (handle_feedback_unresolved _ _ _ _ _ Hg).
    exists ∅, []. cbn [snd database with_logger with_database foldl].
    rewrite sync_tag_preferences_empty. split; [reflexivity|]. discriminate.
  - rewrite (handle_feedback_store_error _ _ _ _ _ e Hg).
    exists ∅, []. cbn [snd database with_logger with_database foldl].
    rewrite sync_tag_preferences_empty. split; [reflexivity|]. discriminate.
Qed.

(** X9: whatever the content store answers, after [handle_feedback]
    the feedback table holds the rating for the gallery, the ratings
    of other galleries are as before, and the favorites and the
    recommendation history are unchanged. *)
Theorem handle_feedback_records_rating gid rating source now self :
  let self' := (handle_feedback gid rating source now self).2 in
  Database.get_feedback (database self') gid = Some rating /\
  (forall other, other <> gid ->
     Database.get_feedback (database self') other
     = Database.get_feedback (database self) other) /\
  Database.favorites (database self') = Database.favorites (database self) /\
  Database.recommendation_history (database self')
  = Database.recommendation_history (database self).
Proof.
  cbv zeta.
  destruct (handle_feedback_database gid rating source now self)
    as (weights & tags & -> & _).
  unfold Database.get_feedback.
  destruct (sync_tag_preferences_static
              (foldl (fun db tag =>
                        FeedbackLearner._update_tag_weight now db tag
                          (0 <? rating)%Z)
                 (Database.add_feedback (database self) gid rating source now)
                 tags) weights now) as (-> & -> & ->).
  destruct (foldl_update_tag_weight_static now (0 <? rating)%Z tags
              (Database.add_feedback (database self) gid rating source now))
    as (-> & -> & ->).
  cbn [Database.add_feedback Database.with_feedback Database.feedback
       Database.favorites Database.recommendation_history].
  split; [rewrite lookup_insert_eq; reflexivity|].
  split; [|auto].
  intros other Hne. rewrite lookup_insert_ne by congruence. reflexivity.
Qed.

(** X10: when the content store resolves the gallery,
    [handle_feedback] adds the occurrences of every tag of the
    gallery to its positive or negative count, whether or not the
    rebuild that follows raises, and the rebuild is started. *)
Theorem handle_feedback_counts_tags gid rating source now self g tag :
  EhdbDatabase.get_gallery gid = Returned (Some g) ->
  let self' := (handle_feedback gid rating source now self).2 in
  let k := occurrences tag (gallery_tags g) in
  let before :=
    TagAnalyzer.stats_of
      (Database.get_all_tag_feedback_stats (database self)) tag in
  TagAnalyzer.stats_of
    (Database.get_all_tag_feedback_stats (database self')) tag
  = (if (0 <? rating)%Z then ((before.1 + k)%nat, before.2)
     else (before.1, (before.2 + k)%nat)) /\
  initialization_logged self self'.
Proof.
  intros Hg. cbv zeta. split.
  - destruct (handle_feedback_database gid rating source now self)
      as (weights & tags & -> & Htags).
    rewrite (Htags g Hg). rewrite stats_of_synced.
    unfold Database.get_all_tag_feedback_stats, TagAnalyzer.stats_of.
    rewrite !lookup_fmap, foldl_update_tag_weight_lookup.
    cbn [Database.add_feedback Database.with_feedback
         Database.user_preferences].
    destruct (occurrences tag (gallery_tags g)) as [|k];
      destruct (Database.user_preferences (database self) !! tag);
      destruct (0 <? rating)%Z; cbn; f_equal; lia.
  - rewrite (handle_feedback_resolved _ _ _ _ _ g Hg).
    unfold initialization_logged.
    match goal with
    | |- context [initialize now ?s] =>
        destruct (initialize_logs_start now s) as [rest Hlog];
        destruct (initialize now s) as [[[]|e] s2]
    end; cbn [fst snd logger with_logger with_database] in *.
    + rewrite Hlog, <- app_assoc, drop_app_length. apply list_elem_of_here.
    + rewrite Hlog, drop_app_length. apply list_elem_of_here.
Qed.

(** X11: an exception of the content store on the candidate query, or
    on the look-up of the gallery, escapes [recommend_new_galleries],
    [recommend_from_pool], [recommend_similar] and [handle_feedback];
    the local database is then unchanged, except that
    [handle_feedback] has already stored the rating. *)
Theorem store_failure_propagates e now self :
  (forall since_timestamp limit,
     EhdbDatabase.get_new_galleries since_timestamp limit = Raised e ->
     let r := recommend_new_galleries since_timestamp limit now self in
     r.1 = Raised e /\ database r.2 = database self) /\
  (forall count min_rating,
     EhdbDatabase.get_random_galleries count min_rating = Raised e ->
     let r := recommend_from_pool count min_rating now self in
     r.1 = Raised e /\ database r.2 = database self) /\
  (forall gid limit,
     EhdbDatabase.get_gallery gid = Raised e ->
     let r := recommend_similar gid limit now self in
     r.1 = Raised e /\ database r.2 = database self) /\
  (forall gid rating source,
     EhdbDatabase.get_gallery gid = Raised e ->
     let r := handle_feedback gid rating source now self in
     r.1 = Raised e /\
     database r.2
     = Database.add_feedback (database self) gid rating source now).
Proof.
  split; [|split; [|split]].
  - intros since_timestamp limit Hq. unfold recommend_new_galleries. step.
    rewrite Hq. split; reflexivity.
  - intros count min_rating Hq. unfold recommend_from_pool. step.
    rewrite Hq. split; reflexivity.
  - intros gid limit Hq. unfold recommend_similar. step.
    rewrite Hq. split; reflexivity.
  - intros gid rating source Hq.
    rewrite (handle_feedback_store_error _ _ _ _ _ e Hq). split; reflexivity.
Qed.
End EngineExtras.

Section RankingFacts.
Context `{Json} `{IsoFormat} `{Sklearn} `{EhdbDatabase.Store}.
Import Engine.

#[local] Arguments score_gallery : simpl never.
#[local] Arguments compute_recommendation_score : simpl never.

Ltac step :=
  cbv [mbind M_bind mret M_ret Engine.bind Engine.ret Engine.log
       Engine.modify Engine.get Engine.query];
  cbv beta iota.









End RankingFacts.

(** ** The local database *)

Section HistoryFacts.
Import Database.

Lemma is_recommended_app db rows g expiry_days now :
  is_recommended (with_history db (recommendation_history db ++ rows))
    g expiry_days now
  = (is_recommended db g expiry_days now
     || is_recommended (with_history db rows) g expiry_days now)%bool.
Proof.
  unfold is_recommended. destruct expiry_days; cbn; apply existsb_app.
Qed.

(** X14: after [add_recommendation] the gallery counts as recommended
    when no expiry is configured, and with an expiry of [expiry_days]
    as long as less than that many days have passed; once they have
    passed the new row makes no difference; the answer for other
    galleries and the other three tables are unchanged. *)
Theorem add_recommendation_suppresses db g sc details flag now :
  let db' := add_recommendation db g sc details flag now in
  (forall now', is_recommended db' g None now' = true) /\
  (forall expiry_days now',
     (now' < now + expiry_days * day)%Z ->
     is_recommended db' g (Some expiry_days) now' = true) /\
  (forall expiry_days now',
     (now + expiry_days * day <= now')%Z ->
     is_recommended db' g (Some expiry_days) now'
     = is_recommended db g (Some expiry_days) now') /\
  (forall other expiry_days now',
     other <> g ->
     is_recommended db' other expiry_days now'
     = is_recommended db other expiry_days now') /\
  favorites db' = favorites db /\ feedback db' = feedback db /\
  user_preferences db' = user_preferences db.
Proof.
  cbv zeta. unfold add_recommendation.
  split; [|split; [|split; [|split]]].
  - intros now'. rewrite is_recommended_app. cbn.
    rewrite Z.eqb_refl. apply orb_true_r.
  - intros W now' Hin. rewrite is_recommended_app. cbn.
    rewrite Z.eqb_refl.
    assert ((now' - W * day <? now)%Z = true) as -> by (apply Z.ltb_lt; lia).
    apply orb_true_r.
  - intros W now' Hout. rewrite is_recommended_app. cbn.
    assert ((now' - W * day <? now)%Z = false) as -> by (apply Z.ltb_ge; lia).
    rewrite andb_false_r. apply orb_false_r.
  - intros other W now' Hne. rewrite is_recommended_app.
    assert ((g =? other)%Z = false) as E by (apply Z.eqb_neq; congruence).
    destruct W; cbn; rewrite E; cbn; apply orb_false_r.
  - auto.
Qed.

Lemma existsb_filter {A} (p q : A -> bool) (l : list A) :
  existsb p (List.filter q l) = existsb (fun x => q x && p x)%bool l.
Proof.
  induction l as [|x l IH]; cbn; [reflexivity|].
  destruct (q x); cbn; rewrite IH; reflexivity.
Qed.

Lemma existsb_ext_in {A} (p q : A -> bool) (l : list A) :
  (forall x, In x l -> p x = q x) -> existsb p l = existsb q l.
Proof.
  induction l as [|x l IH]; cbn; [reflexivity|]. intros Hpq.
  rewrite (Hpq x) by auto. rewrite IH by auto. reflexivity.
Qed.

Lemma existsb_fmap {A B} (f : A -> B) (p : B -> bool) (l : list A) :
  existsb p (f <$> l) = existsb (fun x => p (f x)) l.
Proof.
  induction l as [|x l IH]; cbn; [reflexivity|]. rewrite IH. reflexivity.
Qed.

(** X15: [clean_expired_recommendations] keeps exactly the rows not
    older than the window, returns the number of rows it deleted,
    and does not change the answer of [is_recommended] at the same
    or a later instant for a window that is not longer; the other
    three tables are unchanged. *)
Theorem clean_expired_recommendations_sound db expiry_days now :
  let r := clean_expired_recommendations db expiry_days now in
  (forall row,
     row ∈ recommendation_history r.2 <->
     row ∈ recommendation_history db /\
     (now - expiry_days * day <= recommended_time row)%Z) /\
  (r.1 + length (recommendation_history r.2)
   = length (recommendation_history db))%nat /\
  (forall g window now',
     (window <= expiry_days)%Z -> (now <= now')%Z ->
     is_recommended r.2 g (Some window) now'
     = is_recommended db g (Some window) now') /\
  favorites r.2 = favorites db /\ feedback r.2 = feedback db /\
  user_preferences r.2 = user_preferences db.
Proof.
  cbv zeta. unfold clean_expired_recommendations.
  cbn [fst snd with_history recommendation_history favorites feedback
       user_preferences].
  split; [|split; [|split]].
  - intros row. rewrite list_elem_of_In, filter_In, <- list_elem_of_In.
    rewrite negb_true_iff, Z.ltb_ge. reflexivity.
  - pose proof (filter_length_le
                  (fun row => negb (recommended_time row <? now - expiry_days * day)%Z)
                  (recommendation_history db)).
    lia.
  - intros g window now' Hw Hnow. unfold is_recommended.
    cbn [recommendation_history with_history].
    rewrite existsb_filter. apply existsb_ext_in. intros row _.
    destruct (rec_gid row =? g)%Z; cbn; [|apply andb_false_r].
    destruct (now' - window * day <? recommended_time row)%Z eqn:E;
      [|apply andb_false_r].
    rewrite andb_true_r. apply negb_true_iff, Z.ltb_ge.
    apply Z.ltb_lt in E. unfold day in *. nia.
  - auto.
Qed.

End HistoryFacts.

Section KeyedTableFacts.
Import Database.

(** X16: a favorite that was added is favorited and listed with the
    token given (the last one, when the gallery was already a
    favorite); one that was removed is not; neither changes whether
    another gallery is favorited; after [clear_favorites] no gallery
    is favorited. *)
Theorem favorites_round_trip db g tok added now :
  is_favorited (add_favorite db g tok added now) g = true /\
  (g, tok) ∈ get_all_favorites (add_favorite db g tok added now) /\
  is_favorited (remove_favorite db g) g = false /\
  (forall other, other <> g ->
     is_favorited (add_favorite db g tok added now) other
     = is_favorited db other /\
     is_favorited (remove_favorite db g) other = is_favorited db other) /\
  (forall other, is_favorited (clear_favorites db) other = false) /\
  get_all_favorites (clear_favorites db) = [] /\
  (forall tok', (g, tok') ∈ get_all_favorites (add_favorite db g tok added now)
                -> tok' = tok).
Proof.
  unfold is_favorited, add_favorite, remove_favorite, clear_favorites,
    get_all_favorites.
  cbn [favorites with_favorites].
  split; [|split; [|split; [|split; [|split; [|split]]]]].
  - apply bool_decide_eq_true. rewrite lookup_insert_eq. eauto.
  - apply list_elem_of_fmap.
    exists (g, {| fav_token := tok; added_time := added; last_sync := now |}).
    split; [reflexivity|]. apply elem_of_map_to_list, lookup_insert_eq.
  - apply bool_decide_eq_false. rewrite lookup_delete_eq.
    intros [? ?]; discriminate.
  - intros other Hne.
    rewrite lookup_insert_ne, lookup_delete_ne by congruence. auto.
  - intros other. apply bool_decide_eq_false. rewrite lookup_empty.
    intros [? ?]; discriminate.
  - rewrite map_to_list_empty. reflexivity.
  - intros tok' Hin. apply list_elem_of_fmap in Hin as ([k row] & Heq & Hin).
    cbn in Heq. injection Heq as <- ->.
    apply elem_of_map_to_list in Hin. rewrite lookup_insert_eq in Hin.
    injection Hin as <-. reflexivity.
Qed.

(** X17: feedback on a gallery replaces the earlier feedback on it:
    after two [add_feedback] the table is as after the second alone,
    [get_feedback] and [get_all_feedback] show the second rating
    only, other galleries are unaffected, and [get_stats] counts one
    more feedback row exactly when the gallery had none. *)
Theorem feedback_last_write_wins db g r1 s1 t1 r2 s2 t2 :
  let db' := add_feedback (add_feedback db g r1 s1 t1) g r2 s2 t2 in
  get_feedback db' g = Some r2 /\
  db' = add_feedback db g r2 s2 t2 /\
  (forall r, (g, r) ∈ get_all_feedback db' <-> r = r2) /\
  (forall other, other <> g -> get_feedback db' other = get_feedback db other) /\
  (get_feedback db g = None ->
   feedback_count (get_stats (add_feedback db g r1 s1 t1))
   = S (feedback_count (get_stats db))) /\
  (is_Some (get_feedback db g) ->
   feedback_count (get_stats (add_feedback db g r1 s1 t1))
   = feedback_count (get_stats db)).
Proof.
  cbv zeta. unfold get_feedback, add_feedback, get_all_feedback, get_stats.
  cbn [feedback with_feedback feedback_count favorites recommendation_history
       user_preferences].
  rewrite insert_insert_eq.
  split; [|split; [|split; [|split; [|split]]]].
  - rewrite lookup_insert_eq. reflexivity.
  - reflexivity.
  - intros r. rewrite list_elem_of_fmap. split.
    + intros ([k row] & Heq & Hin). cbn in Heq. injection Heq as <- ->.
      apply elem_of_map_to_list in Hin. rewrite lookup_insert_eq in Hin.
      injection Hin as <-. reflexivity.
    + intros ->.
      exists (g, {| fb_rating := r2; feedback_time := t2; fb_source := s2 |}).
      split; [reflexivity|]. apply elem_of_map_to_list, lookup_insert_eq.
  - intros other Hne. rewrite lookup_insert_ne by congruence. reflexivity.
  - intros Hnone. apply fmap_None in Hnone.
    rewrite map_size_insert_None by exact Hnone. reflexivity.
  - intros [r Hr]. apply fmap_Some in Hr as (row & Hrow & _).
    rewrite map_size_insert_Some by eauto. reflexivity.
Qed.

Lemma filter_length_split {A} (p q : A -> bool) (l : list A) :
  (forall x, In x l -> p x = true -> q x = false) ->
  (length (List.filter p l) + length (List.filter q l) <= length l)%nat.
Proof.
  induction l as [|x l IH]; cbn; [lia|]. intros Hpq.
  specialize (IH (fun y Hy => Hpq y (or_intror Hy))).
  destruct (p x) eqn:Ep.
  - rewrite (Hpq x (or_introl eq_refl) Ep). cbn. lia.
  - destruct (q x); cbn; lia.
Qed.

(** X18: in [get_stats] the positive and negative counts add up to at
    most the feedback count, and to exactly the feedback count when
    every rating is 1 or -1; the favorites and feedback counts are the
    lengths of [get_all_favorites] and [get_all_feedback]; and the
    favorites count is 0 exactly when no gallery is favorited. *)
Theorem get_stats_counts db :
  let stats := get_stats db in
  (positive_feedback stats + negative_feedback stats
   <= feedback_count stats)%nat /\
  ((forall g r, get_feedback db g = Some r -> r = 1%Z \/ r = (-1)%Z) ->
   (positive_feedback stats + negative_feedback stats)%nat
   = feedback_count stats) /\
  favorites_count stats = length (get_all_favorites db) /\
  feedback_count stats = length (get_all_feedback db) /\
  (favorites_count stats = 0%nat <-> forall g, is_favorited db g = false).
Proof.
  cbv zeta. unfold get_stats, count_rating, get_all_favorites,
    get_all_feedback, is_favorited, get_feedback.
  cbn [positive_feedback negative_feedback feedback_count favorites_count].
  rewrite !length_fmap, !length_map_to_list.
  split; [|split; [|split; [|split]]]; try reflexivity.
  - rewrite <- (length_map_to_list (feedback db)).
    apply filter_length_split. intros [g row] _. cbn.
    intros E%Z.eqb_eq. apply Z.eqb_neq. lia.
  - intros Hall. rewrite <- (length_map_to_list (feedback db)).
    assert (forall kv, In kv (map_to_list (feedback db)) ->
              fb_rating kv.2 = 1%Z \/ fb_rating kv.2 = (-1)%Z) as Hin.
    { intros [g row] Hin. apply list_elem_of_In, elem_of_map_to_list in Hin.
      apply (Hall g). rewrite Hin. reflexivity. }
    induction (map_to_list (feedback db)) as [|kv l IH]; cbn; [reflexivity|].
    specialize (IH (fun y Hy => Hin y (or_intror Hy))).
    destruct (Hin kv (or_introl eq_refl)) as [-> | ->]; cbn; lia.
  - rewrite map_size_empty_iff. split.
    + intros -> g. apply bool_decide_eq_false. rewrite lookup_empty.
      intros [? ?]; discriminate.
    + intros Hnone. apply map_empty. intros g. specialize (Hnone g).
      apply bool_decide_eq_false in Hnone.
      destruct (favorites db !! g); [|reflexivity].
      contradiction Hnone. eauto.
Qed.
End KeyedTableFacts.

(** ** The uploader analyzer *)

Section UploaderFacts.
Import UploaderAnalyzer.






(** X20: [update_uploader_preference] keeps every weight, and so
    every uploader score, in [[0, 1]]; it changes the weight of the
    given uploader only, never lowering it on positive and never
    raising it on negative feedback (an unknown uploader starts from
    0.1); it leaves the gallery counts as they are and does nothing
    for an empty name. *)
Theorem update_uploader_preference_bounds self u is_positive :
  (forall v w, uploader_weights self !! v = Some w -> 0 <= w <= 1) ->
  let self' := update_uploader_preference self u is_positive in
  (forall v w, uploader_weights self' !! v = Some w -> 0 <= w <= 1) /\
  (forall v, 0 <= compute_uploader_score self' v <= 1) /\
  (forall other, other <> u ->
     uploader_weights self' !! other = uploader_weights self !! other) /\
  uploader_gallery_count self' = uploader_gallery_count self /\
  (u = ""%string -> self' = self) /\
  (u <> ""%string ->
   exists w, uploader_weights self' !! u = Some w /\
     compute_uploader_score self' u = w /\
     if is_positive
     then default 0.1 (uploader_weights self !! u) <= w
     else w <= default 0.1 (uploader_weights self !! u)).
Proof.
  intros Hold. cbv zeta.
  set (cur := default 0.1 (uploader_weights self !! u)).
  assert (0 <= cur <= 1) as Hcur.
  { unfold cur. destruct (uploader_weights self !! u) as [w|] eqn:E; cbn.
    - apply (Hold u w E).
    - lra. }
  set (new := if is_positive then Qmin 1.0 (cur + 0.15)
              else Qmax 0.0 (cur - 0.2)).
  assert (0 <= new <= 1 /\ if is_positive then cur <= new else new <= cur)
    as [Hnew Hdir].
  { unfold new. destruct is_positive.
    - destruct (Q.min_spec 1.0 (cur + 0.15)) as [[? E]|[? E]]; lra.
    - destruct (Q.max_spec 0.0 (cur - 0.2)) as [[? E]|[? E]]; lra. }
  assert (forall v w,
            uploader_weights (update_uploader_preference self u is_positive)
              !! v = Some w -> 0 <= w <= 1) as Hrange.
  { intros v w. unfold update_uploader_preference.
    destruct (String.eqb u ""); [apply Hold|].
    cbn [uploader_weights]. destruct (decide (v = u)) as [->|Hne].
    - rewrite lookup_insert_eq. intros [= <-]. exact Hnew.
    - rewrite lookup_insert_ne by congruence. apply Hold. }
  split; [exact Hrange|].
  split; [|split; [|split; [|split]]].
  - intros v. unfold compute_uploader_score.
    destruct (_ || _)%bool; [lra|].
    destruct (uploader_weights _ !! v) as [w|] eqn:Ew;
      [apply (Hrange v w Ew)|lra].
  - intros other Hne. unfold update_uploader_preference.
    destruct (String.eqb u ""); [reflexivity|].
    cbn [uploader_weights]. rewrite lookup_insert_ne by congruence.
    reflexivity.
  - unfold update_uploader_preference.
    destruct (String.eqb u ""); reflexivity.
  - intros ->. reflexivity.
  - intros Hne. exists new. unfold compute_uploader_score.
    apply String.eqb_neq in Hne. unfold update_uploader_preference.
    rewrite Hne. cbn [uploader_weights orb].
    rewrite lookup_insert_eq. fold cur. fold new.
    split; [reflexivity|]. split; [|exact Hdir].
    rewrite bool_decide_eq_false_2; [reflexivity|].
    intros E. apply (f_equal (fun m => m !! u)) in E.
    rewrite lookup_insert_eq, lookup_empty in E. discriminate.
Qed.

Lemma build_uploader_profile_counted self favs :
  counted self -> counted (build_uploader_profile self favs).
Proof.
  intros Hc. unfold build_uploader_profile.
  destruct (length favs =? 0)%nat; [exact Hc|].
  intros u. cbn [uploader_weights uploader_gallery_count].
  rewrite scale_by_lookup, fmap_is_Some.
  intros [w Hw]. apply lookup_union_Some_raw in Hw as [Hw|[_ Hw]].
  - rewrite lookup_fmap in Hw. apply fmap_Some in Hw as (n & Hn & _).
    exists n. apply lookup_union_Some_l, Hn.
  - apply lookup_union_is_Some. right. apply Hc. eauto.
Qed.

Lemma top_sorted_perm (d : gmap string Q) :
  sorted_desc (fun a b : string * Q => Qltb b.2 a.2) (map_to_list d)
  ≡ₚ map_to_list d.
Proof. apply sorted_desc_perm. Qed.

Lemma get_top_uploaders_missing_count self n u :
  is_Some (uploader_weights self !! u) ->
  uploader_gallery_count self !! u = None ->
  (size (uploader_weights self) <= n)%nat ->
  get_top_uploaders self n = Raised "KeyError".
Proof.
  intros [w Hw] Hnone Hsize. unfold get_top_uploaders.
  set (sorted := sorted_desc (fun a b : string * Q => Qltb b.2 a.2)
                   (map_to_list (uploader_weights self))).
  assert (sorted ≡ₚ map_to_list (uploader_weights self)) as Hperm
    by apply top_sorted_perm.
  destruct (mapM _ (take n sorted)) as [l|] eqn:Hl; [|reflexivity].
  exfalso. apply mapM_Some in Hl.
  assert ((u, w) ∈ take n sorted) as Hin.
  { rewrite take_ge.
    - rewrite Hperm. apply elem_of_map_to_list, Hw.
    - rewrite Hperm, length_map_to_list. exact Hsize. }
  apply list_elem_of_lookup in Hin as [i Hi].
  destruct (Forall2_lookup_l _ _ _ _ _ Hl Hi) as (y & _ & Hy).
  cbn in Hy. rewrite Hnone in Hy. discriminate.
Qed.

(** X21: [get_top_uploaders] returns, when every uploader with a
    weight has a gallery count, [n] uploaders (all of them when
    there are fewer) in order of non-increasing weight, each with its
    weight and count, and none that is left out weighs more than a
    listed one; it raises [KeyError] when the
    whole table is listed and some uploader has no count.  The
    invariant holds for a new analyzer and is kept by
    [build_uploader_profile]. *)
Theorem get_top_uploaders_total self n :
  (counted self ->
   exists l, get_top_uploaders self n = Returned l /\
     length l = Nat.min n (size (uploader_weights self)) /\
     StronglySorted (fun a b => b.1.2 <= a.1.2) l /\
     (forall u w c, (u, w, c) ∈ l ->
        uploader_weights self !! u = Some w /\
        uploader_gallery_count self !! u = Some c) /\
     (forall u w c u' w',
        (u, w, c) ∈ l -> uploader_weights self !! u' = Some w' ->
        (forall c', (u', w', c') ∉ l) -> w' <= w)) /\
  (forall u, is_Some (uploader_weights self !! u) ->
     uploader_gallery_count self !! u = None ->
     (size (uploader_weights self) <= n)%nat ->
     get_top_uploaders self n = Raised "KeyError") /\
  counted UploaderAnalyzer.init /\
  (forall favs, counted self -> counted (build_uploader_profile self favs)).
Proof.
  set (sorted := sorted_desc (fun a b : string * Q => Qltb b.2 a.2)
                   (map_to_list (uploader_weights self))).
  assert (sorted ≡ₚ map_to_list (uploader_weights self)) as Hperm
    by apply top_sorted_perm.
  split; [|split; [|split]].
  - intros Hc. unfold get_top_uploaders. fold sorted.
    set (f := fun kv : string * Q =>
                (fun count => (kv.1, kv.2, count))
                  <$> uploader_gallery_count self !! kv.1).
    assert (is_Some (mapM f (take n sorted))) as [l Hl].
    { apply mapM_is_Some. rewrite Forall_forall. intros [u w] Hin.
      unfold f. cbn. rewrite fmap_is_Some. apply Hc. exists w.
      apply elem_of_map_to_list. rewrite <- Hperm.
      eapply (subseteq_take n); exact Hin. }
    rewrite Hl. exists l. split; [reflexivity|].
    apply mapM_Some in Hl.
    split; [|split; [|split]].
    + rewrite <- (Forall2_length _ _ _ Hl), length_take, Hperm,
        length_map_to_list. reflexivity.
    + assert (StronglySorted (fun a b : string * Q => b.2 <= a.2)
                (take n sorted)) as Hs.
      { apply StronglySorted_take.
        eapply StronglySorted_weaken; [|apply sorted_matches_sorted].
        intros a b. unfold Qltb.
        destruct (Qlt_le_dec a.2 b.2); [discriminate|auto]. }
      clear Hperm. revert l Hl.
      induction Hs as [|a l0 Hs IH Ha]; intros l Hl.
      * inversion Hl. constructor.
      * inversion Hl as [|? b ? l' Hab Hl']; subst. constructor; [auto|].
        rewrite Forall_forall in Ha. rewrite Forall_forall. intros x Hx.
        apply list_elem_of_lookup in Hx as [i Hi].
        destruct (Forall2_lookup_r _ _ _ _ _ Hl' Hi) as (y & Hy & Hyx).
        unfold f in Hab, Hyx.
        apply fmap_Some in Hab as (c1 & _ & ->).
        apply fmap_Some in Hyx as (c2 & _ & ->). cbn.
        apply Ha. eapply list_elem_of_lookup_2; exact Hy.
    + intros u w c Hin.
      apply list_elem_of_lookup in Hin as [i Hi].
      destruct (Forall2_lookup_r _ _ _ _ _ Hl Hi) as ([u' w'] & Hy & Hyx).
      unfold f in Hyx. cbn in Hyx.
      apply fmap_Some in Hyx as (c' & Hc' & [= -> -> ->]).
      split; [|exact Hc'].
      apply elem_of_map_to_list. rewrite <- Hperm.
      eapply (subseteq_take n). eapply list_elem_of_lookup_2; exact Hy.
    + intros u w c u' w' Hin Hw' Hout.
      apply list_elem_of_lookup in Hin as [i Hi].
      destruct (Forall2_lookup_r _ _ _ _ _ Hl Hi) as ([u0 w0] & Hy & Hyx).
      unfold f in Hyx. cbn in Hyx.
      apply fmap_Some in Hyx as (c0 & _ & [= -> -> ->]).
      assert ((u', w') ∈ sorted) as Hin'
        by (rewrite Hperm; apply elem_of_map_to_list, Hw').
      rewrite <- (take_drop n sorted) in Hin'.
      apply elem_of_app in Hin' as [Hin'|Hin'].
      * exfalso. apply list_elem_of_lookup in Hin' as [j Hj].
        destruct (Forall2_lookup_l _ _ _ _ _ Hl Hj) as (y & Hy' & Hfy).
        unfold f in Hfy. cbn in Hfy.
        apply fmap_Some in Hfy as (c' & _ & ->).
        apply (Hout c'). eapply list_elem_of_lookup_2; exact Hy'.
      * pose proof (StronglySorted_take_drop _ _ n _ _
                      (sorted_matches_sorted (map_to_list (uploader_weights self)))
                      (list_elem_of_lookup_2 _ _ _ Hy) Hin') as Hle.
        cbn in Hle. unfold Qltb in Hle.
        destruct (Qlt_le_dec _ _); [discriminate|assumption].
  - intros u. apply get_top_uploaders_missing_count.
  - intros u [w Hw]. cbn in Hw. rewrite lookup_empty in Hw. discriminate.
  - intros favs. apply build_uploader_profile_counted.
Qed.

End UploaderFacts.

(** ** The content scorer *)

Section ScorerFacts.
Context `{Json} `{IsoFormat}.
Import ContentScorer.

Lemma R02 : (0.2 = 2 / 10)%R.
Proof. unfold Q2R; cbn; lra. Qed.

Lemma decay_le_1 d : (0 <= d)%Z -> (exp (Ropp 0.002 * IZR d) <= 1)%R.
Proof.
  intros Hd. rewrite <- exp_0.
  destruct (Rle_lt_or_eq_dec 0 (IZR d) (IZR_le _ _ Hd)) as [Hlt| <-].
  - left. apply exp_increasing.
    replace (0.002)%R with (2 / 1000)%R by (unfold Q2R; cbn; lra). lra.
  - right. f_equal. lra.
Qed.

Lemma decay_antitone d1 d2 :
  (d1 <= d2)%Z -> (exp (Ropp 0.002 * IZR d2) <= exp (Ropp 0.002 * IZR d1))%R.
Proof.
  intros Hd. apply IZR_le in Hd.
  destruct (Rle_lt_or_eq_dec _ _ Hd) as [Hlt| ->]; [|lra].
  left. apply exp_increasing.
  replace (0.002)%R with (2 / 1000)%R by (unfold Q2R; cbn; lra). lra.
Qed.

(** X22: [compute_recency_score] lies in [[0.2, 1]]; for one gallery
    it never grows as the clock advances; it is 0.5 for a gallery
    without a readable posting time and 1 for a gallery posted less
    than a day ago (or in the future). *)
Theorem recency_score_range_and_decay self g now :
  (0.2 <= compute_recency_score self g now <= 1)%R /\
  (forall later, (now <= later)%Z ->
     (compute_recency_score self g later
      <= compute_recency_score self g now)%R) /\
  (posted_instant g = None -> compute_recency_score self g now = 0.5%R) /\
  (forall p, posted_instant g = Some p -> (now < p + day)%Z ->
     compute_recency_score self g now = 1%R).
Proof.
  unfold compute_recency_score.
  destruct (posted_instant g) as [p|].
  2: { rewrite R02. replace (0.5)%R with (5 / 10)%R by (unfold Q2R; cbn; lra).
       split; [lra|]. split; [intros; lra|]. split; [reflexivity|].
       intros p Hp. discriminate. }
  cbv zeta.
  assert (forall d, (0 <= d)%Z ->
            Rmax 0.2 (Rmin 1.0 (exp (Ropp 0.002 * IZR d)))
            = Rmax 0.2 (exp (Ropp 0.002 * IZR d))) as Hmin.
  { intros d Hd. f_equal. apply Rmin_right.
    replace (1.0)%R with 1%R by (unfold Q2R; cbn; lra).
    apply decay_le_1, Hd. }
  assert (1.0 = 1)%R as H10 by (unfold Q2R; cbn; lra).
  split; [|split; [|split]].
  - destruct (days_between now p <? 0)%Z eqn:E.
    + rewrite H10, R02. lra.
    + apply Z.ltb_ge in E. rewrite Hmin by exact E.
      split; [apply Rmax_l|].
      apply Rmax_lub; [rewrite R02; lra | apply decay_le_1, E].
  - intros later Hlater.
    assert (days_between now p <= days_between later p)%Z as Hdays.
    { unfold days_between, day. apply Z.div_le_mono; lia. }
    destruct (days_between later p <? 0)%Z eqn:E2.
    + apply Z.ltb_lt in E2.
      assert ((days_between now p <? 0)%Z = true) as -> by (apply Z.ltb_lt; lia).
      lra.
    + apply Z.ltb_ge in E2. rewrite Hmin by exact E2.
      destruct (days_between now p <? 0)%Z eqn:E1.
      * rewrite H10. apply Rmax_lub; [rewrite R02; lra | apply decay_le_1, E2].
      * apply Z.ltb_ge in E1. rewrite Hmin by exact E1.
        apply Rle_max_compat_l, decay_antitone, Hdays.
  - discriminate.
  - intros p' [= <-] Hnow.
    destruct (days_between now p <? 0)%Z eqn:E; [exact H10|].
    apply Z.ltb_ge in E.
    assert (days_between now p = 0)%Z as ->.
    { unfold days_between, day in *.
      apply Z.le_antisymm; [|exact E].
      assert ((now - p) / 86400000000 < 1)%Z; [|lia].
      apply Z.div_lt_upper_bound; lia. }
    rewrite Hmin by lia. rewrite Rmult_0_r, exp_0.
    apply Rmax_right. rewrite R02. lra.
Qed.


Lemma language_score_range (langs : gmap string Q) tags : forall acc,
  (forall tag w, langs !! tag = Some w -> 0 <= w <= 1) ->
  0 <= acc <= 1 ->
  0 <= foldl (fun language_score tag =>
                match langs !! tag with
                | Some w => Qmax language_score w
                | None => language_score
                end) acc tags <= 1.
Proof.
  induction tags as [|t tags IH]; intros acc Hl Hacc; cbn [foldl];
    [exact Hacc|].
  apply IH; [exact Hl|].
  destruct (langs !! t) as [w|] eqn:E; [|exact Hacc].
  specialize (Hl t w E).
  destruct (Q.max_spec acc w) as [[? Em]|[? Em]]; lra.
Qed.

(** X24: when the language and category preferences lie in [[0, 1]],
    [compute_content_score] lies in [[0, 1]]; for a gallery with no
    preferred language tag and a category without preference it is
    0.4. *)
Theorem content_score_range self g :
  (forall tag w, preferred_languages self !! tag = Some w -> 0 <= w <= 1) ->
  (forall cat w, preferred_categories self !! cat = Some w -> 0 <= w <= 1) ->
  0 <= compute_content_score self g <= 1 /\
  ((forall tag, tag ∈ gallery_tags g -> preferred_languages self !! tag = None) ->
   preferred_categories self !! category g = None ->
   compute_content_score self g == 0.4).
Proof.
  intros Hl Hc. unfold compute_content_score. cbv zeta.
  pose proof (language_score_range (preferred_languages self)
                (gallery_tags g) 0.0 Hl ltac:(lra)) as Hls.
  set (ls := foldl _ 0.0 (gallery_tags g)) in *.
  assert (0 <= default 0.3 (preferred_categories self !! category g) <= 1)
    as Hcat.
  { destruct (preferred_categories self !! category g) as [w|] eqn:E; cbn.
    - apply (Hc _ _ E).
    - lra. }
  split.
  - destruct (Qlt_le_dec 0 ls); split;
      try (apply Qle_shift_div_l; lra); apply Qle_shift_div_r; lra.
  - intros Hnone Hcatnone. rewrite Hcatnone. cbn [default].
    assert (ls = 0.0) as ->.
    { unfold ls. clear Hls ls.
      induction (gallery_tags g) as [|t tags IH]; [reflexivity|].
      cbn [foldl]. rewrite (Hnone t) by apply list_elem_of_here.
      apply IH. intros tag Hin. apply Hnone, list_elem_of_further, Hin. }
    destruct (Qlt_le_dec 0 0.0); [lra|]. reflexivity.
Qed.
Lemma ratio_range count total :
  (0 < count)%nat -> (count <= total)%nat -> 0 < ratio count total <= 1.
Proof.
  intros Hc Ht. split; [apply ratio_pos; lia|].
  unfold ratio. apply Qle_shift_div_r.
  - replace 0 with (inject_Z 0) by reflexivity. rewrite <- Zlt_Qlt. lia.
  - rewrite Qmult_1_l. rewrite <- Zle_Qle. lia.
Qed.

Lemma foldl_add_le (l : list nat) : forall a, (a <= foldl Nat.add a l)%nat.
Proof.
  induction l as [|x l IH]; intros a; cbn [foldl]; [lia|].
  specialize (IH (a + x)%nat). lia.
Qed.

Lemma foldl_add_ge (l : list nat) : forall a n,
  n ∈ l -> (n <= foldl Nat.add a l)%nat.
Proof.
  induction l as [|x l IH]; intros a n Hin; [inversion Hin|].
  cbn [foldl]. apply elem_of_cons in Hin as [->|Hin].
  - pose proof (foldl_add_le l (a + x)%nat). lia.
  - apply IH, Hin.
Qed.

Lemma counter_total_ge (c : gmap string nat) k n :
  c !! k = Some n -> (n <= counter_total c)%nat.
Proof.
  intros Hk. unfold counter_total. apply foldl_add_ge.
  apply list_elem_of_fmap. exists (k, n). split; [reflexivity|].
  apply elem_of_map_to_list, Hk.
Qed.

Lemma language_counter_pos favs : forall (c : gmap string nat),
  (forall k n, c !! k = Some n -> (0 < n)%nat) ->
  forall k n,
    foldl (fun c g =>
             foldl (fun c tag =>
                      if is_language_tag tag then counter_incr c tag else c)
                   c (gallery_tags g)) c favs !! k = Some n ->
    (0 < n)%nat.
Proof.
  induction favs as [|g favs IH]; intros c Hc; cbn [foldl]; [exact Hc|].
  apply IH. clear IH. revert c Hc.
  induction (gallery_tags g) as [|t tags IHt]; intros c Hc; cbn [foldl];
    [exact Hc|].
  apply IHt. destruct (is_language_tag t); [|exact Hc].
  intros k n. unfold counter_incr. destruct (decide (k = t)) as [->|Hne].
  - rewrite lookup_insert_eq. intros [= <-]. lia.
  - rewrite lookup_insert_ne by congruence. apply Hc.
Qed.

Lemma category_counter_bound favs : forall (c : gmap string nat) b,
  (forall k n, c !! k = Some n -> (0 < n <= b)%nat) ->
  forall k n,
    foldl (fun c g => counter_incr c (category g)) c favs !! k = Some n ->
    (0 < n <= b + length favs)%nat.
Proof.
  induction favs as [|g favs IH]; intros c b Hc k n; cbn [foldl length].
  - intros Hk. specialize (Hc k n Hk). lia.
  - intros Hk. apply (IH _ (S b)) in Hk; [lia|].
    intros k' n'. unfold counter_incr.
    destruct (decide (k' = category g)) as [->|Hne].
    + rewrite lookup_insert_eq. intros [= <-].
      destruct (c !! category g) as [m|] eqn:E; cbn; [|lia].
      specialize (Hc _ _ E). lia.
    + rewrite lookup_insert_ne by congruence. intros Hk'.
      specialize (Hc _ _ Hk'). lia.
Qed.

(** X25: [build_quality_profile] keeps the language preferences in
    [[0, 1]], builds category preferences that are positive and at
    most 1, and none for the empty category, and leaves the scorer untouched on an empty
    list of favorites; on the profile built from a non-empty list
    every content score lies in [[0, 1]]. *)
Theorem quality_profile_tables_in_range self favs :
  (forall tag w, preferred_languages self !! tag = Some w -> 0 <= w <= 1) ->
  let self' := build_quality_profile self favs in
  (forall tag w, preferred_languages self' !! tag = Some w -> 0 <= w <= 1) /\
  (favs <> [] ->
   forall cat w, preferred_categories self' !! cat = Some w ->
                 0 < w <= 1 /\ cat <> ""%string) /\
  (favs = [] -> self' = self) /\
  (forall g, favs <> [] -> 0 <= compute_content_score self' g <= 1).
Proof.
  intros Hl. cbv zeta.
  assert (forall tag w,
            preferred_languages (build_quality_profile self favs) !! tag
            = Some w -> 0 <= w <= 1) as Hlang.
  { destruct favs as [|g0 favs]; [exact Hl|].
    unfold build_quality_profile. cbn [preferred_languages].
    set (languages := language_counter (g0 :: favs)).
    destruct (0 <? counter_total languages)%nat; [|exact Hl].
    intros tag w. rewrite lookup_fmap. intros (n & Hn & ->)%fmap_Some.
    assert (0 < ratio n (counter_total languages) <= 1); [|lra].
    apply ratio_range.
    - eapply (language_counter_pos (g0 :: favs) ∅); [|exact Hn].
      intros k m Hk. rewrite lookup_empty in Hk. discriminate.
    - eapply counter_total_ge; exact Hn. }
  assert (favs <> [] ->
          forall cat w,
            preferred_categories (build_quality_profile self favs) !! cat
            = Some w -> 0 < w <= 1 /\ cat <> ""%string) as Hcat.
  { intros Hne. destruct favs as [|g0 favs]; [contradiction|].
    unfold build_quality_profile. cbn [preferred_categories].
    intros cat w. rewrite lookup_fmap. intros (n & Hn & ->)%fmap_Some.
    apply map_lookup_filter_Some in Hn as [Hn Hkey]. cbn in Hkey.
    split; [|exact Hkey].
    apply ratio_range;
      apply (category_counter_bound (g0 :: favs) ∅ 0) in Hn;
      try lia; intros k m Hk; rewrite lookup_empty in Hk; discriminate. }
  split; [exact Hlang|]. split; [exact Hcat|]. split.
  - intros ->. reflexivity.
  - intros g Hne. unfold compute_content_score. cbv zeta.
    pose proof (language_score_range
                  (preferred_languages (build_quality_profile self favs))
                  (gallery_tags g) 0.0 Hlang ltac:(lra)) as Hls.
    set (ls := foldl _ 0.0 (gallery_tags g)) in *.
    assert (0 <= default 0.3
                   (preferred_categories (build_quality_profile self favs)
                      !! category g) <= 1) as Hc.
    { destruct (preferred_categories _ !! category g) as [w|] eqn:E; cbn.
      - destruct (Hcat Hne _ _ E) as [? _]. lra.
      - lra. }
    destruct (Qlt_le_dec 0 ls); split;
      try (apply Qle_shift_div_l; lra); apply Qle_shift_div_r; lra.
Qed.
End ScorerFacts.

(** ** The crawler, continued *)

Section CrawlerExtras.
Context `{FavoritesCrawler.Upstream}.
Import FavoritesCrawler.

Lemma dedup_links_spec matches : forall seen,
  NoDup (dedup_links seen matches) /\
  (forall key, key ∈ dedup_links seen matches
               <-> key ∈ matches /\ key ∉ seen) /\
  dedup_links seen matches `sublist_of` matches.
Proof.
  induction matches as [|k rest IH]; intros seen; cbn [dedup_links].
  - split; [constructor|]. split; [|constructor].
    intros key. split; [inversion 1|intros [Hin _]; inversion Hin].
  - destruct (bool_decide (k ∈ seen)) eqn:E.
    + apply bool_decide_eq_true in E.
      destruct (IH seen) as (Hnd & Hel & Hsub).
      split; [exact Hnd|]. split; [|apply sublist_cons, Hsub].
      intros key. rewrite Hel, elem_of_cons. split; [tauto|].
      intros [[->|Hin] Hout]; [contradiction|auto].
    + apply bool_decide_eq_false in E.
      destruct (IH ({[k]} ∪ seen)) as (Hnd & Hel & Hsub).
      split; [|split; [|apply sublist_skip, Hsub]].
      * constructor; [|exact Hnd]. rewrite Hel. set_solver.
      * intros key. rewrite !elem_of_cons, Hel.
        destruct (decide (key = k)) as [->|Hne]; set_solver.
Qed.

Lemma attach_favtimes_pairs now favtimes links :
  (fun item => item.1) <$> attach_favtimes now favtimes links = links.
Proof.
  revert favtimes. induction links as [|[g tok] links IH]; intros favtimes;
    [reflexivity|].
  cbn. destruct favtimes as [|[dt|] favtimes']; cbn; f_equal; apply IH.
Qed.

(** X26: the items of a page of [fetch_favorites_page] carry pairwise
    distinct (gid, token) pairs; these are exactly the links found in
    the (non-empty) response; a failed request gives the empty page;
    and a page without items has no next token. *)
Theorem fetch_favorites_page_distinct favcat tok now :
  let page := fetch_favorites_page favcat tok now in
  NoDup ((fun item => item.1) <$> items page) /\
  (forall g t, (g, t) ∈ (fun item => item.1) <$> items page ->
     exists html, _make_request favcat tok = Some html /\
                  (g, t) ∈ link_matches html) /\
  (forall html, _make_request favcat tok = Some html -> html <> ""%string ->
     forall key, key ∈ link_matches html ->
                 key ∈ (fun item => item.1) <$> items page) /\
  (_make_request favcat tok = None -> page = empty_page) /\
  (items page = [] -> next_token page = None).
Proof.
  cbv zeta. unfold fetch_favorites_page.
  destruct (_make_request favcat tok) as [html|] eqn:Ereq.
  2: { cbn. split; [constructor|]. split; [inversion 1|].
       split; [discriminate|]. auto. }
  destruct (String.eqb html "") eqn:Ehtml.
  { cbn. split; [constructor|]. split; [inversion 1|].
    split; [|split; [discriminate|reflexivity]].
    intros html' [= <-] Hne. apply String.eqb_eq in Ehtml. contradiction. }
  destruct (link_matches html) as [|m ms] eqn:Em.
  { cbn. split; [constructor|]. split; [inversion 1|].
    split; [|split; [discriminate|reflexivity]].
    intros html' [= <-] _ key Hkey. rewrite Em in Hkey. inversion Hkey. }
  cbn [items next_token]. rewrite attach_favtimes_pairs.
  destruct (dedup_links_spec (m :: ms) ∅) as (Hnd & Hel & _).
  split; [exact Hnd|]. split; [|split; [|split; [discriminate|]]].
  - intros g t Hin. exists html. split; [reflexivity|].
    rewrite Em. apply Hel, Hin.
  - intros html' [= <-] _ key Hkey. rewrite Em in Hkey. apply Hel.
    split; [exact Hkey|set_solver].
  - intros Hnil. exfalso.
    assert ((fun item : Z * string * Z => item.1)
              <$> attach_favtimes now (favtime_matches html)
                    (dedup_links ∅ (m :: ms)) = []) as E
      by (rewrite Hnil; reflexivity).
    rewrite attach_favtimes_pairs in E.
    assert (m ∈ dedup_links ∅ (m :: ms)) as Hm
      by (apply Hel; split; [apply list_elem_of_here|set_solver]).
    rewrite E in Hm. inversion Hm.
Qed.
Lemma all_favorites_loop_requests n favcat now : forall tok acc requested,
  exists new,
    (all_favorites_loop n favcat now tok acc requested).2 = requested ++ new /\
    (length new <= n)%nat /\
    ((0 < n)%nat -> head new = Some tok).
Proof.
  induction n as [|n IH]; intros tok acc requested; cbn [all_favorites_loop].
  - exists []. rewrite app_nil_r. split; [reflexivity|]. split; [cbn|]; lia.
  - destruct (items (fetch_favorites_page favcat tok now)) as [|i l].
    { exists [tok]. split; [reflexivity|]. split; [cbn; lia|reflexivity]. }
    destruct (more_pages _) as [tok'|].
    + destruct (IH tok' (acc ++ i :: l) (requested ++ [tok]))
        as (new & -> & Hlen & _).
      exists (tok :: new). rewrite <- app_assoc.
      split; [reflexivity|]. split; [cbn; lia|reflexivity].
    + exists [tok]. split; [reflexivity|]. split; [cbn; lia|reflexivity].
Qed.

Lemma new_favorites_loop_requests n known favcat now :
  forall tok acc requested,
  exists new,
    (new_favorites_loop n known favcat now tok acc requested).2
    = requested ++ new /\
    (length new <= n)%nat.
Proof.
  induction n as [|n IH]; intros tok acc requested; cbn [new_favorites_loop].
  - exists []. rewrite app_nil_r. split; [reflexivity|cbn; lia].
  - destruct (items (fetch_favorites_page favcat tok now)) as [|i l].
    { exists [tok]. split; [reflexivity|cbn; lia]. }
    destruct (List.filter _ (i :: l)) as [|j l'].
    { exists [tok]. split; [reflexivity|cbn; lia]. }
    destruct (more_pages _) as [tok'|].
    + destruct (IH tok' (acc ++ j :: l') (requested ++ [tok]))
        as (new & -> & Hlen).
      exists (tok :: new). rewrite <- app_assoc.
      split; [reflexivity|cbn; lia].
    + exists [tok]. split; [reflexivity|cbn; lia].
Qed.

(** X27: [fetch_all_favorites] and [fetch_new_favorites] request at
    most [max_pages] pages, and none for [max_pages <= 0]; a full
    sync starts with the first page and returns nothing when that
    page has no item. *)
Theorem sync_requests_bounded favcat max_pages now known :
  let full := fetch_all_favorites favcat max_pages now in
  let incremental := fetch_new_favorites known favcat max_pages now in
  (length full.2 <= Z.to_nat max_pages)%nat /\
  (length incremental.2 <= Z.to_nat max_pages)%nat /\
  ((max_pages <= 0)%Z -> full = ([], []) /\ incremental = ([], [])) /\
  ((0 < max_pages)%Z -> head full.2 = Some ""%string) /\
  (items (fetch_favorites_page favcat "" now) = [] -> full.1 = []).
Proof.
  cbv zeta. unfold fetch_all_favorites, fetch_new_favorites.
  destruct (all_favorites_loop_requests (Z.to_nat max_pages) favcat now
              "" [] []) as (new & Hreq & Hlen & Hhead).
  destruct (new_favorites_loop_requests (Z.to_nat max_pages) known favcat now
              "" [] []) as (new' & Hreq' & Hlen').
  rewrite Hreq, Hreq'. cbn [app].
  split; [exact Hlen|]. split; [exact Hlen'|]. split; [|split].
  - intros Hle. replace (Z.to_nat max_pages) with 0%nat by lia.
    split; reflexivity.
  - intros Hpos. apply Hhead. lia.
  - intros Hnil. destruct (Z.to_nat max_pages); cbn [all_favorites_loop];
      [reflexivity|]. rewrite Hnil. reflexivity.
Qed.

Lemma all_favorites_loop_app n favcat now : forall tok acc requested,
  (all_favorites_loop n favcat now tok acc requested).1
  = acc ++ (all_favorites_loop n favcat now tok [] []).1.
Proof.
  induction n as [|n IH]; intros tok acc requested; cbn [all_favorites_loop].
  - rewrite app_nil_r. reflexivity.
  - destruct (items (fetch_favorites_page favcat tok now)) as [|i l].
    { rewrite app_nil_r. reflexivity. }
    destruct (more_pages _) as [tok'|].
    + rewrite (IH tok' (acc ++ i :: l)), (IH tok' ([] ++ i :: l)).
      rewrite <- app_assoc. reflexivity.
    + reflexivity.
Qed.

Lemma new_favorites_loop_items n known favcat now :
  forall tok acc requested item,
    item ∈ (new_favorites_loop n known favcat now tok acc requested).1 ->
    item ∈ acc \/
    ((item.1.1 ∉ known) /\
     item ∈ (all_favorites_loop n favcat now tok [] []).1).
Proof.
  induction n as [|n IH]; intros tok acc requested item;
    cbn [new_favorites_loop all_favorites_loop]; [auto|].
  destruct (items (fetch_favorites_page favcat tok now)) as [|i l] eqn:Ei;
    [auto|].
  destruct (List.filter _ (i :: l)) as [|j l'] eqn:Ef; [auto|].
  assert (forall x, x ∈ j :: l' -> (x.1.1 ∉ known) /\ x ∈ i :: l) as Hnew.
  { intros x Hx. rewrite <- Ef in Hx.
    apply list_elem_of_In, filter_In in Hx as [Hx Hk].
    apply bool_decide_eq_true in Hk. split; [exact Hk|].
    apply list_elem_of_In, Hx. }
  destruct (more_pages _) as [tok'|].
  - intros Hin. apply IH in Hin as [Hin|[Hk Hin]].
    + apply elem_of_app in Hin as [Hin|Hin]; [auto|].
      right. destruct (Hnew item Hin) as [Hk Hin']. split; [exact Hk|].
      apply all_favorites_loop_keeps. exact Hin'.
    + right. split; [exact Hk|].
      rewrite all_favorites_loop_app. apply elem_of_app. auto.
  - cbn [fst]. intros Hin. apply elem_of_app in Hin as [Hin|Hin]; [auto|].
    right. destruct (Hnew item Hin) as [Hk Hin']. split; [exact Hk|exact Hin'].
Qed.

(** X28: every item [fetch_new_favorites] returns has an id outside
    [known_gids] and is an item the full sync of the same listing
    returns. *)
Theorem incremental_sync_sound known favcat max_pages now item :
  item ∈ (fetch_new_favorites known favcat max_pages now).1 ->
  (item.1.1 ∉ known) /\
  item ∈ (fetch_all_favorites favcat max_pages now).1.
Proof.
  unfold fetch_new_favorites, fetch_all_favorites. intros Hin.
  apply new_favorites_loop_items in Hin as [Hin|Hin]; [inversion Hin|exact Hin].
Qed.

Lemma fetch_all_categories_fold favcats max_pages now :
  forall acc requested,
    let r := foldl (fun '(all_galleries, requested) favcat =>
               let '(galleries, tokens) :=
                 fetch_all_favorites (FavcatNumber favcat) max_pages now in
               (all_galleries ++ galleries,
                requested
                  ++ ((fun tok => (FavcatNumber favcat, tok)) <$> tokens)))
              (acc, requested) favcats in
    r.1 = acc ++ concat ((fun favcat =>
                            (fetch_all_favorites (FavcatNumber favcat)
                               max_pages now).1) <$> favcats) /\
    (length r.2 <= length requested
                   + length favcats * Z.to_nat max_pages)%nat.
Proof.
  induction favcats as [|c favcats IH]; intros acc requested; cbn [foldl].
  - cbn. rewrite app_nil_r. split; [reflexivity|lia].
  - assert (length (fetch_all_favorites (FavcatNumber c) max_pages now).2
            <= Z.to_nat max_pages)%nat as Hlen.
    { unfold fetch_all_favorites.
      destruct (all_favorites_loop_requests (Z.to_nat max_pages)
                  (FavcatNumber c) now "" [] []) as (new & -> & Hlen & _).
      exact Hlen. }
    destruct (fetch_all_favorites (FavcatNumber c) max_pages now)
      as [galleries tokens] eqn:E.
    specialize (IH (acc ++ galleries)
                  (requested ++ ((fun tok => (FavcatNumber c, tok)) <$> tokens))).
    cbv zeta in IH. destruct IH as [-> Hlen'].
    split.
    + cbn [fmap list_fmap concat]. rewrite E. cbn [fst].
      rewrite <- app_assoc. reflexivity.
    + rewrite length_app, length_fmap in Hlen'. cbn [snd length] in *. lia.
Qed.
(** X29: [fetch_all_categories] returns exactly the items of the full
    syncs of the categories 0 to 9 and requests at most ten times
    [max_pages_per_category] pages. *)
Theorem fetch_all_categories_covers max_pages now :
  let r := fetch_all_categories max_pages now in
  (forall item,
     item ∈ r.1 <->
     exists favcat, (0 <= favcat < 10)%Z /\
       item ∈ (fetch_all_favorites (FavcatNumber favcat) max_pages now).1) /\
  (length r.2 <= 10 * Z.to_nat max_pages)%nat.
Proof.
  cbv zeta. unfold fetch_all_categories.
  destruct (fetch_all_categories_fold (seqZ 0 10) max_pages now [] [])
    as [Hitems Hlen].
  cbv zeta in Hitems, Hlen. rewrite Hitems. split.
  - intros item. cbn [app]. rewrite list_elem_of_In, in_concat. split.
    + intros (l & Hl & Hin). apply list_elem_of_In in Hl, Hin.
      apply list_elem_of_fmap in Hl as (c & -> & Hc).
      exists c. split; [|exact Hin]. apply elem_of_seqZ in Hc. lia.
    + intros (c & Hc & Hin). eexists. split; [|apply list_elem_of_In, Hin].
      apply list_elem_of_In, list_elem_of_fmap. exists c.
      split; [reflexivity|]. apply elem_of_seqZ. lia.
  - rewrite length_seqZ in Hlen. cbn [length] in Hlen.
    change (Z.to_nat 10) with 10%nat in Hlen. lia.
Qed.
End CrawlerExtras.

(** ** The scheduler *)

Section SchedulerFacts.
Context `{Json} `{IsoFormat} `{Sklearn} `{EhdbDatabase.Store}
        `{FavoritesCrawler.Upstream}.
Import TaskScheduler.

Lemma save_favorites_lookup new_favorites : forall db now g,
  Database.favorites (save_favorites db new_favorites now) !! g
  = match last (List.filter (fun item => (item.1.1 =? g)%Z) new_favorites) with
    | Some item =>
        Some {| Database.fav_token := item.1.2;
                Database.added_time := item.2;
                Database.last_sync := now |}
    | None => Database.favorites db !! g
    end.
Proof.
  induction new_favorites as [|[[g0 tok] added] l IH] using rev_ind;
    intros db now g.
  - reflexivity.
  - unfold save_favorites in *. rewrite foldl_app. cbn [foldl].
    rewrite List.filter_app. cbn [List.filter fst snd].
    unfold Database.add_favorite at 1.
    cbn [Database.favorites Database.with_favorites].
    destruct (Z.eqb_spec g0 g) as [->|Hne].
    + rewrite last_snoc, lookup_insert_eq. reflexivity.
    + rewrite app_nil_r, lookup_insert_ne by congruence. apply IH.
Qed.

Lemma save_favorites_static new_favorites : forall db now,
  Database.feedback (save_favorites db new_favorites now) = Database.feedback db /\
  Database.recommendation_history (save_favorites db new_favorites now)
  = Database.recommendation_history db /\
  Database.user_preferences (save_favorites db new_favorites now)
  = Database.user_preferences db.
Proof.
  induction new_favorites as [|[[g0 tok] added] l IH]; intros db now;
    [auto|].
  unfold save_favorites in *. cbn [foldl].
  destruct (IH (Database.add_favorite db g0 tok added now) now)
    as (-> & -> & ->).
  auto.
Qed.

Lemma get_all_favorites_gids db g :
  g ∈ (Database.get_all_favorites db).*1
  <-> is_Some (Database.favorites db !! g).
Proof.
  unfold Database.get_all_favorites. rewrite <- list_fmap_compose.
  rewrite list_elem_of_fmap. split.
  - intros ([k row] & -> & Hin). apply elem_of_map_to_list in Hin. eauto.
  - intros [row Hrow]. exists (g, row). split; [reflexivity|].
    apply elem_of_map_to_list, Hrow.
Qed.

Lemma last_filter_elem {A} (p : A -> bool) (l : list A) x :
  last (List.filter p l) = Some x -> x ∈ l /\ p x = true.
Proof.
  intros Hlast. apply last_Some in Hlast as [l' Hl'].
  assert (In x (List.filter p l)) as Hin
    by (rewrite Hl'; apply in_or_app; right; left; reflexivity).
  apply filter_In in Hin as [Hin Hp]. split; [apply list_elem_of_In, Hin|exact Hp].
Qed.

Lemma last_filter_None {A} (p : A -> bool) (l : list A) :
  last (List.filter p l) = None <-> forall x, x ∈ l -> p x = false.
Proof.
  rewrite last_None. split.
  - intros Hnil x Hin. destruct (p x) eqn:E; [|reflexivity].
    assert (In x (List.filter p l)) as Hx
      by (apply filter_In; split; [apply list_elem_of_In, Hin|exact E]).
    rewrite Hnil in Hx. destruct Hx.
  - intros Hall. induction l as [|y l IH]; [reflexivity|].
    cbn. rewrite (Hall y) by apply list_elem_of_here.
    apply IH. intros x Hx. apply Hall, list_elem_of_further, Hx.
Qed.

(** X30: after [task_sync_favorites] a gallery is favorited exactly
    when it was before or the incremental crawl reported it; the
    rows of the earlier favorites, the feedback, the recommendation
    history and every feedback count are unchanged, whether or not
    the rebuild raises; and without a new favorite the recommender
    is left as it was. *)
Theorem task_sync_favorites_adds_new crawl_time save_time init_time self :
  let db := Engine.database (recommender self) in
  let known_gids : gset Z :=
    list_to_set ((Database.get_all_favorites db).*1) in
  let new_favorites :=
    (FavoritesCrawler.fetch_new_favorites known_gids
       FavoritesCrawler.FavcatAll 10 crawl_time).1 in
  let self' := task_sync_favorites crawl_time save_time init_time self in
  let db' := Engine.database (recommender self') in
  (forall g, Database.is_favorited db' g = true <->
             Database.is_favorited db g = true \/ g ∈ gids_of new_favorites) /\
  (forall g row, Database.favorites db !! g = Some row ->
                 Database.favorites db' !! g = Some row) /\
  Database.feedback db' = Database.feedback db /\
  Database.recommendation_history db' = Database.recommendation_history db /\
  (forall tag,
     TagAnalyzer.stats_of (Database.get_all_tag_feedback_stats db') tag
     = TagAnalyzer.stats_of (Database.get_all_tag_feedback_stats db) tag) /\
  (new_favorites = [] -> recommender self' = recommender self).
Proof.
  cbv zeta.
  set (db := Engine.database (recommender self)).
  set (known := list_to_set ((Database.get_all_favorites db).*1) : gset Z).
  set (new := (FavoritesCrawler.fetch_new_favorites known
                 FavoritesCrawler.FavcatAll 10 crawl_time).1).
  set (saved := save_favorites db new save_time).
  assert (exists weights,
            Engine.database
              (recommender
                 (task_sync_favorites crawl_time save_time init_time self))
            = Database.sync_tag_preferences saved weights init_time)
    as [weights Hdb].
  { unfold task_sync_favorites. cbv zeta.
    cbn [recommender log with_recommender]. fold db. fold known. fold new.
    fold saved.
    destruct new as [|i l] eqn:Enew.
    - exists ∅. cbn [recommender log with_recommender Engine.database
                      Engine.with_database].
      rewrite sync_tag_preferences_empty. reflexivity.
    - destruct (initialize_database init_time
                  (Engine.with_database (recommender self) saved))
        as [weights Hw].
      exists weights.
      destruct (Engine.initialize init_time _) as [[[]|e] engine];
        cbn [recommender log with_recommender snd] in *; exact Hw. }
  rewrite Hdb.
  destruct (sync_tag_preferences_static saved weights init_time)
    as (Hfav & Hfb & Hhist).
  destruct (save_favorites_static new db save_time) as (Hfb' & Hhist' & Hpref').
  assert (forall item, item ∈ new -> item.1.1 ∉ known) as Hnew.
  { intros item Hin. unfold new, FavoritesCrawler.fetch_new_favorites in Hin.
    apply new_favorites_loop_items in Hin as [Hin|[Hk _]];
      [inversion Hin|exact Hk]. }
  assert (forall g, g ∈ known <-> is_Some (Database.favorites db !! g))
    as Hknown.
  { intros g. unfold known. rewrite elem_of_list_to_set.
    apply get_all_favorites_gids. }
  split; [|split; [|split; [|split; [|split]]]].
  - intros g. unfold Database.is_favorited.
    rewrite !bool_decide_eq_true, Hfav.
    unfold saved. rewrite save_favorites_lookup.
    destruct (last _) as [item|] eqn:Elast.
    + apply last_filter_elem in Elast as [Hin Hg].
      apply Z.eqb_eq in Hg. split; [|eauto]. intros _. right.
      unfold gids_of. apply list_elem_of_fmap. exists item. auto.
    + split; [auto|]. intros [Hold|Hin]; [exact Hold|].
      exfalso. unfold gids_of in Hin.
      apply list_elem_of_fmap in Hin as (item & -> & Hin).
      pose proof (proj1 (last_filter_None _ _) Elast item Hin) as Hp.
      cbn in Hp. rewrite Z.eqb_refl in Hp. discriminate.
  - intros g row Hrow. rewrite Hfav. unfold saved.
    rewrite save_favorites_lookup.
    destruct (last _) as [item|] eqn:Elast; [|exact Hrow].
    exfalso. apply last_filter_elem in Elast as [Hin Hg].
    apply Z.eqb_eq in Hg. apply (Hnew item Hin). rewrite Hg.
    apply Hknown. eauto.
  - rewrite Hfb. exact Hfb'.
  - rewrite Hhist. exact Hhist'.
  - intros tag. rewrite stats_of_synced.
    unfold Database.get_all_tag_feedback_stats. fold saved in Hpref'.
    rewrite Hpref'. reflexivity.
  - intros Hnil. unfold task_sync_favorites. cbv zeta.
    cbn [recommender log with_recommender]. fold db. fold known. fold new.
    rewrite Hnil. cbn [recommender log with_recommender save_favorites foldl].
    unfold db. destruct (recommender self) as [d ?]. destruct d. reflexivity.
Qed.
End SchedulerFacts.

(** ** Closed instances of the further properties *)

Section FurtherWitnesses.
#[local] Existing Instance Sample.json.
#[local] Existing Instance Sample.isoformat.
#[local] Existing Instance Sample.sklearn.
#[local] Existing Instance Sample.store.
#[local] Existing Instance Sample.upstream.

Lemma tag_weights_without_feedback_witness :
  option_Forall2 Qeq
    ((TagAnalyzer.compute_tag_weights_from_favorites TagAnalyzer.init
        [Sample.tagged 7 ["female:elf"%string]] None).1
       !! "female:elf"%string)
    (TagAnalyzer._get_base_weights_for_sync
       [Sample.tagged 7 ["female:elf"%string]] !! "female:elf"%string).
Proof.
  apply (tag_weights_without_feedback TagAnalyzer.init
           [Sample.tagged 7 ["female:elf"%string]] None "female:elf").
  intros tag. unfold TagAnalyzer.stats_of. cbn [default].
  rewrite lookup_empty. reflexivity.
Defined.

Lemma tag_similarity_range_witness :
  (0 <= TagAnalyzer.compute_tag_similarity Sample.elf_profile
          ["female:elf"%string] <= 1)%R.
Proof.
  refine (proj1 (tag_similarity_range Sample.elf_profile
                   ["female:elf"%string] _ _)).
  - intros tag w Hw. cbn in Hw.
    apply lookup_singleton_Some in Hw as [_ <-]. discriminate.
  - intros vec uv c Hvec. discriminate Hvec.
Defined.

Lemma handle_feedback_counts_tags_witness :
  let self' :=
    (Engine.handle_feedback 7 1 "new" 5 Sample.fresh_engine).2 in
  TagAnalyzer.stats_of
    (Database.get_all_tag_feedback_stats (Engine.database self'))
    "female:elf"
  = (1%nat, 0%nat).
Proof.
  exact (proj1 (handle_feedback_counts_tags 7 1 "new" 5 Sample.fresh_engine
                  (Sample.tagged 7 ["female:elf"; "language:japanese"]%string)
                  "female:elf" eq_refl)).
Defined.

Lemma store_failure_propagates_witness :
  let r :=
    Engine.recommend_new_galleries (H2 := Sample.outage) 0 10 5
      Sample.fresh_engine in
  r.1 = Raised "OperationalError"
  /\ Engine.database r.2 = Engine.database Sample.fresh_engine.
Proof.
  exact (proj1 (store_failure_propagates (H2 := Sample.outage)
                  "OperationalError" 5 Sample.fresh_engine)
           0%Z 10%Z eq_refl).
Defined.


Lemma update_uploader_preference_bounds_witness :
  0 <= UploaderAnalyzer.compute_uploader_score
         (UploaderAnalyzer.update_uploader_preference UploaderAnalyzer.init
            "alice" true) "alice" <= 1.
Proof.
  refine (proj1 (proj2 (update_uploader_preference_bounds
                          UploaderAnalyzer.init "alice" true _))
            "alice"%string).
  intros v w Hw. cbn in Hw. rewrite lookup_empty in Hw. discriminate.
Defined.


Lemma content_score_range_witness :
  0 <= ContentScorer.compute_content_score ContentScorer.init Sample.g8 <= 1.
Proof.
  refine (proj1 (content_score_range ContentScorer.init Sample.g8 _ _)).
  - intros tag w Hw. cbn in Hw. rewrite lookup_empty in Hw. discriminate.
  - intros cat w Hw. cbn in Hw. rewrite lookup_empty in Hw. discriminate.
Defined.

Lemma quality_profile_tables_in_range_witness :
  0 <= ContentScorer.compute_content_score
         (ContentScorer.build_quality_profile ContentScorer.init [Sample.g8])
         Sample.g8 <= 1.
Proof.
  refine (proj2 (proj2 (proj2 (quality_profile_tables_in_range
                                 ContentScorer.init [Sample.g8] _)))
            Sample.g8 _).
  - intros tag w Hw. cbn in Hw. rewrite lookup_empty in Hw. discriminate.
  - discriminate.
Defined.

Lemma incremental_sync_sound_witness :
  (4%Z ∉ ({[5%Z]} : gset Z)) /\
  (4%Z, "bbbbbbbbbb"%string, 1800000000%Z)
    ∈ (FavoritesCrawler.fetch_all_favorites FavoritesCrawler.FavcatAll 10
         1800000000).1.
Proof.
  apply (incremental_sync_sound {[5%Z]} FavoritesCrawler.FavcatAll 10
           1800000000 (4%Z, "bbbbbbbbbb"%string, 1800000000%Z)).
  rewrite (proj2 incremental_sync_sample). apply list_elem_of_here.
Defined.
End FurtherWitnesses.
